(** * Alt-text bulk updater: a shallow embedding of [main.py] and of
    the log analysis of [report.py]

    The development follows the layout of the source files:

    - [PyStr]: the [str] methods the program calls ([split], [join],
      [lower], [replace], [strip], [startswith], [int(...)]), over
      strings of code points below 256 (Latin-1, which covers ASCII and
      the accented letters of Portuguese product names);
    - [AltText]: [normalize_product_name] and
      [generate_natural_alt_text];
    - [Checkpoint]: the list behind [CheckpointManager];
    - [SkuFile]: [load_sku_list] and
      [remove_processed_skus_from_file] over the text of the list file;
    - [Engine]: [safe_request], [update_image_alt],
      [process_sku_images], [get_sku_details], [process_single_sku] and
      the worker loop of [run_bulk_update], over an arbitrary
      [SESSION.request], with the trace of requests and sleeps they
      perform;
    - [Session]: the session [create_session] builds, which retries
      inside [SESSION.request];
    - [Remotes]: concrete remote services (a scripted one, one that
      always throttles, and a catalog with stored image records) on
      which the engine is run;
    - [Scenario]: the data of the examples;
    - [PyText]: [in] on two strings, [str] of an integer, and texts
      written out from words and white space;
    - [Run]: what the properties read off the trace of a run;
    - [Log]: [log_message] over the console and the two log files, and
      the line [update_image_alt] logs;
    - [Report]: the readers and the two analyses of [report.py].

    Left out: the log lines of the engine's functions (the engine is
    modelled without them: no function of [main.py] reads a log back);
    errors of the local file system, which the program logs and
    swallows; the interleaving of the worker threads (the workers run
    one after the other, in the order of the list);
    [KeyboardInterrupt]; the clock of [RateLimiter] (a call of [wait]
    is an event of the trace); the pauses urllib3 makes between two
    attempts of one [SESSION.request]; redirects; the JSON text of the
    checkpoint file, and a checkpoint file that holds other JSON than
    the object [save] writes (on which the program raises [KeyError]);
    the rendering of the report. *)

From Stdlib Require Import ZArith Ascii String List Bool Lia.
From Stdlib Require Import DecimalString DecimalPos.
From stdpp Require Import base tactics option list gmap strings.

#[local] Set Warnings "-register-all".
#[local] Open Scope string_scope.
#[local] Open Scope list_scope.

(** ** Python [str] primitives *)

Module PyStr.

(** [str.isspace] on one code point: TAB..CR, FS..US, space, NEL and
    NBSP are the white-space code points below 256. *)
Definition isspace (c : ascii) : bool :=
  let n := N_of_ascii c in
  (((9 <=? n) && (n <=? 13)) || ((28 <=? n) && (n <=? 32))
   || (n =? 133) || (n =? 160))%N.

(** [str.lower] on one code point: A..Z and the upper-case letters
    U+00C0..U+00DE (all but the multiplication sign U+00D7) move up by
    32; every other code point below 256 is its own lower case. *)
Definition lower_char (c : ascii) : ascii :=
  let n := N_of_ascii c in
  if (((65 <=? n) && (n <=? 90))
      || ((192 <=? n) && (n <=? 222) && negb (n =? 215)))%N
  then ascii_of_N (n + 32) else c.

Fixpoint lower (s : string) : string :=
  match s with
  | EmptyString => EmptyString
  | String c s' => String (lower_char c) (lower s')
  end.

(** [s.split()] with no argument: the maximal runs of non-white-space
    characters, in order.  [w] is the word being read. *)
Fixpoint split_from (w s : string) : list string :=
  match s with
  | EmptyString => match w with EmptyString => [] | _ => [w] end
  | String c s' =>
      if isspace c
      then match w with
           | EmptyString => split_from EmptyString s'
           | _ => w :: split_from EmptyString s'
           end
      else split_from (w +:+ String c EmptyString) s'
  end.

Definition split (s : string) : list string := split_from EmptyString s.

(** [sep.join(l)] *)
Fixpoint join (sep : string) (l : list string) : string :=
  match l with
  | [] => EmptyString
  | x :: rest =>
      match rest with
      | [] => x
      | _ :: _ => x +:+ sep +:+ join sep rest
      end
  end.

(** [s.replace(old, new)] for a non-empty [old]: occurrences are
    replaced left to right and do not overlap.  [skip] counts the
    characters of an occurrence still to be dropped. *)
Fixpoint replace_from (old new : string) (skip : nat) (s : string) : string :=
  match s with
  | EmptyString => EmptyString
  | String c s' =>
      match skip with
      | S k => replace_from old new k s'
      | O =>
          if String.prefix old s
          then new +:+ replace_from old new (String.length old - 1) s'
          else String c (replace_from old new 0 s')
      end
  end.

Definition replace (old new s : string) : string := replace_from old new 0 s.

Fixpoint lstrip (s : string) : string :=
  match s with
  | EmptyString => EmptyString
  | String c s' => if isspace c then lstrip s' else s
  end.

Fixpoint rstrip (s : string) : string :=
  match s with
  | EmptyString => EmptyString
  | String c s' =>
      match rstrip s' with
      | EmptyString => if isspace c then EmptyString else String c EmptyString
      | r => String c r
      end
  end.

(** [s.strip()] *)
Definition strip (s : string) : string := rstrip (lstrip s).

(** [s.startswith(p)] *)
Definition startswith (p s : string) : bool := String.prefix p s.

(** Truth value of a [str]: non-empty. *)
Definition nonempty (s : string) : bool :=
  match s with EmptyString => false | String _ _ => true end.

Definition is_digit (c : ascii) : bool :=
  let n := N_of_ascii c in ((48 <=? n) && (n <=? 57))%N.

Definition digit_value (c : ascii) : Z := Z.of_N (N_of_ascii c) - 48.

(** The digits of an [int] literal: decimal digits, with single
    underscores allowed between two digits.  [after_digit] tells whether
    the previous character was a digit. *)
Fixpoint int_digits (acc : Z) (after_digit : bool) (s : string) : option Z :=
  match s with
  | EmptyString => if after_digit then Some acc else None
  | String c s' =>
      if is_digit c then int_digits (10 * acc + digit_value c) true s'
      else if Ascii.eqb c "_" && after_digit then
             match s' with
             | EmptyString => None
             | String d _ => if is_digit d then int_digits acc false s' else None
             end
           else None
  end.

(** The white space [int] skips around a numeral: it turns the Unicode
    spaces above U+007E into a blank (NEL and NBSP below 256) and then
    skips the C white space TAB..CR and the blank.  FS..US, which
    [str.isspace] and [str.strip] take for white space, are not skipped:
    [int] raises on them. *)
Definition int_space (c : ascii) : bool :=
  let n := N_of_ascii c in
  (((9 <=? n) && (n <=? 13)) || (n =? 32) || (n =? 133) || (n =? 160))%N.

Fixpoint int_lstrip (s : string) : string :=
  match s with
  | EmptyString => EmptyString
  | String c s' => if int_space c then int_lstrip s' else s
  end.

Fixpoint int_rstrip (s : string) : string :=
  match s with
  | EmptyString => EmptyString
  | String c s' =>
      match int_rstrip s' with
      | EmptyString => if int_space c then EmptyString else String c EmptyString
      | r => String c r
      end
  end.

(** [int(s)] for a [str] argument: the white space around the numeral
    is skipped, one sign is allowed, the value is unbounded (the
    interpreter's limit on the number of digits is not modelled).
    [None] stands for [ValueError]. *)
Definition parse_int (s : string) : option Z :=
  match int_rstrip (int_lstrip s) with
  | String "-" d => Z.opp <$> int_digits 0 false d
  | String "+" d => int_digits 0 false d
  | d => int_digits 0 false d
  end.

(** A word: no white space in it. *)
Fixpoint no_space (s : string) : bool :=
  match s with
  | EmptyString => true
  | String c s' => negb (isspace c) && no_space s'
  end.

Definition word (s : string) : Prop := nonempty s = true /\ no_space s = true.

(** Trimmed text with collapsed white space: it starts and ends with a
    character that is not white space, and its only white space is a
    single space between two such characters. *)
Inductive tidy : string -> Prop :=
  | tidy_last c :
      isspace c = false -> tidy (String c EmptyString)
  | tidy_char c s :
      isspace c = false -> tidy s -> tidy (String c s)
  | tidy_gap c s :
      isspace c = false -> tidy s -> tidy (String c (String " " s)).

End PyStr.

(** ** Alt text *)

Module AltText.
Import PyStr.

(** The fallback of [generate_natural_alt_text]; U+00EA is code point
    234. *)
Definition placeholder : string :=
  "produto farmac" +:+ String "234"%char "utico".

Definition normalize_product_name (name : string) : string :=
  if negb (nonempty name) then ""
  else
    let name := lower (join " " (split name)) in
    let name := strip (replace "  " " " name) in
    name.

Definition generate_natural_alt_text
    (product_name : string) (image_index total_images : Z) : string :=
  let normalized_name := normalize_product_name product_name in
  if negb (nonempty normalized_name) then placeholder
  else normalized_name.

End AltText.

(** ** The checkpoint *)

Module Checkpoint.

(** [self.data["processed_skus"]] is a Python list of integers. *)
Definition is_processed (sku_id : Z) (processed_skus : list Z) : bool :=
  bool_decide (sku_id ∈ processed_skus).

Definition mark_processed (sku_id : Z) (processed_skus : list Z) : list Z :=
  if negb (is_processed sku_id processed_skus)
  then processed_skus ++ [sku_id]
  else processed_skus.

(** The state after a sequence of [mark_processed] calls. *)
Definition mark_all (sku_ids : list Z) (processed_skus : list Z) : list Z :=
  foldl (fun l sku_id => mark_processed sku_id l) processed_skus sku_ids.

End Checkpoint.

(** ** The list file *)

Module SkuFile.
Import PyStr.

Definition newline : ascii := "010"%char.

(** [f.readlines()] (and iteration over [f]) on the text of a file: the
    lines with their terminators.  The text is the one Python sees after
    its newline translation. *)
Fixpoint readlines_from (cur s : string) : list string :=
  match s with
  | EmptyString => match cur with EmptyString => [] | _ => [cur] end
  | String c s' =>
      if Ascii.eqb c newline
      then (cur +:+ String c EmptyString) :: readlines_from EmptyString s'
      else readlines_from (cur +:+ String c EmptyString) s'
  end.

Definition readlines (text : string) : list string :=
  readlines_from EmptyString text.

(** [f.writelines(lines)] on a file opened with ['w']. *)
Definition writelines (lines : list string) : string :=
  foldr String.append EmptyString lines.

(** One iteration of the loop of [load_sku_list]. *)
Definition load_line (sku_ids : list Z) (line : string) : list Z :=
  let line := strip line in
  if negb (nonempty line) || startswith "#" line then sku_ids
  else match parse_int line with
       | Some sku_id => sku_ids ++ [sku_id]
       | None => sku_ids
       end.

(** [load_sku_list]: [None] is a file that does not exist. *)
Definition load_sku_list (file : option string) : list Z :=
  match file with
  | None => []
  | Some text => foldl load_line [] (readlines text)
  end.

(** One iteration of the loop of [remove_processed_skus_from_file]; the
    accumulator is [(remaining_lines, removed_count)]. *)
Definition compact_line (processed_set : list Z)
    (acc : list string * nat) (line : string) : list string * nat :=
  let '(remaining_lines, removed_count) := acc in
  let stripped := strip line in
  if negb (nonempty stripped) || startswith "#" stripped
  then (remaining_lines ++ [line], removed_count)
  else match parse_int stripped with
       | Some sku_id =>
           if bool_decide (sku_id ∈ processed_set)
           then (remaining_lines, S removed_count)
           else (remaining_lines ++ [line], removed_count)
       | None => (remaining_lines ++ [line], removed_count)
       end.

(** [remove_processed_skus_from_file]: the file afterwards, and what was
    written to it ([None]: the file was not opened for writing). *)
Definition remove_processed_skus_from_file
    (processed_skus : list Z) (file : option string)
  : option string * option string :=
  match file with
  | None => (None, None)
  | Some text =>
      let '(remaining_lines, removed_count) :=
        foldl (compact_line processed_skus) ([], 0%nat) (readlines text) in
      if (0 <? removed_count)%nat
      then (Some (writelines remaining_lines), Some (writelines remaining_lines))
      else (Some text, None)
  end.

(** The lines of the file that name an item, with the item. *)
Definition line_id (line : string) : option Z :=
  let stripped := strip line in
  if negb (nonempty stripped) || startswith "#" stripped then None
  else parse_int stripped.

(** Comment and blank lines. *)
Definition passthrough (line : string) : bool :=
  let stripped := strip line in
  negb (nonempty stripped) || startswith "#" stripped.

(** The lines compaction is to drop: those naming a processed item. *)
Definition names_processed (processed : list Z) (line : string) : bool :=
  match line_id line with
  | Some sku_id => bool_decide (sku_id ∈ processed)
  | None => false
  end.

(** No line break in it. *)
Fixpoint no_newline (s : string) : bool :=
  match s with
  | EmptyString => true
  | String c s' => negb (Ascii.eqb c newline) && no_newline s'
  end.

(** A line with its terminator, and a last line without one. *)
Definition terminated (line : string) : Prop :=
  exists b, line = b +:+ String newline EmptyString /\ no_newline b = true.

Definition unterminated (line : string) : Prop :=
  nonempty line = true /\ no_newline line = true.

(** The shape of what [readlines] returns: terminated lines, but for a
    last line that may lack its terminator. *)
Fixpoint lines_of_a_file (lines : list string) : Prop :=
  match lines with
  | [] => True
  | line :: rest =>
      (terminated line \/ (unterminated line /\ rest = [])) /\
      lines_of_a_file rest
  end.

End SkuFile.

(** ** The engine *)

Module Engine.
Import PyStr AltText.

(** JSON values as [json.loads] builds them (numbers are integers). *)
Inductive json :=
  | JNull
  | JBool (b : bool)
  | JInt (z : Z)
  | JStr (s : string)
  | JList (l : list json)
  | JDict (m : gmap string json).

(** An image record is a Python [dict] decoded from a JSON object. *)
Abbreviation image := (gmap string json).

(** Python truth value of a JSON value. *)
Definition truthy_json (v : json) : bool :=
  match v with
  | JNull => false
  | JBool b => b
  | JInt z => negb (z =? 0)%Z
  | JStr s => nonempty s
  | JList l => match l with [] => false | _ :: _ => true end
  | JDict m => match map_to_list m with [] => false | _ :: _ => true end
  end.

(** [a or b] *)
Definition py_or (a b : json) : json := if truthy_json a then a else b.

(** [d.get(key)]: [None] when the key is absent. *)
Definition dict_get (d : gmap string json) (key : string) : json :=
  default JNull (d !! key).

Inductive method := GET | PUT.

(** The three URLs the program formats, by what is formatted in. *)
Inductive url :=
  | SkuUrl (sku_id : Z)
  | FilesUrl (sku_id : Z)
  | FileUrl (sku_id : Z) (file_id : json).

(** A call of [SESSION.request]; [req_json] is the [json=] argument.
    The [timeout] and [headers] defaults are constants. *)
Record request := Request {
  req_method : method;
  req_url : url;
  req_json : option image
}.

(** What [response.json()] yields: it raises on [NoJson]. *)
Inductive body :=
  | NoJson
  | JsonObject (d : gmap string json)
  | JsonArray (l : list image).

(** A [requests.Response]: the status, the [Retry-After] header if
    there is one, and the body. *)
Record response := Response {
  status_code : Z;
  retry_after : option string;
  content : body
}.

(** The truth value of a response is [Response.ok]: false exactly on
    the statuses 400..599, for which [raise_for_status] raises. *)
Definition response_ok (r : response) : bool :=
  negb ((400 <=? status_code r)%Z && (status_code r <? 600)%Z).

(** Truth value of an [Optional[requests.Response]]. *)
Definition truthy (resp : option response) : bool :=
  match resp with
  | Some r => response_ok r
  | None => false
  end.

(** The longest wait [time.sleep] takes: the interpreter counts the
    wait in nanoseconds in 64 bits and raises [OverflowError] above
    9223372036 seconds.  (Shortly below that bound the operating system
    may refuse the deadline, which depends on its clock; that error is
    one of the platform and is not modelled.) *)
Definition SLEEP_MAX : Z := 9223372036.

(** [int(response.headers.get('Retry-After', 60))] followed by
    [time.sleep]: [None] when [int] raises [ValueError] or [time.sleep]
    raises, on a negative length ([ValueError]) or on one that is too
    long ([OverflowError]). *)
Definition retry_after_seconds (r : response) : option Z :=
  match retry_after r with
  | None => Some 60%Z
  | Some v =>
      match parse_int v with
      | Some n => if (0 <=? n)%Z && (n <=? SLEEP_MAX)%Z then Some n else None
      | None => None
      end
  end.

(** What the program does to the outside, in order. *)
Inductive event :=
  | EvWait                                         (* rate_limiter.wait() *)
  | EvRequest (rq : request) (ans : option response) (* SESSION.request *)
  | EvSleep (secs : Z)                             (* time.sleep *)
  | EvSaveCheckpoint (ids : list Z)                (* json.dump to the checkpoint file *)
  | EvWriteList (text : string).                  (* rewrite of the list file *)

(** Result of a call: a value, or an exception that nothing caught. *)
Inductive result (A : Type) :=
  | Ret (a : A)
  | Raise.
Arguments Ret {A} a.
Arguments Raise {A}.

Section WithRemote.

(** [SESSION.request] and what is behind it: an answer ([None]: the
    call raised, e.g. a timeout, a connection error or retries used up)
    and the world afterwards.  The functions below are written over any
    such [session_request]; [Session.request] is the one of the session
    [create_session] builds. *)
Variable World : Type.
Variable session_request : World -> request -> option response * World.

(** How many nested calls of [safe_request] the interpreter's stack
    still allows below the current one. *)
Variable depth : nat.

(** The checkpoint file, when it is there and can be read, holds what
    [save] writes: an object whose ["processed_skus"] is a list of
    integers.  [CheckpointManager.load] returns any other JSON as it
    is, and the program then raises [KeyError] where it reads
    ["processed_skus"]; such a file is outside the model. *)
Record state := State {
  remote : World;
  processed_skus : list Z;           (* checkpoint.data["processed_skus"] *)
  checkpoint_file : option (list Z); (* None: absent or unreadable *)
  sku_file : option string           (* None: absent *)
}.

Definition set_remote (w : World) (s : state) : state :=
  State w (processed_skus s) (checkpoint_file s) (sku_file s).
Definition set_processed (l : list Z) (s : state) : state :=
  State (remote s) l (checkpoint_file s) (sku_file s).
Definition set_checkpoint_file (f : option (list Z)) (s : state) : state :=
  State (remote s) (processed_skus s) f (sku_file s).
Definition set_sku_file (f : option string) (s : state) : state :=
  State (remote s) (processed_skus s) (checkpoint_file s) f.

(** Computations: state passing, the events performed, and uncaught
    exceptions (which keep the state reached). *)
Definition M (A : Type) : Type := state -> result A * state * list event.

#[local] Instance M_ret : MRet M := fun A a s => (Ret a, s, []).
#[local] Instance M_bind : MBind M := fun A B f m s =>
  match m s with
  | (Ret a, s1, t1) => let '(r, s2, t2) := f a s1 in (r, s2, t1 ++ t2)
  | (Raise, s1, t1) => (Raise, s1, t1)
  end.

Definition raise {A} : M A := fun s => (Raise, s, []).

(** A worker whose exception stays in its [Future]. *)
Definition in_future {A} (m : M A) : M unit :=
  fun s => let '(_, s1, t) := m s in (Ret tt, s1, t).

(** *** CheckpointManager *)

Definition is_processed (sku_id : Z) : M bool :=
  fun s => (Ret (Checkpoint.is_processed sku_id (processed_skus s)), s, []).

Definition mark_processed (sku_id : Z) : M unit :=
  fun s => (Ret tt,
            set_processed (Checkpoint.mark_processed sku_id (processed_skus s)) s,
            []).

Definition load : M unit :=
  fun s => (Ret tt, set_processed (default [] (checkpoint_file s)) s, []).

Definition save : M unit :=
  fun s => (Ret tt, set_checkpoint_file (Some (processed_skus s)) s,
            [EvSaveCheckpoint (processed_skus s)]).

Definition clear : M unit :=
  fun s => save (set_processed [] s).

(** *** API functions *)

(** [safe_request]: on a 429 the call sleeps and calls itself; when the
    stack is exhausted that nested call raises [RecursionError], which
    the enclosing [except Exception] turns into [None].  (With the
    session of [create_session] no 429 gets here: see [Session].) *)
Fixpoint safe_request_at (d : nat) (rq : request) (w : World)
  : option response * World * list event :=
  let '(ans, w1) := session_request w rq in
  match ans with
  | None => (None, w1, [EvWait; EvRequest rq None])
  | Some r =>
      if (status_code r =? 429)%Z then
        match retry_after_seconds r with
        | Some secs =>
            match d with
            | O => (None, w1, [EvWait; EvRequest rq ans; EvSleep secs])
            | S d' =>
                let '(res, w2, t) := safe_request_at d' rq w1 in
                (res, w2, EvWait :: EvRequest rq ans :: EvSleep secs :: t)
            end
        | None => (None, w1, [EvWait; EvRequest rq ans])
        end
      else (Some r, w1, [EvWait; EvRequest rq ans])
  end.

Definition safe_request (m : method) (u : url) (js : option image)
  : M (option response) :=
  fun s =>
    let '(res, w, t) := safe_request_at depth (Request m u js) (remote s) in
    (Ret res, set_remote w s, t).

Definition status_is (code : Z) (resp : option response) : bool :=
  match resp with
  | Some r => (status_code r =? code)%Z
  | None => false
  end.

Definition update_image_alt
    (sku_id : Z) (original_image_data : image) (new_alt_text : string) : M bool :=
  let file_id := dict_get original_image_data "Id" in
  let url := FileUrl sku_id file_id in
  let payload := original_image_data in
  let payload := <["Label" := JStr new_alt_text]> payload in
  let payload := <["Text" := JStr new_alt_text]> payload in
  response ← safe_request PUT url (Some payload);
  if truthy response && status_is 200 response then mret true
  else if truthy response && status_is 401 response then mret false
  else mret false.

(** [img.get('Label') and img.get('Label').strip()] as a truth value;
    [.strip()] raises on a value that is not a [str]. *)
Definition has_alt (img : image) : result bool :=
  let label := dict_get img "Label" in
  if truthy_json label then
    match label with
    | JStr s => Ret (nonempty (strip s))
    | _ => Raise
    end
  else Ret false.

(** [all(... for img in images)], which stops at the first false. *)
Fixpoint all_have_alt (images : list image) : result bool :=
  match images with
  | [] => Ret true
  | img :: rest =>
      match has_alt img with
      | Ret true => all_have_alt rest
      | Ret false => Ret false
      | Raise => Raise
      end
  end.

Definition lift_result {A} (r : result A) : M A := fun s => (r, s, []).

(** [generate_natural_alt_text] on the name the details carried: a
    [str] is normalized; [not name] answers for a false value of
    another type; [name.split()] raises on the rest. *)
Definition alt_text_for (product_name : json) (index total : Z) : result string :=
  match product_name with
  | JStr name => Ret (generate_natural_alt_text name index total)
  | v => if truthy_json v then Raise else Ret placeholder
  end.

(** [current_label != new_alt] *)
Definition differs (current_label : json) (new_alt : string) : bool :=
  match current_label with
  | JStr s => negb (String.eqb s new_alt)
  | _ => true
  end.

(** The [for index, img in enumerate(images, start=1)] loop. *)
Fixpoint update_images (sku_id : Z) (product_name : json) (total_images : Z)
    (index : Z) (images : list image) (success : bool) : M bool :=
  match images with
  | [] => mret success
  | img :: rest =>
      let current_label := default (JStr "") (img !! "Label") in
      new_alt ← lift_result (alt_text_for product_name index total_images);
      success ←
        (if differs current_label new_alt then
           updated ← update_image_alt sku_id img new_alt;
           mret (if negb updated then false else success)
         else mret success);
      update_images sku_id product_name total_images (index + 1)%Z rest success
  end.

Definition process_sku_images (sku_id : Z) (product_name : json) : M bool :=
  response ← safe_request GET (FilesUrl sku_id) None;
  if negb (truthy response) then mret false
  else
  match response with
  | None => mret false             (* not reached: [None] is false *)
  | Some r =>
      if (status_code r =? 200)%Z then
        match content r with
        | NoJson => raise
        | JsonObject d =>
            (* an empty object is false; iterating another yields its
               keys, and a [str] has no [get] *)
            match map_to_list d with
            | [] => mark_processed sku_id;; mret true
            | _ :: _ => raise
            end
        | JsonArray images =>
            match images with
            | [] => mark_processed sku_id;; mret true
            | _ :: _ =>
                all_alt ← lift_result (all_have_alt images);
                if (all_alt : bool) then mark_processed sku_id;; mret true
                else
                  let total_images := Z.of_nat (length images) in
                  success ← update_images sku_id product_name total_images 1 images true;
                  (if (success : bool) then mark_processed sku_id else mret tt);;
                  mret success
            end
        end
      else if (status_code r =? 404)%Z then
        mark_processed sku_id;; mret true
      else mret false
  end.

Definition get_sku_details (sku_id : Z) : M (json * json) :=
  response ← safe_request GET (SkuUrl sku_id) None;
  if truthy response && status_is 200 response then
    match response with
    | Some r =>
        match content r with
        | JsonObject data =>
            let name := py_or (dict_get data "ProductName")
                          (py_or (dict_get data "NameComplete")
                                 (dict_get data "Name")) in
            let ref_id := dict_get data "RefId" in
            mret (name, ref_id)
        | JsonArray _ => raise    (* a list has no [get] *)
        | NoJson => raise
        end
    | None => mret (JNull, JNull)
    end
  else mret (JNull, JNull).

Definition process_single_sku (sku_id : Z) : M bool :=
  processed ← is_processed sku_id;
  if (processed : bool) then mret true
  else
    '(product_name, ref_id) ← get_sku_details sku_id;
    if truthy_json product_name then
      success ← process_sku_images sku_id product_name;
      mret success
    else
      mark_processed sku_id;; mret true.

(** *** Vocabulary for the properties *)

(** An answer [safe_request] hands to its caller as it is: a failed
    call, or a response that is not a 429. *)
Definition settles (ans : option response) : Prop :=
  match ans with
  | None => True
  | Some r => status_code r <> 429%Z
  end.

(** Every update the loop of [process_sku_images] asks for, run in the
    order of the images from [s] on, returns [True]. *)
Fixpoint updates_succeed (sku_id : Z) (new_alt : string)
    (images : list image) (s : state) : bool :=
  match images with
  | [] => true
  | img :: rest =>
      if differs (default (JStr "") (img !! "Label")) new_alt then
        match update_image_alt sku_id img new_alt s with
        | (Ret updated, s1, _) => updated && updates_succeed sku_id new_alt rest s1
        | (Raise, _, _) => false
        end
      else updates_succeed sku_id new_alt rest s
  end.

(** *** The runner *)

Definition CHECKPOINT_INTERVAL : nat := 10.

Definition compact : M unit :=
  fun s =>
    let '(file, written) :=
      SkuFile.remove_processed_skus_from_file (processed_skus s) (sku_file s) in
    (Ret tt, set_sku_file file s,
     match written with Some text => [EvWriteList text] | None => [] end).

(** The workers, one item after the other in the order of the list,
    each completing before the next starts; [processed_count] counts the
    completed futures. *)
Fixpoint workers (sku_ids : list Z) (processed_count : nat) : M nat :=
  match sku_ids with
  | [] => mret processed_count
  | sku_id :: rest =>
      in_future (process_single_sku sku_id);;
      let processed_count := S processed_count in
      (if (processed_count mod CHECKPOINT_INTERVAL =? 0)%nat
       then save;; compact else mret tt);;
      workers rest processed_count
  end.

Definition run_bulk_update (resume : bool) : M unit :=
  load;;
  (if negb resume then clear else mret tt);;
  sku_ids ← (fun s => (Ret (SkuFile.load_sku_list (sku_file s)), s, []));
  match sku_ids with
  | [] => mret tt
  | _ :: _ =>
      workers sku_ids 0;;
      save;;
      compact
  end.

End WithRemote.

#[export] Existing Instance M_ret.
#[export] Existing Instance M_bind.

Arguments State {World}.
Arguments remote {World}.
Arguments processed_skus {World}.
Arguments checkpoint_file {World}.
Arguments sku_file {World}.

(** *** Reading traces *)

Definition is_put (ev : event) : bool :=
  match ev with
  | EvRequest (Request PUT _ _) _ => true
  | _ => false
  end.

(** The update calls of a trace. *)
Definition puts (t : list event) : list event := List.filter is_put t.
Arguments puts : simpl never.


(** The requests issued, in order. *)
Fixpoint requests (t : list event) : list request :=
  match t with
  | [] => []
  | EvRequest rq _ :: t' => rq :: requests t'
  | _ :: t' => requests t'
  end.


End Engine.

(** ** The session

    [SESSION] is what [create_session] returns: a [requests.Session]
    whose adapter retries with
    [Retry(total=MAX_RETRIES, backoff_factor=BACKOFF_FACTOR,
    status_forcelist=[429, 500, 502, 503, 504],
    allowed_methods=["GET", "PUT", "POST"])].  One call of
    [SESSION.request] is therefore a loop of urllib3 over the transport:
    an attempt that fails, or whose answer the strategy retries, is made
    again after a pause, as long as the counter [total] lasts; when it
    is used up urllib3 raises, and so does [SESSION.request].  The
    answers are taken as final ones: none redirects. *)

Module Session.
Import PyStr Engine.

Definition MAX_RETRIES : nat := 3.

Definition status_forcelist : list Z := [429; 500; 502; 503; 504]%Z.

(** [Retry.RETRY_AFTER_STATUS_CODES] of urllib3. *)
Definition RETRY_AFTER_STATUS_CODES : list Z := [413; 429; 503]%Z.

(** [status_code in self.status_forcelist] *)
Definition forced (r : response) : bool :=
  bool_decide (status_code r ∈ status_forcelist).

(** [bool(response.headers.get("Retry-After"))] *)
Definition has_retry_after (r : response) : bool :=
  match retry_after r with
  | Some v => nonempty v
  | None => false
  end.

(** [Retry.is_retry] with [total] retries left, for a method of
    [allowed_methods] (the program sends GET and PUT only). *)
Definition is_retry (total : nat) (r : response) : bool :=
  forced r
  || (negb (total =? 0)%nat && has_retry_after r
      && bool_decide (status_code r ∈ RETRY_AFTER_STATUS_CODES)).

Section WithTransport.

(** The remote service and the transport under the session: the answer
    to one attempt ([None]: a timeout, a connection or a protocol
    error) and the service afterwards. *)
Variable World : Type.
Variable send : World -> request -> option response * World.

(** Whether urllib3 can wait as a [Retry-After] value asks: it reads a
    number of seconds or an HTTP date and sleeps that long, and raises
    on a value it cannot read or cannot sleep.  Which values those are
    is left open. *)
Variable retry_after_ok : string -> bool.

(** [Retry.sleep] between two attempts: the wait the answer asks for,
    or the back-off when it asks for none; [false] when it raises. *)
Definition sleep (ans : option response) : bool :=
  match ans with
  | Some r =>
      match retry_after r with
      | Some v => retry_after_ok v
      | None => true
      end
  | None => true
  end.

(** [HTTPConnectionPool.urlopen] with [total] retries left: the result
    ([None]: it raises), the service afterwards, and the answers to the
    attempts made, in order. *)
Fixpoint urlopen (total : nat) (rq : request) (w : World)
  : option response * World * list (option response) :=
  let '(ans, w1) := send w rq in
  let again :=
    match total with
    | O => (None, w1, [ans])          (* [increment] raises [MaxRetryError] *)
    | S total' =>
        if sleep ans then
          let '(res, w2, sent) := urlopen total' rq w1 in (res, w2, ans :: sent)
        else (None, w1, [ans])
    end in
  match ans with
  | None => again
  | Some r => if is_retry total r then again else (Some r, w1, [ans])
  end.


(** [SESSION.request]; every exception of the session is [None]. *)
Definition request (w : World) (rq : request) : option response * World :=
  (urlopen MAX_RETRIES rq w).1.

End WithTransport.

End Session.

(** ** Remote services *)

Module Remotes.
Import Engine.

(** *** A scripted service

    The service answers the n-th call with the n-th entry of a script,
    which sees the request; once the script is over every call fails
    with a connection error. *)
Definition script := list (request -> option response).

Definition scripted (w : script) (rq : request) : option response * script :=
  match w with
  | [] => (None, [])
  | f :: rest => (f rq, rest)
  end.

(** An answer that does not look at the request. *)
Definition say (code : Z) (retry : option string) (b : body)
  : request -> option response :=
  fun _ => Some (Response code retry b).


(** *** A catalog

    The remote state the re-run property speaks of: per item, its
    details and its image records.  Each call meets one condition of
    the [weather] list (a healthy service once the list is over): the
    call is served from the catalog, is lost, or is answered with a bare
    status. *)
Inductive condition :=
  | Healthy
  | Lost
  | Status (code : Z) (retry : option string).

Record catalog := Catalog {
  details : gmap Z (gmap string json);
  images : gmap Z (list image);
  weather : list condition
}.

(** The record a PUT on [.../file/<file_id>] addresses. *)
Definition same_id (file_id : json) (rec : image) : bool :=
  match file_id, rec !! "Id" with
  | JInt a, Some (JInt b) => (a =? b)%Z
  | _, _ => false
  end.

Definition put_record (file_id : json) (payload : image) (l : list image)
  : list image :=
  map (fun rec => if same_id file_id rec then payload else rec) l.

(** A healthy call. *)
Definition serve (c : catalog) (rq : request) : response * catalog :=
  match req_method rq, req_url rq, req_json rq with
  | GET, SkuUrl sku_id, _ =>
      match details c !! sku_id with
      | Some d => (Response 200 None (JsonObject d), c)
      | None => (Response 404 None NoJson, c)
      end
  | GET, FilesUrl sku_id, _ =>
      match images c !! sku_id with
      | Some l => (Response 200 None (JsonArray l), c)
      | None => (Response 404 None NoJson, c)
      end
  | PUT, FileUrl sku_id file_id, Some payload =>
      match images c !! sku_id with
      | Some l =>
          if existsb (same_id file_id) l
          then (Response 200 None (JsonObject payload),
                Catalog (details c)
                        (<[sku_id := put_record file_id payload l]> (images c))
                        (weather c))
          else (Response 404 None NoJson, c)
      | None => (Response 404 None NoJson, c)
      end
  | _, _, _ => (Response 405 None NoJson, c)
  end.

Definition calm (c : catalog) (rest : list condition) : catalog :=
  Catalog (details c) (images c) rest.

Definition catalog_request (c : catalog) (rq : request)
  : option response * catalog :=
  match weather c with
  | [] => let '(r, c') := serve c rq in (Some r, c')
  | Healthy :: rest => let '(r, c') := serve (calm c rest) rq in (Some r, c')
  | Lost :: rest => (None, calm c rest)
  | Status code retry :: rest => (Some (Response code retry NoJson), calm c rest)
  end.

(** The name [get_sku_details] reads from a details object. *)
Definition name_of (d : gmap string json) : json :=
  py_or (dict_get d "ProductName")
        (py_or (dict_get d "NameComplete") (dict_get d "Name")).

(** The item has a name to make an alt text from: its details carry a
    string that is not empty. *)
Definition named (c : catalog) (sku_id : Z) (name : string) : Prop :=
  exists d,
    details c !! sku_id = Some d /\ name_of d = JStr name /\
    PyStr.nonempty name = true.

(** Every image of the list carries the label. *)
Definition all_labelled (alt : string) (l : list image) : Prop :=
  Forall (fun img : image => img !! "Label" = Some (JStr alt)) l.

(** No update is due for the item: when it has a name and an image
    list, every image of the list counts as labelled. *)
Definition at_rest (c : catalog) (sku_id : Z) : Prop :=
  forall name l,
    named c sku_id name -> images c !! sku_id = Some l ->
    all_have_alt l = Ret true.




(** An image record the catalog can address and the program can read:
    an integer [Id], and a [Label] that is a string or null when
    present. *)
Definition tame_image (img : image) : Prop :=
  (exists id, img !! "Id" = Some (JInt id)) /\
  (forall v, img !! "Label" = Some v -> v = JNull \/ exists label, v = JStr label).

(** A catalog in good weather whose image records are all tame. *)
Definition healthy (c : catalog) : Prop :=
  weather c = [] /\
  forall sku_id l, images c !! sku_id = Some l -> Forall tame_image l.

(** Nothing is left to update for the item: it is checkpointed, or the
    catalog has no image list for it, or its name is not a string. *)
Definition resolved (s : state catalog) (sku_id : Z) : Prop :=
  sku_id ∈ processed_skus s \/
  images (remote s) !! sku_id = None \/
  (exists d, details (remote s) !! sku_id = Some d /\
             forall name, name_of d <> JStr name).

(** Between [s] and [s1] the images of the item were labelled: it was
    not checkpointed and is now, it has a name, its image list had an
    image without a label and now carries the alt text of the name on
    every image. *)
Definition relabelled (s s1 : state catalog) (sku_id : Z) : Prop :=
  (sku_id ∉ processed_skus s) /\ sku_id ∈ processed_skus s1 /\
  exists name l l1,
    named (remote s) sku_id name /\
    images (remote s) !! sku_id = Some l /\
    all_have_alt l = Ret false /\
    images (remote s1) !! sku_id = Some l1 /\
    length l1 = length l /\
    all_labelled (AltText.generate_natural_alt_text name 1 1) l1.

(** From [s] to [s1] the catalog stays healthy and keeps its details, an
    image list is as it was or was labelled, the checkpoint only grows,
    the list file gains no ID, and what came into the checkpoint is at
    rest. *)
Definition steady (s s1 : state catalog) : Prop :=
  healthy (remote s1) /\
  details (remote s1) = details (remote s) /\
  (forall k, images (remote s1) !! k = images (remote s) !! k \/
             relabelled s s1 k) /\
  (forall x, x ∈ processed_skus s -> x ∈ processed_skus s1) /\
  (forall x, x ∈ SkuFile.load_sku_list (sku_file s1) ->
             x ∈ SkuFile.load_sku_list (sku_file s)) /\
  (forall k, k ∉ processed_skus s -> k ∈ processed_skus s1 ->
             at_rest (remote s1) k).

End Remotes.

(** ** Concrete data for the examples *)

Module Scenario.
Import Engine Remotes.

(** The text of a file from its lines. *)
Definition text_of (lines : list string) : string :=
  foldr (fun l acc => l +:+ String SkuFile.newline acc) EmptyString lines.

(** An image record with one field besides the ones the program reads. *)
Definition image_record (id : Z) (label : string) : image :=
  <["Id" := JInt id]>
    (<["Label" := JStr label]> (<["Url" := JStr "a.png"]> ∅)).

Definition list_request (sku_id : Z) : request :=
  Request GET (FilesUrl sku_id) None.

(** Item 100 has one image without a label and one with the right
    label; item 300 has details and no image entry. *)
Definition shop : catalog :=
  Catalog
    (<[100%Z := <["ProductName" := JStr "Dipirona  500MG"]> ∅]>
       (<[300%Z := <["Name" := JStr "Soro"]> ∅]> ∅))
    (<[100%Z := [image_record 1 ""; image_record 2 "dipirona 500mg"]]> ∅)
    [].

Definition fresh_start : state catalog :=
  State shop [] None (Some (text_of ["# lote"; "100"; "300"])).

(** A state over a scripted service, with a checkpoint in memory. *)
Definition on_script (w : script) (processed : list Z) : state script :=
  State w processed None None.

End Scenario.

(** ** More of Python's [str] and [int] *)

Module PyText.
Import PyStr.

(** Every character is white space (true of the empty string). *)
Fixpoint blank (s : string) : bool :=
  match s with
  | EmptyString => true
  | String c s' => isspace c && blank s'
  end.

(** A text written out from its words: each word is followed by its
    gap of white space. *)
Fixpoint laid_out (items : list (string * string)) : string :=
  match items with
  | [] => EmptyString
  | (w, gap) :: rest => w +:+ gap +:+ laid_out rest
  end.

(** The words are words, the gaps are white space, and only the gap
    after the last word may be empty. *)
Fixpoint spaced (items : list (string * string)) : Prop :=
  match items with
  | [] => True
  | (w, gap) :: rest =>
      word w /\ blank gap = true /\
      (rest <> [] -> nonempty gap = true) /\ spaced rest
  end.

(** [needle in hay] on two [str]: [needle] occurs in [hay]. *)
Fixpoint contains (needle hay : string) : bool :=
  String.prefix needle hay ||
  match hay with
  | EmptyString => false
  | String _ hay' => contains needle hay'
  end.

(** [str(n)] for an [int], which is also what an f-string puts for
    [{n}]: the decimal digits, after a minus sign when negative. *)
Definition str_int (n : Z) : string := NilZero.string_of_int (Z.to_int n).

(** The value of a decimal numeral read from the left, as [int] reads
    it; [acc] is the value of the digits already read. *)
Fixpoint uint_value (d : Decimal.uint) (acc : Z) : Z :=
  match d with
  | Decimal.Nil => acc
  | Decimal.D0 d => uint_value d (10 * acc)
  | Decimal.D1 d => uint_value d (10 * acc + 1)
  | Decimal.D2 d => uint_value d (10 * acc + 2)
  | Decimal.D3 d => uint_value d (10 * acc + 3)
  | Decimal.D4 d => uint_value d (10 * acc + 4)
  | Decimal.D5 d => uint_value d (10 * acc + 5)
  | Decimal.D6 d => uint_value d (10 * acc + 6)
  | Decimal.D7 d => uint_value d (10 * acc + 7)
  | Decimal.D8 d => uint_value d (10 * acc + 8)
  | Decimal.D9 d => uint_value d (10 * acc + 9)
  end%Z.

End PyText.

(** ** Reading the trace of a run *)

Module Run.
Import Engine.

(** The item a URL is about. *)
Definition url_sku (u : url) : Z :=
  match u with
  | SkuUrl sku_id => sku_id
  | FilesUrl sku_id => sku_id
  | FileUrl sku_id _ => sku_id
  end.

(** The checkpoint lists written to the checkpoint file, in order. *)
Fixpoint saves (t : list event) : list (list Z) :=
  match t with
  | [] => []
  | EvSaveCheckpoint ids :: t' => ids :: saves t'
  | _ :: t' => saves t'
  end.

(** The number of calls of [rate_limiter.wait()]. *)
Fixpoint waits (t : list event) : nat :=
  match t with
  | [] => 0
  | EvWait :: t' => S (waits t')
  | _ :: t' => waits t'
  end.

(** Every request of the trace comes right after a call of
    [rate_limiter.wait()]; [waited] tells whether the previous event
    was one. *)
Fixpoint paced_from (waited : bool) (t : list event) : bool :=
  match t with
  | [] => true
  | EvWait :: t' => paced_from true t'
  | EvRequest _ _ :: t' => waited && paced_from false t'
  | _ :: t' => paced_from false t'
  end.

Definition paced (t : list event) : bool := paced_from false t.

Section Chain.
Context {World : Type}.
Variable session_request : World -> request -> option response * World.
Variable depth : nat.

(** A trace made of calls of [safe_request] about one item, one after
    the other, from one state of the remote service to another. *)
Inductive chain (sku_id : Z) : World -> list event -> World -> Prop :=
  | chain_nil w : chain sku_id w [] w
  | chain_call rq w res w1 t1 t2 w2 :
      url_sku (req_url rq) = sku_id ->
      safe_request_at World session_request depth rq w = (res, w1, t1) ->
      chain sku_id w1 t2 w2 ->
      chain sku_id w (t1 ++ t2) w2.

(** A step of the engine about one item: requests about the item, the
    two files as they were, and the checkpoint as it was or with the
    item marked. *)
Definition reached {A} (sku_id : Z) (s : state World)
    (out : result A * state World * list event) : Prop :=
  exists w cp,
    out.1.2 = State w cp (checkpoint_file s) (sku_file s) /\
    chain sku_id (remote s) out.2 w /\
    (cp = processed_skus s \/
     cp = Checkpoint.mark_processed sku_id (processed_skus s)).

(** The same, with the checkpoint as it was. *)
Definition called {A} (sku_id : Z) (s : state World)
    (out : result A * state World * list event) : Prop :=
  exists w,
    out.1.2 = State w (processed_skus s) (checkpoint_file s) (sku_file s) /\
    chain sku_id (remote s) out.2 w.

End Chain.

End Run.

(** ** Logging *)

Module Log.
Import PyStr PyText Engine.

(** The console and the two log files, as the text written to them so
    far (a file that does not exist yet is the empty text: both are
    opened for appending). *)
Record logs := Logs {
  console : string;
  execution_log : string;       (* LOG_FILE *)
  error_log : string            (* ERROR_LOG *)
}.

(** [formatted_msg] *)
Definition format (timestamp level message : string) : string :=
  "[" +:+ timestamp +:+ "] [" +:+ level +:+ "] " +:+ message.

(** [level in ["ERROR", "CRITICAL"]] *)
Definition is_error_level (level : string) : bool :=
  String.eqb level "ERROR" || String.eqb level "CRITICAL".

(** [log_message(message, level)], called when
    [datetime.now().strftime(...)] is [timestamp]. *)
Definition log_message (timestamp message level : string) (l : logs) : logs :=
  let formatted_msg := format timestamp level message in
  let line := formatted_msg +:+ String SkuFile.newline "" in
  Logs (console l +:+ line)
       (execution_log l +:+ line)
       (if is_error_level level then error_log l +:+ line else error_log l).

(** A sequence of calls, each with its time stamp, message and level. *)
Definition log_all (calls : list (string * string * string)) (l : logs) : logs :=
  foldl (fun l '(timestamp, message, level) => log_message timestamp message level l)
        l calls.

(** What [update_image_alt] logs, message and level, for the answer
    [safe_request] gave it; [text] is [response.text]. *)
Definition update_image_alt_log (sku_id : Z) (new_alt_text : string)
    (response : option response) (text : string) : string * string :=
  if truthy response && status_is 200 response then
    ("      [OK] Image updated: '" +:+ new_alt_text +:+ "'", "INFO")
  else if truthy response && status_is 401 response then
    ("      [AUTH ERROR] Cookie expired.", "CRITICAL")
  else
    let error_msg := if truthy response then text else "No response" in
    ("      [UPDATE ERROR] SKU " +:+ str_int sku_id +:+ ": " +:+ error_msg, "ERROR").

(** The line a call writes. *)
Definition entry (call : string * string * string) : string :=
  let '(timestamp, message, level) := call in
  format timestamp level message +:+ String SkuFile.newline "".

Definition is_error_call (call : string * string * string) : bool :=
  is_error_level call.2.

Fixpoint entries (calls : list (string * string * string)) : string :=
  match calls with
  | [] => ""
  | call :: rest => entry call +:+ entries rest
  end.

End Log.

(** ** The report of [report.py] *)

Module Report.
Import PyStr PyText.

(** U+00E3, the a with a tilde of the Portuguese labels. *)
Definition a_tilde : string := String "227"%char "".

(** The dictionary [analyze_execution_log] returns. *)
Record exec_stats := ExecStats {
  total_linhas : nat;
  processamentos_sucesso : nat;
  processamentos_falha : nat;
  warnings : nat;
  info : nat;
  updates_ok : nat;
  checkpoint_saves : nat
}.

(** One iteration of the loop of [analyze_execution_log]. *)
Definition count_line (stats : exec_stats) (line : string) : exec_stats :=
  let line_lower := lower line in
  let '(ExecStats total sucesso falha warn inf ok saves) := stats in
  if contains "[ok]" line_lower || contains "image updated:" line_lower then
    ExecStats total (S sucesso) falha warn inf (S ok) saves
  else if contains "checkpoint saved" line_lower then
    ExecStats total (S sucesso) falha warn inf ok (S saves)
  else if contains "success" line_lower || contains "sucesso" line_lower then
    ExecStats total (S sucesso) falha warn inf ok saves
  else if contains "error" line_lower || contains "erro" line_lower
          || contains "fail" line_lower || contains "[error]" line_lower then
    ExecStats total sucesso (S falha) warn inf ok saves
  else if contains "warning" line_lower || contains "aviso" line_lower
          || contains "[warning]" line_lower then
    ExecStats total sucesso falha (S warn) inf ok saves
  else if contains "[info]" line_lower then
    ExecStats total sucesso falha warn (S inf) ok saves
  else stats.

Definition analyze_execution_log (execution_log : list string) : exec_stats :=
  foldl count_line (ExecStats (length execution_log) 0 0 0 0 0 0) execution_log.

(** The label [analyze_errors] gives a line of the error log. *)
Definition error_type (line : string) : string :=
  if contains "timeout" (lower line) then "Timeout"
  else if contains "connection" (lower line)
          || contains ("conex" +:+ a_tilde +:+ "o") (lower line) then
    "Erro de Conex" +:+ a_tilde +:+ "o"
  else if contains "not found" (lower line) || contains "404" line then
    "N" +:+ a_tilde +:+ "o Encontrado"
  else if contains "permission" (lower line)
          || contains ("permiss" +:+ a_tilde +:+ "o") (lower line) then
    "Erro de Permiss" +:+ a_tilde +:+ "o"
  else "Outros".

(** [Counter(...)] turned into a [dict]: the keys in the order of their
    first occurrence, each with the number of its occurrences. *)
Fixpoint count_into (key : string) (counts : list (string * nat))
  : list (string * nat) :=
  match counts with
  | [] => [(key, 1%nat)]
  | (k, n) :: rest =>
      if String.eqb k key then (k, S n) :: rest
      else (k, n) :: count_into key rest
  end.

Definition Counter (keys : list string) : list (string * nat) :=
  foldl (fun counts key => count_into key counts) [] keys.

(** The dictionary [analyze_errors] returns. *)
Record error_stats := ErrorStats {
  total_erros : nat;
  tipos_erros : list (string * nat)
}.

Definition analyze_errors (error_log : list string) : error_stats :=
  match error_log with
  | [] => ErrorStats 0 []
  | _ :: _ =>
      let error_types := map error_type error_log in
      ErrorStats (length error_log) (Counter error_types)
  end.

(** [read_execution_log] and [read_error_log]: the lines of the file,
    none when the file is not there. *)
Definition read_execution_log (file : option string) : list string :=
  match file with
  | None => []
  | Some text => SkuFile.readlines text
  end.

Definition read_error_log (file : option string) : list string :=
  match file with
  | None => []
  | Some text => SkuFile.readlines text
  end.

(** [read_sku_ids]: the lines that are not blank, stripped. *)
Definition read_sku_ids (file : option string) : list string :=
  match file with
  | None => []
  | Some text =>
      map strip (filter (fun line => nonempty (strip line) = true)
                        (SkuFile.readlines text))
  end.

(** The labels [analyze_errors] can give. *)
Definition error_labels : list string :=
  ["Timeout"; "Erro de Conex" +:+ a_tilde +:+ "o";
   "N" +:+ a_tilde +:+ "o Encontrado";
   "Erro de Permiss" +:+ a_tilde +:+ "o"; "Outros"].

End Report.

(** Unfolding of the monad's operations in a goal. *)
Ltac run_monad :=
  unfold mbind, mret, Engine.M_bind, Engine.M_ret, Engine.raise,
    Engine.lift_result, Engine.mark_processed, Engine.is_processed,
    Engine.safe_request.

(** * Properties *)

(** ** Strings *)

Section StringFacts.
Import PyStr.

Lemma isspace_lower_char c : isspace (lower_char c) = isspace c.
Proof. destruct c as [[] [] [] [] [] [] [] []]; reflexivity. Qed.

Lemma lower_char_idem c : lower_char (lower_char c) = lower_char c.
Proof. destruct c as [[] [] [] [] [] [] [] []]; reflexivity. Qed.

Lemma lower_idem s : lower (lower s) = lower s.
Proof. induction s as [|c s IH]; simpl; [done|]. by rewrite lower_char_idem, IH. Qed.

Lemma lower_app a b : lower (a +:+ b) = lower a +:+ lower b.
Proof. induction a as [|c a IH]; simpl; [done|]. by rewrite IH. Qed.

Lemma lower_join ws : lower (join " " ws) = join " " (map lower ws).
Proof.
  induction ws as [|w ws IH]; [done|].
  destruct ws as [|w' ws]; [done|].
  change (join " " (w :: w' :: ws)) with (w +:+ " " +:+ join " " (w' :: ws)).
  rewrite !lower_app, IH. reflexivity.
Qed.

Lemma tidy_nonempty s : tidy s -> nonempty s = true.
Proof. by destruct 1. Qed.

Lemma tidy_head c s : tidy (String c s) -> isspace c = false.
Proof. by inversion 1. Qed.

Lemma no_space_snoc w c :
  no_space w = true -> isspace c = false ->
  no_space (w +:+ String c EmptyString) = true.
Proof.
  intros Hw Hc. induction w as [|a w IH]; simpl in *.
  - by rewrite Hc.
  - apply andb_true_iff in Hw as [-> Hw]. simpl. auto.
Qed.

Lemma split_from_words s :
  forall w, no_space w = true -> Forall word (split_from w s).
Proof.
  induction s as [|c s IH]; intros w Hw; simpl.
  - destruct w; [constructor|]. by repeat constructor.
  - destruct (isspace c) eqn:Hc.
    + destruct w as [|a w]; [by apply IH|].
      constructor; [by split|by apply IH].
    + apply IH. by apply no_space_snoc.
Qed.

Lemma split_words s : Forall word (split s).
Proof. by apply split_from_words. Qed.

Lemma word_lower w : word w -> word (lower w).
Proof.
  intros [Hn Hs]. split; [by destruct w|].
  clear Hn. induction w as [|c w IH]; simpl in *; [done|].
  apply andb_true_iff in Hs as [Hc Hs].
  rewrite isspace_lower_char, Hc. simpl. auto.
Qed.

Lemma word_tidy w : word w -> tidy w.
Proof.
  intros [Hn Hs]. induction w as [|c w IH]; [done|].
  simpl in Hs. apply andb_true_iff in Hs as [Hc Hs].
  apply negb_true_iff in Hc.
  destruct w as [|a w]; [by constructor|].
  apply tidy_char; [done|]. by apply IH.
Qed.

Lemma word_gap_tidy w t : word w -> tidy t -> tidy (w +:+ " " +:+ t).
Proof.
  intros [Hn Hs] Ht. induction w as [|c w IH]; [done|].
  simpl in Hs. apply andb_true_iff in Hs as [Hc Hs].
  apply negb_true_iff in Hc.
  destruct w as [|a w]; [by apply tidy_gap|].
  simpl. apply tidy_char; [done|]. by apply IH.
Qed.

Lemma join_tidy ws :
  Forall word ws -> ws <> [] -> tidy (join " " ws).
Proof.
  induction 1 as [|w ws Hw Hws IH]; [done|]. intros _.
  destruct ws as [|w' ws]; [by apply word_tidy|].
  change (join " " (w :: w' :: ws)) with (w +:+ " " +:+ join " " (w' :: ws)).
  apply word_gap_tidy; [done|]. by apply IH.
Qed.

Lemma lstrip_tidy s : tidy s -> lstrip s = s.
Proof. destruct 1; simpl; by rewrite H. Qed.

Lemma rstrip_tidy s : tidy s -> rstrip s = s.
Proof.
  induction 1 as [c Hc|c s Hc Hs IH|c s Hc Hs IH].
  - simpl. by rewrite Hc.
  - simpl. rewrite IH. by destruct Hs.
  - simpl. rewrite IH. by destruct Hs.
Qed.

Lemma strip_tidy s : tidy s -> strip s = s.
Proof. intros H. unfold strip. rewrite lstrip_tidy by done. by apply rstrip_tidy. Qed.

Lemma prefix_head_not_space p c s :
  isspace c = false -> String.prefix (String " " p) (String c s) = false.
Proof.
  intros Hc. cbn [String.prefix].
  destruct (ascii_dec " " c) as [<-|]; [by vm_compute in Hc|done].
Qed.

Lemma prefix_second_not_space c s :
  isspace c = false -> String.prefix "  " (String " " (String c s)) = false.
Proof.
  intros Hc. cbn [String.prefix].
  destruct (ascii_dec " " " "); [|done].
  destruct (ascii_dec " " c) as [<-|]; [by vm_compute in Hc|done].
Qed.

Lemma replace_tidy s : tidy s -> replace "  " " " s = s.
Proof.
  unfold replace.
  induction 1 as [c Hc|c s Hc Hs IH|c s Hc Hs IH]; cbn [replace_from].
  - by rewrite prefix_head_not_space.
  - by rewrite prefix_head_not_space, IH.
  - rewrite prefix_head_not_space by done. f_equal.
    destruct s as [|a s]; [by inversion Hs|].
    rewrite prefix_second_not_space by (by apply tidy_head in Hs).
    by rewrite IH.
Qed.

End StringFacts.

(** ** Alt text *)

Section AltTextFacts.
Import PyStr AltText.

(** The second statement of [normalize_product_name] finds nothing left
    to do. *)
Lemma normalize_product_name_spec s :
  normalize_product_name s = lower (join " " (split s)).
Proof.
  unfold normalize_product_name.
  destruct s as [|c s]; [done|]. cbn [nonempty negb].
  pose proof (split_words (String c s)) as Hw.
  destruct (split (String c s)) as [|w ws] eqn:Hsplit; [done|].
  assert (Ht : tidy (lower (join " " (w :: ws)))).
  { rewrite lower_join. apply join_tidy; [|done].
    apply Forall_fmap. eapply Forall_impl; [exact Hw|].
    intros x Hx. by apply word_lower. }
  rewrite replace_tidy by done. by apply strip_tidy.
Qed.

Lemma normalize_product_name_tidy s :
  normalize_product_name s = "" \/ tidy (normalize_product_name s).
Proof.
  rewrite normalize_product_name_spec.
  pose proof (split_words s) as Hw.
  destruct (split s) as [|w ws]; [by left|right].
  rewrite lower_join. apply join_tidy; [|done].
  apply Forall_fmap. eapply Forall_impl; [exact Hw|].
  intros x Hx. by apply word_lower.
Qed.

Lemma placeholder_tidy : tidy placeholder.
Proof. repeat first [ by apply tidy_last | apply tidy_gap; [done|] | apply tidy_char; [done|] ]. Qed.

Lemma generate_natural_alt_text_tidy name i n :
  tidy (generate_natural_alt_text name i n).
Proof.
  unfold generate_natural_alt_text.
  destruct (normalize_product_name_tidy name) as [->|Ht]; [apply placeholder_tidy|].
  by rewrite (tidy_nonempty _ Ht).
Qed.

End AltTextFacts.

(** ** The checkpoint *)

Section CheckpointFacts.
Import Checkpoint.

Lemma is_processed_true id cp : is_processed id cp = true <-> id ∈ cp.
Proof. unfold is_processed. by rewrite bool_decide_eq_true. Qed.

Lemma mark_processed_present id cp : id ∈ cp -> mark_processed id cp = cp.
Proof.
  intros Hin. unfold mark_processed.
  by rewrite (proj2 (is_processed_true id cp) Hin).
Qed.

Lemma elem_of_mark_processed x id cp :
  x ∈ mark_processed id cp <-> x ∈ cp \/ x = id.
Proof.
  unfold mark_processed.
  destruct (is_processed id cp) eqn:Hp; simpl.
  - apply is_processed_true in Hp.
    split; [by left|]. by intros [?| ->].
  - by rewrite elem_of_app, list_elem_of_singleton.
Qed.

Lemma mark_processed_NoDup id cp : NoDup cp -> NoDup (mark_processed id cp).
Proof.
  intros Hnd. unfold mark_processed.
  destruct (is_processed id cp) eqn:Hp; simpl; [done|].
  apply NoDup_app. split; [done|]. split; [|apply NoDup_singleton].
  intros x Hx ->%list_elem_of_singleton.
  apply is_processed_true in Hx. congruence.
Qed.

Lemma mark_all_NoDup ids : forall cp, NoDup cp -> NoDup (mark_all ids cp).
Proof.
  unfold mark_all.
  induction ids as [|id ids IH]; intros cp Hnd; simpl; [done|].
  apply IH. by apply mark_processed_NoDup.
Qed.

Lemma elem_of_mark_all x ids :
  forall cp, x ∈ mark_all ids cp <-> x ∈ cp \/ x ∈ ids.
Proof.
  unfold mark_all.
  induction ids as [|id ids IH]; intros cp; simpl.
  - rewrite elem_of_nil. tauto.
  - rewrite IH, elem_of_mark_processed, elem_of_cons. tauto.
Qed.

(** C3: marking an ID that is already in the checkpoint changes
    nothing, and after any sequence of [mark_processed] calls, repeated
    IDs included, the list holds every marked ID, and each ID at most
    once when it did so before (as the empty checkpoint does). *)
Theorem mark_processed_idempotent_no_duplicates :
  forall (cp : list Z) (ids : list Z),
    (forall id, id ∈ cp -> mark_processed id cp = cp) /\
    (forall id, mark_processed id (mark_processed id cp) = mark_processed id cp) /\
    (forall id, id ∈ mark_all ids cp <-> id ∈ cp \/ id ∈ ids) /\
    (NoDup cp -> NoDup (mark_all ids cp)) /\
    NoDup (mark_all ids []).
Proof.
  intros cp ids. split; [|split; [|split; [|split]]].
  - intros id. apply mark_processed_present.
  - intros id. apply mark_processed_present, elem_of_mark_processed. by right.
  - intros id. apply elem_of_mark_all.
  - apply mark_all_NoDup.
  - apply mark_all_NoDup, NoDup_nil_2.
Qed.

Lemma mark_processed_idempotent_no_duplicates_witness :
  mark_processed 100 [200; 100]%Z = [200; 100]%Z /\
  NoDup (mark_all [100; 300; 100; 300]%Z [200; 100]%Z).
Proof.
  split.
  - apply (proj1 (mark_processed_idempotent_no_duplicates [200; 100]%Z [])).
    compute_done.
  - apply (proj1 (proj2 (proj2 (proj2
             (mark_processed_idempotent_no_duplicates [200; 100]%Z
                                                      [100; 300; 100; 300]%Z))))).
    compute_done.
Defined.

End CheckpointFacts.

(** ** The list file *)

Section SkuFileFacts.
Import PyStr SkuFile.

Lemma compact_line_cases processed remaining removed line :
  compact_line processed (remaining, removed) line
  = if names_processed processed line
    then (remaining, S removed)
    else (remaining ++ [line], removed).
Proof.
  unfold compact_line, names_processed, line_id.
  destruct (negb (nonempty (strip line)) || startswith "#" (strip line)); [done|].
  destruct (parse_int (strip line)) as [id|]; [|done].
  by destruct (bool_decide (id ∈ processed)).
Qed.

Lemma compact_lines processed lines :
  forall remaining removed,
    foldl (compact_line processed) (remaining, removed) lines
    = (remaining ++ filter (fun l => names_processed processed l = false) lines,
       (removed + length (filter (fun l => names_processed processed l = true) lines))%nat).
Proof.
  induction lines as [|line lines IH]; intros remaining removed; cbn [foldl].
  - by rewrite filter_nil, app_nil_r, Nat.add_0_r.
  - rewrite compact_line_cases.
    destruct (names_processed processed line) eqn:Hn.
    + rewrite IH, filter_cons_False, filter_cons_True by (by rewrite ?Hn).
      simpl. f_equal. lia.
    + rewrite IH, filter_cons_True, filter_cons_False by (by rewrite ?Hn).
      by rewrite <- app_assoc.
Qed.

Lemma passthrough_not_processed processed line :
  passthrough line = true -> names_processed processed line = false.
Proof.
  unfold passthrough, names_processed, line_id. by intros ->.
Qed.

(** C9: compaction keeps the lines of the file, in their order and as
    they are, except the lines that name a processed ID: comment and
    blank lines all stay, an ID line stays exactly when its ID is not
    processed; the file is opened for writing only when some line
    goes. *)
Theorem remove_processed_skus_from_file_compacts :
  forall (processed : list Z) (text : string),
    let lines := readlines text in
    let kept := filter (fun l => names_processed processed l = false) lines in
    kept `sublist_of` lines /\
    (forall l, l ∈ lines -> passthrough l = true -> l ∈ kept) /\
    (forall l id, l ∈ lines -> line_id l = Some id -> (l ∈ kept <-> id ∉ processed)) /\
    (Exists (fun l => names_processed processed l = true) lines ->
       remove_processed_skus_from_file processed (Some text)
       = (Some (writelines kept), Some (writelines kept))) /\
    (Forall (fun l => names_processed processed l = false) lines ->
       remove_processed_skus_from_file processed (Some text) = (Some text, None)).
Proof.
  intros processed text lines kept. split; [|split; [|split; [|split]]].
  - apply sublist_filter.
  - intros l Hl Hp. apply list_elem_of_filter. split; [|done].
    by apply passthrough_not_processed.
  - intros l id Hl Hid. unfold kept. rewrite list_elem_of_filter.
    unfold names_processed. rewrite Hid, bool_decide_eq_false. tauto.
  - intros Hex. unfold remove_processed_skus_from_file.
    fold lines. rewrite compact_lines. simpl.
    apply Exists_exists in Hex as (l & Hl & Hn).
    assert (Hin : l ∈ filter (fun l => names_processed processed l = true) lines)
      by (by apply list_elem_of_filter).
    destruct (filter (fun l => names_processed processed l = true) lines);
      [by apply elem_of_nil in Hin|done].
  - intros Hall. unfold remove_processed_skus_from_file.
    fold lines. rewrite compact_lines. simpl.
    replace (filter (fun l => names_processed processed l = true) lines) with (@nil string);
      [done|].
    symmetry. clear kept. induction Hall as [|l ls Hl _ IH]; [done|].
    by rewrite filter_cons_False by (by rewrite Hl).
Qed.

Lemma append_snoc cur c b :
  (cur +:+ String c EmptyString) +:+ b = cur +:+ String c b.
Proof.
  induction cur as [|a cur IH]; [done|].
  change (String a ((cur +:+ String c EmptyString) +:+ b)
          = String a (cur +:+ String c b)).
  by rewrite IH.
Qed.

Lemma append_empty_r s : s +:+ EmptyString = s.
Proof.
  induction s as [|a s IH]; [done|].
  change (String a (s +:+ EmptyString) = String a s). by rewrite IH.
Qed.

Lemma no_newline_snoc cur c :
  no_newline cur = true -> Ascii.eqb c newline = false ->
  no_newline (cur +:+ String c EmptyString) = true.
Proof.
  intros Hcur Hc. induction cur as [|a cur IH]; simpl in *.
  - by rewrite Hc.
  - apply andb_true_iff in Hcur as [-> Hcur]. by rewrite IH.
Qed.

Lemma readlines_from_shape s :
  forall cur, no_newline cur = true -> lines_of_a_file (readlines_from cur s).
Proof.
  induction s as [|c s IH]; intros cur Hcur; cbn [readlines_from].
  - destruct cur as [|a cur]; [done|]. split; [|done]. right. by split.
  - destruct (Ascii.eqb c newline) eqn:Hc.
    + apply Ascii.eqb_eq in Hc as ->. split; [|by apply IH].
      left. by exists cur.
    + apply IH. by apply no_newline_snoc.
Qed.

Lemma readlines_shape text : lines_of_a_file (readlines text).
Proof. by apply readlines_from_shape. Qed.

Lemma filter_shape (P : string -> Prop) `{!forall l, Decision (P l)} lines :
  lines_of_a_file lines -> lines_of_a_file (filter P lines).
Proof.
  induction lines as [|line rest IH]; [done|]. intros [Hline Hrest].
  destruct (decide (P line)) as [Hp|Hp].
  - rewrite filter_cons_True by done. split; [|by apply IH].
    destruct Hline as [?|[? ->]]; [by left|by right].
  - rewrite filter_cons_False by done. by apply IH.
Qed.

Lemma readlines_from_terminated b :
  forall cur rest,
    no_newline b = true ->
    readlines_from cur (b +:+ String newline rest)
    = (cur +:+ b +:+ String newline EmptyString) :: readlines_from EmptyString rest.
Proof.
  induction b as [|c b IH]; intros cur rest Hb; simpl in *.
  - done.
  - apply andb_true_iff in Hb as [Hc Hb].
    apply negb_true_iff in Hc. rewrite Hc, IH by done. by rewrite append_snoc.
Qed.

Lemma readlines_from_unterminated b :
  forall cur,
    no_newline b = true -> nonempty (cur +:+ b) = true ->
    readlines_from cur b = [cur +:+ b].
Proof.
  induction b as [|c b IH]; intros cur Hb Hne; simpl in *.
  - rewrite append_empty_r in *. by destruct cur.
  - apply andb_true_iff in Hb as [Hc Hb].
    apply negb_true_iff in Hc. rewrite Hc, IH; [by rewrite append_snoc|done|].
    rewrite append_snoc. by destruct cur.
Qed.

(** Reading back what [writelines] wrote. *)
Lemma readlines_writelines lines :
  lines_of_a_file lines -> readlines (writelines lines) = lines.
Proof.
  unfold readlines.
  induction lines as [|line rest IH]; [done|]. intros [Hline Hrest].
  cbn [writelines foldr].
  destruct Hline as [(b & -> & Hb)|[[Hne Hnl] ->]].
  - rewrite append_snoc, readlines_from_terminated by done.
    cbn [String.append]. f_equal. by apply IH.
  - cbn [foldr]. rewrite append_empty_r.
    by rewrite readlines_from_unterminated.
Qed.

Lemma load_line_cases acc line :
  load_line acc line
  = match line_id line with Some id => acc ++ [id] | None => acc end.
Proof.
  unfold load_line, line_id.
  by destruct (negb (nonempty (strip line)) || startswith "#" (strip line)).
Qed.

Lemma elem_of_load_lines id lines :
  forall acc,
    id ∈ foldl load_line acc lines <->
    id ∈ acc \/ exists line, line ∈ lines /\ line_id line = Some id.
Proof.
  induction lines as [|line lines IH]; intros acc; cbn [foldl].
  - split; [by left|]. intros [?|(line & Hin & _)]; [done|].
    by apply elem_of_nil in Hin.
  - rewrite IH, load_line_cases. split.
    + intros [Hacc|(l & Hl & Hid)].
      * destruct (line_id line) as [n|] eqn:Hn; [|by left].
        apply elem_of_app in Hacc as [?|Hn']; [by left|right].
        apply list_elem_of_singleton in Hn' as ->.
        exists line. split; [apply elem_of_cons; by left|done].
      * right. exists l. split; [apply elem_of_cons; by right|done].
    + intros [Hacc|(l & Hl & Hid)].
      * left. destruct (line_id line); [|done]. apply elem_of_app. by left.
      * apply elem_of_cons in Hl as [->|Hl].
        -- left. rewrite Hid. apply elem_of_app. right.
           by apply list_elem_of_singleton.
        -- right. by exists l.
Qed.

(** Compaction adds no ID to the list. *)
Lemma load_after_compaction processed file id :
  id ∈ load_sku_list (remove_processed_skus_from_file processed file).1 ->
  id ∈ load_sku_list file.
Proof.
  destruct file as [text|]; [|done].
  unfold remove_processed_skus_from_file. rewrite compact_lines. cbn [app].
  destruct (0 <? _)%nat; [|done]. cbn [fst load_sku_list].
  rewrite readlines_writelines
    by (apply (filter_shape (fun l => names_processed processed l = false)),
          readlines_shape).
  rewrite !elem_of_load_lines.
  intros [?|(line & [_ Hin]%list_elem_of_filter & Hid)]; [by left|right].
  by exists line.
Qed.

End SkuFileFacts.

(** ** The engine, over any remote service *)

Section EngineFacts.
Import Engine.

Context {World : Type}.
Variable session_request : World -> request -> option response * World.
Variable depth : nat.

#[local] Abbreviation safe_request_at := (safe_request_at World session_request).
#[local] Abbreviation update_image_alt := (update_image_alt World session_request depth).
#[local] Abbreviation update_images := (update_images World session_request depth).
#[local] Abbreviation process_sku_images := (process_sku_images World session_request depth).
#[local] Abbreviation get_sku_details := (get_sku_details World session_request depth).
#[local] Abbreviation process_single_sku := (process_single_sku World session_request depth).
#[local] Abbreviation updates_succeed := (updates_succeed World session_request depth).

(** [safe_request] only ever sends the request it was given, and sends
    it at least once. *)
Lemma safe_request_at_requests d rq :
  forall w res w' t,
    safe_request_at d rq w = (res, w', t) ->
    exists n, requests t = replicate (S n) rq.
Proof.
  induction d as [|d IH]; intros w res w' t; cbn [Engine.safe_request_at];
    destruct (session_request w rq) as [[r|] w1]; try (intros [= <- <- <-]; by exists 0%nat).
  - destruct (status_code r =? 429)%Z; [destruct (retry_after_seconds r)|];
      intros [= <- <- <-]; by exists 0%nat.
  - destruct (status_code r =? 429)%Z; [destruct (retry_after_seconds r)|];
      try (intros [= <- <- <-]; by exists 0%nat).
    destruct (safe_request_at d rq w1) as [[res1 w2] t1] eqn:Hrec.
    intros [= <- <- <-]. destruct (IH _ _ _ _ Hrec) as [n Hn].
    exists (S n). cbn [requests]. by rewrite Hn.
Qed.

(** X2: what [safe_request] hands to its caller is never a 429: it is
    no response, or a response with another status. *)
Theorem safe_request_at_settles d rq :
  forall w res w' t, safe_request_at d rq w = (res, w', t) -> settles res.
Proof.
  induction d as [|d IH]; intros w res w' t; cbn [Engine.safe_request_at];
    destruct (session_request w rq) as [[r|] w1]; try (by intros [= <- <- <-]).
  - destruct (status_code r =? 429)%Z eqn:Hs; [destruct (retry_after_seconds r)|];
      intros [= <- <- <-]; try done. simpl. lia.
  - destruct (status_code r =? 429)%Z eqn:Hs; [destruct (retry_after_seconds r)|];
      try (intros [= <- <- <-]; try done; simpl; lia).
    destruct (safe_request_at d rq w1) as [[res1 w2] t1] eqn:Hrec.
    intros [= <- <- <-]. by eapply IH.
Qed.

Lemma truthy_status_200 res : truthy res && status_is 200 res = status_is 200 res.
Proof.
  destruct res as [r|]; [|done]. unfold truthy, status_is, response_ok.
  destruct (status_code r =? 200)%Z eqn:Hs; [|by rewrite andb_false_r].
  apply Z.eqb_eq in Hs. rewrite Hs. reflexivity.
Qed.

Lemma truthy_status_401 res : truthy res && status_is 401 res = false.
Proof.
  destruct res as [r|]; [|done]. unfold truthy, status_is, response_ok.
  destruct (status_code r =? 401)%Z eqn:Hs; [|by rewrite andb_false_r].
  apply Z.eqb_eq in Hs. rewrite Hs. reflexivity.
Qed.

(** [update_image_alt] sends one PUT through [safe_request] and answers
    whether the status that came back is 200. *)
Lemma update_image_alt_run sku_id img new_alt s :
  update_image_alt sku_id img new_alt s
  = let '(res, w, t) :=
      safe_request_at depth
        (Request PUT (FileUrl sku_id (dict_get img "Id"))
                 (Some (<["Text" := JStr new_alt]> (<["Label" := JStr new_alt]> img))))
        (remote s) in
    (Ret (status_is 200 res), set_remote World w s, t).
Proof.
  unfold Engine.update_image_alt. run_monad.
  destruct (safe_request_at _ _ _) as [[res w] t].
  rewrite truthy_status_200, truthy_status_401.
  destruct (status_is 200 res); by rewrite app_nil_r.
Qed.

(** C7: every request [update_image_alt] sends is a PUT on the file
    of the image whose payload is the image record with [Label] and
    [Text] set to the new text and every other field as it was; and it
    sends at least one. *)
Theorem update_image_alt_payload_frame :
  forall sku_id (img : image) new_alt s,
    let '(_, _, t) := update_image_alt sku_id img new_alt s in
    requests t <> [] /\
    Forall (fun rq =>
              req_method rq = PUT /\
              req_url rq = FileUrl sku_id (dict_get img "Id") /\
              exists payload : image,
                req_json rq = Some payload /\
                payload !! "Label" = Some (JStr new_alt) /\
                payload !! "Text" = Some (JStr new_alt) /\
                forall key, key <> "Label" -> key <> "Text" ->
                            payload !! key = img !! key)
           (requests t).
Proof.
  intros sku_id img new_alt s. rewrite update_image_alt_run.
  destruct (safe_request_at _ _ _) as [[res w] t] eqn:Hrun.
  destruct (safe_request_at_requests _ _ _ _ _ _ Hrun) as [n ->].
  split; [done|]. apply Forall_replicate.
  split; [done|]. split; [done|]. eexists. split; [done|].
  split; [|split].
  - by rewrite lookup_insert_ne, lookup_insert_eq.
  - by rewrite lookup_insert_eq.
  - intros key Hl Ht. by rewrite !lookup_insert_ne.
Qed.

(** C4: an item that is in the checkpoint when [process_single_sku]
    takes it is answered with success at once: no request, no wait, no
    change of state. *)
Theorem process_single_sku_checkpointed :
  forall sku_id s,
    Checkpoint.is_processed sku_id (processed_skus s) = true ->
    process_single_sku sku_id s = (Ret true, s, []).
Proof.
  intros sku_id s Hp. unfold Engine.process_single_sku. run_monad.
  by rewrite Hp.
Qed.

Lemma requests_app t1 t2 : requests (t1 ++ t2) = requests t1 ++ requests t2.
Proof.
  induction t1 as [|ev t1 IH]; [done|].
  destruct ev; cbn [requests app]; by rewrite ?IH.
Qed.

(** C5 (as the code runs): whenever the fetch of the image list does
    not come back with status 200 -- no response, a 404, any other
    status -- [process_sku_images] answers [False] and leaves the
    checkpoint as it was.  The [elif] on 404 is never reached: a
    response with a status from 400 to 599 is false, so the first [if]
    has returned. *)
Theorem process_sku_images_unresolved_unless_200 :
  forall sku_id product_name s res w t,
    safe_request_at depth (Request GET (FilesUrl sku_id) None) (remote s)
    = (res, w, t) ->
    status_is 200 res = false ->
    process_sku_images sku_id product_name s
    = (Ret false, set_remote World w s, t).
Proof.
  intros sku_id product_name s res w t Hrun H200.
  unfold Engine.process_sku_images. run_monad. rewrite Hrun.
  destruct res as [r|]; [|by cbn; rewrite app_nil_r].
  unfold truthy, response_ok. simpl in H200.
  destruct ((400 <=? status_code r)%Z && (status_code r <? 600)%Z) eqn:Herr;
    [by cbn; rewrite app_nil_r|].
  cbn [negb]. rewrite H200.
  destruct (status_code r =? 404)%Z eqn:H404; [|by cbn; rewrite app_nil_r].
  apply Z.eqb_eq in H404. rewrite H404 in Herr. discriminate.
Qed.

(** The loop of [process_sku_images], for a name that is a [str]: the
    flag it returns, the checkpoint it leaves alone, and the requests it
    sends. *)
Lemma update_images_run sku_id name total images :
  let new_alt := AltText.generate_natural_alt_text name 1 1 in
  forall index success s,
    exists s' t,
      update_images sku_id (JStr name) total index images success s
      = (Ret (success && updates_succeed sku_id new_alt images s), s', t) /\
      processed_skus s' = processed_skus s /\
      Forall (fun rq =>
                req_method rq = PUT /\
                exists payload : image,
                  req_json rq = Some payload /\
                  payload !! "Label" = Some (JStr new_alt) /\
                  payload !! "Text" = Some (JStr new_alt))
             (requests t).
Proof.
  intros new_alt.
  induction images as [|img rest IH]; intros index success s.
  - exists s, []. cbn. by rewrite andb_true_r.
  - cbn [Engine.update_images Engine.updates_succeed]. run_monad.
    cbn [alt_text_for].
    change (AltText.generate_natural_alt_text name index total) with new_alt.
    destruct (differs (default (JStr "") (img !! "Label")) new_alt).
    + rewrite update_image_alt_run.
      destruct (safe_request_at _ _ (remote s)) as [[res w] t1] eqn:Hput.
      destruct (safe_request_at_requests _ _ _ _ _ _ Hput) as [n Hsent].
      set (updated := status_is 200 res).
      set (s1 := set_remote World w s).
      assert (Hcp : processed_skus s1 = processed_skus s) by done.
      destruct (IH (index + 1)%Z (if negb updated then false else success) s1)
        as (s' & t2 & Hrest & Hcp' & Hreqs).
      rewrite Hrest. exists s', ((t1 ++ []) ++ t2). split; [|split].
      * f_equal. f_equal. f_equal.
        by destruct updated, success, (updates_succeed sku_id new_alt rest s1).
      * congruence.
      * rewrite app_nil_r, requests_app, Hsent. apply Forall_app. split; [|done].
        apply Forall_replicate. split; [done|]. eexists. split; [done|].
        by rewrite lookup_insert_ne, !lookup_insert_eq.
    + destruct (IH (index + 1)%Z success s) as (s' & t2 & Hrest & Hcp' & Hreqs).
      rewrite Hrest. by exists s', t2.
Qed.

Lemma all_have_alt_false_cons images :
  all_have_alt images = Ret false -> exists img rest, images = img :: rest.
Proof. destruct images as [|img rest]; [done|]. by exists img, rest. Qed.

(** C6: when the image list arrives (status 200, a non-empty list, not
    every image labelled), [process_sku_images] answers whether every
    update it asked for returned [True], and marks the item exactly
    then: a checkpoint that did not hold the item holds it afterwards if
    and only if all of them did.  An update returns [True] exactly when
    its PUT comes back with status 200, so a 401 on one image leaves the
    item out. *)
Theorem process_sku_images_marks_iff_updates_succeed :
  forall sku_id name s r w t0 images,
    safe_request_at depth (Request GET (FilesUrl sku_id) None) (remote s)
    = (Some r, w, t0) ->
    status_code r = 200%Z ->
    content r = JsonArray images ->
    all_have_alt images = Ret false ->
    let new_alt := AltText.generate_natural_alt_text name 1 1 in
    let ok := updates_succeed sku_id new_alt images (set_remote World w s) in
    (exists s' t,
        process_sku_images sku_id (JStr name) s = (Ret ok, s', t) /\
        processed_skus s'
        = (if ok then Checkpoint.mark_processed sku_id (processed_skus s)
           else processed_skus s) /\
        (sku_id ∉ processed_skus s -> (sku_id ∈ processed_skus s' <-> ok = true))) /\
    (forall (img : image) s1,
        (update_image_alt sku_id img new_alt s1).1.1
        = Ret (status_is 200
                 (safe_request_at depth
                    (Request PUT (FileUrl sku_id (dict_get img "Id"))
                       (Some (<["Text" := JStr new_alt]>
                                (<["Label" := JStr new_alt]> img))))
                    (remote s1)).1.1)).
Proof.
  intros sku_id name s r w t0 images Hrun Hst Hbody Hall new_alt ok.
  split.
  2: { intros img s1. rewrite update_image_alt_run.
       by destruct (safe_request_at _ _ (remote s1)) as [[? ?] ?]. }
  destruct (all_have_alt_false_cons _ Hall) as (img & rest & ->).
  destruct (update_images_run sku_id name (Z.of_nat (length (img :: rest)))
              (img :: rest) 1%Z true (set_remote World w s))
    as (s1 & t1 & Hloop & Hcp & _).
  fold new_alt in Hloop. rewrite andb_true_l in Hloop. fold ok in Hloop.
  unfold Engine.process_sku_images. run_monad. rewrite Hrun.
  unfold truthy, response_ok. rewrite Hst, Hbody. cbn [Z.leb Z.ltb Z.eqb Z.compare Pos.compare Pos.compare_cont andb negb Pos.eqb].
  rewrite Hall, Hloop.
  destruct ok eqn:Hok.
  - eexists _, _. split; [reflexivity|]. cbn. rewrite Hcp. cbn.
    split; [done|]. intros _. split; [done|]. intros _.
    apply elem_of_mark_processed. by right.
  - eexists _, _. split; [reflexivity|]. cbn. rewrite Hcp. cbn.
    split; [done|]. intros Hnot. split; [done|done].
Qed.

(** C10: the generated alt text does not depend on the position of the
    image nor on the number of images, so every update of one item
    carries the same text in [Label] and [Text]. *)
Theorem generate_natural_alt_text_position_free :
  (forall product_name image_index total_images image_index' total_images',
      AltText.generate_natural_alt_text product_name image_index total_images
      = AltText.generate_natural_alt_text product_name image_index' total_images') /\
  (forall sku_id name total index images success s,
      let '(_, _, t) :=
        update_images sku_id (JStr name) total index images success s in
      Forall (fun rq =>
                exists payload : image,
                  req_json rq = Some payload /\
                  payload !! "Label"
                  = Some (JStr (AltText.generate_natural_alt_text name 1 1)) /\
                  payload !! "Text"
                  = Some (JStr (AltText.generate_natural_alt_text name 1 1)))
             (requests t)).
Proof.
  split; [reflexivity|].
  intros sku_id name total index images success s.
  destruct (update_images_run sku_id name total images index success s)
    as (s' & t & -> & _ & Hreqs).
  eapply Forall_impl; [exact Hreqs|]. intros rq [_ Hp]. exact Hp.
Qed.

End EngineFacts.

(** ** Throttling behind the session *)

Section SessionFacts.
Import Engine Remotes.

Section Transport.

Variable World : Type.
Variable send : World -> request -> option response * World.
Variable retry_after_ok : string -> bool.

#[local] Abbreviation urlopen := (Session.urlopen World send retry_after_ok).
#[local] Abbreviation session_request := (Session.request World send retry_after_ok).








End Transport.



End SessionFacts.

(** ** Runs against the catalog *)

Section CatalogFacts.
Import Engine Remotes.

Variable depth : nat.

#[local] Abbreviation safe_request_at := (safe_request_at catalog catalog_request).
#[local] Abbreviation get_sku_details := (get_sku_details catalog catalog_request depth).
#[local] Abbreviation process_sku_images := (process_sku_images catalog catalog_request depth).
#[local] Abbreviation process_single_sku := (process_single_sku catalog catalog_request depth).
#[local] Abbreviation update_images := (update_images catalog catalog_request depth).
#[local] Abbreviation workers := (workers catalog catalog_request depth).
#[local] Abbreviation run_bulk_update := (run_bulk_update catalog catalog_request depth).








Lemma has_alt_labelled (img : image) alt :
  PyStr.tidy alt -> img !! "Label" = Some (JStr alt) -> has_alt img = Ret true.
Proof.
  intros Ht Hl. unfold has_alt, dict_get. rewrite Hl.
  cbn [default id truthy_json].
  rewrite (tidy_nonempty _ Ht), (strip_tidy _ Ht). by rewrite (tidy_nonempty _ Ht).
Qed.

Lemma all_have_alt_labelled (l : list image) alt :
  PyStr.tidy alt ->
  Forall (fun img : image => img !! "Label" = Some (JStr alt)) l ->
  all_have_alt l = Ret true.
Proof.
  intros Ht. induction 1 as [|img l Himg _ IH]; [done|].
  cbn [all_have_alt]. by rewrite (has_alt_labelled img alt Ht Himg).
Qed.


Lemma classic_name (v : json) :
  (exists name, v = JStr name) \/ (forall name, v <> JStr name).
Proof. destruct v; try (by right); left; by eexists. Qed.

Lemma elem_of_mark_processed_mono x sku_id cp :
  x ∈ cp -> x ∈ Checkpoint.mark_processed sku_id cp.
Proof. intros Hx. apply elem_of_mark_processed. by left. Qed.


Lemma update_images_not_str sku_id product_name total index img rest success s :
  truthy_json product_name = true ->
  (forall name, product_name <> JStr name) ->
  update_images sku_id product_name total index (img :: rest) success s
  = (Raise, s, []).
Proof.
  intros Ht Hn. cbn [Engine.update_images]. run_monad.
  destruct product_name; cbn [alt_text_for] in *; try rewrite Ht; try done.
  by destruct (Hn s0).
Qed.


Lemma named_same c c' sku_id name :
  details c' = details c -> named c sku_id name -> named c' sku_id name.
Proof. intros Hd (d & Hdk & Hn). exists d. by rewrite Hd. Qed.











(** The start of a run: the checkpoint is loaded, and saved empty on a
    fresh start; then the list is read. *)
Lemma run_bulk_update_start (resume : bool) (s0 : state catalog)
    {B} (f : list Z -> M catalog B) :
  let sb :=
    State (remote s0)
      (if resume then default [] (checkpoint_file s0) else [])
      (if resume then checkpoint_file s0 else Some [])
      (sku_file s0) in
  (load catalog;;
   (if negb resume then clear catalog else mret tt);;
   sku_ids ← (fun s => (Ret (SkuFile.load_sku_list (sku_file s)), s, []));
   f sku_ids) s0
  = (let '(r, s1, t1) := f (SkuFile.load_sku_list (sku_file s0)) sb in
     (r, s1, (if resume then [] else [EvSaveCheckpoint []]) ++ t1)).
Proof.
  destruct resume; run_monad; unfold load, clear, save; cbn;
    by destruct (f _ _) as [[r s1] t1].
Qed.


(** *** A healthy catalog *)

Lemma serve_not_429 c rq : status_code (serve c rq).1 <> 429%Z.
Proof.
  unfold serve.
  destruct (req_method rq), (req_url rq) as [k|k|k fid], (req_json rq) as [p|];
    try done;
    try (by destruct (details c !! k));
    try (by destruct (images c !! k) as [l|]; [destruct (existsb _ l)|]);
    by destruct (images c !! k).
Qed.

Lemma safe_request_at_healthy d rq c :
  weather c = [] ->
  safe_request_at d rq c
  = (Some (serve c rq).1, (serve c rq).2,
     [EvWait; EvRequest rq (Some (serve c rq).1)]).
Proof.
  intros Hw. pose proof (serve_not_429 c rq) as Hs.
  apply Z.eqb_neq in Hs.
  destruct d; cbn [Engine.safe_request_at]; unfold catalog_request; rewrite Hw;
    destruct (serve c rq) as [r c']; cbn [fst snd] in *; by rewrite Hs.
Qed.

Lemma set_remote_same {World} (s : state World) : set_remote World (remote s) s = s.
Proof. by destruct s. Qed.

Lemma get_sku_details_healthy sku_id s :
  weather (remote s) = [] ->
  exists t,
    get_sku_details sku_id s
    = (Ret (match details (remote s) !! sku_id with
            | Some d => (name_of d, dict_get d "RefId")
            | None => (JNull, JNull)
            end), s, t).
Proof.
  intros Hw. unfold Engine.get_sku_details. run_monad.
  rewrite safe_request_at_healthy by done.
  unfold serve. cbn [req_method req_url req_json].
  destruct (details (remote s) !! sku_id) as [d|]; cbn; rewrite set_remote_same;
    by eexists.
Qed.

Lemma tame_put id payload l :
  tame_image payload -> Forall tame_image l ->
  Forall tame_image (put_record (JInt id) payload l).
Proof.
  intros Hp Hl. unfold put_record. apply Forall_fmap.
  eapply Forall_impl; [exact Hl|]. intros img Himg. unfold compose.
  by destruct (same_id (JInt id) img).
Qed.

Lemma differs_false v alt : differs v alt = false -> v = JStr alt.
Proof.
  destruct v; try done. cbn [differs]. intros H%negb_false_iff.
  by apply String.eqb_eq in H as ->.
Qed.

Lemma same_id_true id (rec : image) :
  rec !! "Id" = Some (JInt id) -> same_id (JInt id) rec = true.
Proof. intros H. unfold same_id. rewrite H. apply Z.eqb_refl. Qed.

Lemma same_id_inv id (rec : image) :
  (exists id', rec !! "Id" = Some (JInt id')) ->
  same_id (JInt id) rec = true -> rec !! "Id" = Some (JInt id).
Proof.
  intros [id' Hid]. unfold same_id. rewrite Hid. by intros ->%Z.eqb_eq.
Qed.

(** An update leaves the stored records of the images still to come as
    they were, or puts a payload with the same [Id] in their place. *)
Lemma put_pending id (payload : image) alt pend rest :
  payload !! "Id" = Some (JInt id) ->
  payload !! "Label" = Some (JStr alt) ->
  Forall tame_image pend ->
  Forall2 (fun rec img : image =>
             rec !! "Id" = img !! "Id" /\
             (rec = img \/ rec !! "Label" = Some (JStr alt)))
          pend rest ->
  Forall2 (fun rec img : image =>
             rec !! "Id" = img !! "Id" /\
             (rec = img \/ rec !! "Label" = Some (JStr alt)))
          (map (fun rec : image => if same_id (JInt id) rec then payload else rec)
               pend)
          rest.
Proof.
  intros Hpid Hpl Htame Hp.
  induction Hp as [|x y pend rest [Hxy Hx] _ IH]; [constructor|].
  apply Forall_cons in Htame as [[Hxid _] Htame]. cbn [map].
  constructor; [|by apply IH].
  destruct (same_id (JInt id) x) eqn:Hsame; [|done].
  split; [|by right]. rewrite Hpid, <- Hxy. symmetry. by apply same_id_inv.
Qed.

(** The loop of [process_sku_images] on a healthy catalog.  [done] are
    the stored records of the images the loop has passed, [pend] those
    of the images [rest] still to come: a stored record is the image
    the program fetched, or a payload already written over it (by the
    update of an image with the same [Id]).  Every update succeeds, and
    in the end every stored record carries the alt text. *)
Lemma update_images_labels sku_id name total rest :
  forall index success (s : state catalog) done pend,
    weather (remote s) = [] ->
    images (remote s) !! sku_id = Some (done ++ pend) ->
    Forall tame_image (done ++ pend) ->
    all_labelled (AltText.generate_natural_alt_text name 1 1) done ->
    Forall2 (fun rec img : image =>
               rec !! "Id" = img !! "Id" /\
               (rec = img \/
                rec !! "Label"
                = Some (JStr (AltText.generate_natural_alt_text name 1 1))))
            pend rest ->
    exists s1 t l1,
      update_images sku_id (JStr name) total index rest success s
      = (Ret success, s1, t) /\
      weather (remote s1) = [] /\
      details (remote s1) = details (remote s) /\
      images (remote s1) = <[sku_id := l1]> (images (remote s)) /\
      Forall tame_image l1 /\
      all_labelled (AltText.generate_natural_alt_text name 1 1) l1 /\
      length l1 = length (done ++ pend) /\
      processed_skus s1 = processed_skus s /\
      sku_file s1 = sku_file s.
Proof.
  set (alt := AltText.generate_natural_alt_text name 1 1).
  induction rest as [|img rest IH];
    intros index success s done pend Hw Hl Htame Hdone Hpend.
  - apply Forall2_nil_inv_r in Hpend as ->. rewrite app_nil_r in *.
    exists s, [], done. cbn. repeat split; try done. by rewrite insert_id.
  - apply Forall2_cons_inv_r in Hpend
      as (rec & pend' & [Hid Hrec] & Hpend & ->).
    assert (Htrec : tame_image rec).
    { apply Forall_app in Htame as [_ Ht]. by apply Forall_cons in Ht as [? _]. }
    destruct Htrec as [[id Hrid] Hrlabel].
    assert (Himgid : img !! "Id" = Some (JInt id)) by congruence.
    cbn [Engine.update_images]. run_monad. cbn [alt_text_for].
    change (AltText.generate_natural_alt_text name index total) with alt.
    destruct (differs (default (JStr "") (img !! "Label")) alt) eqn:Hdiff.
    + assert (Hdg : dict_get img "Id" = JInt id)
        by (unfold dict_get; by rewrite Himgid).
      assert (Hex : existsb (same_id (JInt id)) (done ++ rec :: pend') = true).
      { apply existsb_exists. exists rec. split; [|by apply same_id_true].
        apply in_or_app. right. by left. }
      rewrite update_image_alt_run, Hdg, safe_request_at_healthy by done.
      unfold serve. cbn [req_method req_url req_json]. rewrite Hl, Hex.
      cbn [fst snd status_is status_code Z.eqb Pos.eqb negb].
      set (payload := <["Text" := JStr alt]> (<["Label" := JStr alt]> img)).
      assert (Hpid : payload !! "Id" = Some (JInt id)).
      { unfold payload. by rewrite !lookup_insert_ne. }
      assert (Hplabel : payload !! "Label" = Some (JStr alt)).
      { unfold payload. by rewrite lookup_insert_ne, lookup_insert_eq. }
      assert (Hptame : tame_image payload).
      { split; [by exists id|]. intros v Hv. right. exists alt. congruence. }
      set (put := fun rec : image => if same_id (JInt id) rec then payload else rec).
      assert (Hput : put_record (JInt id) payload (done ++ rec :: pend')
                     = (map put done ++ [payload]) ++ map put pend').
      { unfold put_record. fold put. rewrite map_app. cbn [map].
        unfold put at 2. rewrite (same_id_true id rec Hrid).
        by rewrite <- app_assoc. }
      set (c1 := Catalog _ _ _).
      destruct (IH (index + 1)%Z success (set_remote catalog c1 s)
                  (map put done ++ [payload]) (map put pend'))
        as (s1 & t & l1 & Hrun & Hw1 & Hd1 & Hi1 & Ht1 & Hlab1 & Hlen1 & Hcp1 & Hf1).
      * done.
      * cbn. by rewrite lookup_insert_eq, Hput.
      * rewrite <- Hput. by apply tame_put.
      * apply Forall_app. split; [|by repeat constructor].
        apply Forall_fmap. eapply Forall_impl; [exact Hdone|].
        intros x Hx. unfold compose, put. by destruct (same_id (JInt id) x).
      * apply (put_pending id payload alt); try done.
        apply Forall_app in Htame as [_ Ht]. by apply Forall_cons in Ht as [_ ?].
      * rewrite Hrun. eexists _, _, l1. split; [reflexivity|].
        repeat split; try done.
        -- rewrite Hi1. cbn. by rewrite insert_insert_eq.
        -- rewrite Hlen1. repeat rewrite ?length_app, ?length_map.
           cbn [length]. lia.
    + assert (Hlabel : img !! "Label" = Some (JStr alt)).
      { apply differs_false in Hdiff.
        destruct (img !! "Label") as [v|]; cbn in Hdiff; [by rewrite Hdiff|].
        pose proof (tidy_nonempty _ (generate_natural_alt_text_tidy name 1 1)) as Hne.
        fold alt in Hne. injection Hdiff as Hempty. by rewrite <- Hempty in Hne. }
      destruct (IH (index + 1)%Z success s (done ++ [rec]) pend')
        as (s1 & t & l1 & Hrun & Hrest'); try done.
      * by rewrite <- app_assoc.
      * by rewrite <- app_assoc.
      * apply Forall_app. split; [done|]. repeat constructor.
        destruct Hrec as [->|Hrec]; done.
      * rewrite Hrun. exists s1, t, l1. split; [done|].
        by rewrite <- app_assoc in Hrest'.
Qed.

Lemma has_alt_tame img : tame_image img -> has_alt img <> Raise.
Proof.
  intros [_ Hlabel]. unfold has_alt, dict_get.
  destruct (img !! "Label") as [v|] eqn:Hv; [|done].
  destruct (Hlabel v eq_refl) as [->|[label ->]]; [done|].
  cbn. by destruct (PyStr.nonempty label).
Qed.

Lemma all_have_alt_tame l : Forall tame_image l -> all_have_alt l <> Raise.
Proof.
  induction 1 as [|img l Himg _ IH]; [done|]. cbn [all_have_alt].
  pose proof (has_alt_tame img Himg).
  by destruct (has_alt img) as [[|]|].
Qed.

Lemma steady_refl s : healthy (remote s) -> steady s s.
Proof.
  intros Hh. split; [done|]. split; [done|]. split; [by left|].
  split; [done|]. split; [done|]. by intros k Hout Hin.
Qed.

(** The items that have an image list keep having one. *)
Lemma steady_images_none s s1 k :
  steady s s1 ->
  images (remote s1) !! k = None <-> images (remote s) !! k = None.
Proof.
  intros (_ & _ & Hi & _).
  destruct (Hi k)
    as [->|(_ & _ & name & l & l1 & _ & Hl & _ & Hl1 & _)]; [done|].
  by rewrite Hl, Hl1.
Qed.

Lemma steady_trans s1 s2 s3 : steady s1 s2 -> steady s2 s3 -> steady s1 s3.
Proof.
  intros (Hh1 & Hd1 & Hi1 & Hc1 & Hf1 & Hr1) (Hh2 & Hd2 & Hi2 & Hc2 & Hf2 & Hr2).
  split; [done|]. split; [congruence|].
  split; [|split; [by auto|split; [by auto|]]].
  - intros k.
    destruct (Hi2 k) as [Hsame2|(Hn2 & Hp2 & name & l & l1 & Hname & Hl & Hall
                                 & Hl1 & Hlen & Hlab)].
    + destruct (Hi1 k) as [Hsame1|(Hn1 & Hp1 & name & l & l1 & Hrel)].
      * left. congruence.
      * right. split; [done|]. split; [by apply Hc2|].
        exists name, l, l1. by rewrite Hsame2.
    + destruct (Hi1 k) as [Hsame1|(Hn1 & Hp1 & _)]; [|done].
      right. split; [intros Hin; by apply Hn2, Hc1|]. split; [done|].
      exists name, l, l1. split; [by apply (named_same (remote s2))|].
      by rewrite <- Hsame1.
  - intros k Hout Hin.
    destruct (decide (k ∈ processed_skus s2)) as [Hin2|Hout2]; [|by apply Hr2].
    intros name l Hnamed Hl.
    destruct (Hi2 k) as [Hsame|(Hn2 & _)]; [|done].
    apply (Hr1 k Hout Hin2 name l); [|by rewrite <- Hsame].
    by apply (named_same (remote s3)).
Qed.

Lemma steady_mark sku_id s :
  healthy (remote s) ->
  at_rest (remote s) sku_id ->
  steady s (set_processed catalog
              (Checkpoint.mark_processed sku_id (processed_skus s)) s).
Proof.
  intros Hh Hrest. split; [done|]. split; [done|]. split; [by left|].
  split; [intros x Hx; by apply elem_of_mark_processed_mono|]. split; [done|].
  by intros k Hout [Hin| ->]%elem_of_mark_processed.
Qed.

Lemma steady_relist sku_id name (s s1 : state catalog) l l1 :
  healthy (remote s) ->
  sku_id ∉ processed_skus s ->
  named (remote s) sku_id name ->
  images (remote s) !! sku_id = Some l ->
  all_have_alt l = Ret false ->
  weather (remote s1) = [] ->
  details (remote s1) = details (remote s) ->
  images (remote s1) = <[sku_id := l1]> (images (remote s)) ->
  Forall tame_image l1 ->
  all_labelled (AltText.generate_natural_alt_text name 1 1) l1 ->
  length l1 = length l ->
  processed_skus s1 = Checkpoint.mark_processed sku_id (processed_skus s) ->
  sku_file s1 = sku_file s ->
  steady s s1.
Proof.
  intros [Hw Htame] Hout Hnamed Hl Hall Hw1 Hd1 Hi1 Ht1 Hlab Hlen Hcp Hfile.
  assert (Hin1 : sku_id ∈ processed_skus s1).
  { rewrite Hcp. apply elem_of_mark_processed. by right. }
  assert (Hl1 : images (remote s1) !! sku_id = Some l1)
    by (by rewrite Hi1, lookup_insert_eq).
  split; [split; [done|]|split; [done|split; [|split; [|split]]]].
  - intros k lk. rewrite Hi1.
    destruct (decide (sku_id = k)) as [<-|Hne].
    + rewrite lookup_insert_eq. by intros [= <-].
    + rewrite lookup_insert_ne by done. apply Htame.
  - intros k. destruct (decide (sku_id = k)) as [<-|Hne].
    + right. split; [done|]. split; [done|]. by exists name, l, l1.
    + left. by rewrite Hi1, lookup_insert_ne.
  - intros x Hx. rewrite Hcp. by apply elem_of_mark_processed_mono.
  - by rewrite Hfile.
  - intros k Hkout Hkin. rewrite Hcp in Hkin.
    apply elem_of_mark_processed in Hkin as [Hkin| ->]; [done|].
    intros name' l' _ Hl'. rewrite Hl1 in Hl'. injection Hl' as <-.
    eapply all_have_alt_labelled; [|exact Hlab].
    apply generate_natural_alt_text_tidy.
Qed.

(** On a healthy catalog [process_sku_images] ends with the item
    checkpointed, unless the catalog has no image list for it or its
    name is not a string; an image list it changes ends with the alt
    text of the name on every image. *)
Lemma process_sku_images_healthy sku_id product_name s :
  healthy (remote s) ->
  sku_id ∉ processed_skus s ->
  truthy_json product_name = true ->
  (forall name, product_name = JStr name -> named (remote s) sku_id name) ->
  exists r s1 t,
    process_sku_images sku_id product_name s = (r, s1, t) /\
    steady s s1 /\
    (sku_id ∈ processed_skus s1 \/
     images (remote s1) !! sku_id = None \/
     forall name, product_name <> JStr name).
Proof.
  intros Hh Hout Htruthy Hnamed. pose proof Hh as [Hw Htame].
  unfold Engine.process_sku_images. run_monad.
  rewrite safe_request_at_healthy by done.
  unfold serve. cbn [req_method req_url req_json].
  destruct (images (remote s) !! sku_id) as [l|] eqn:Hl;
    cbn [fst snd]; rewrite set_remote_same.
  2: { eexists _, _, _. split; [reflexivity|]. split; [by apply steady_refl|].
       right. by left. }
  change (truthy (Some (Response 200 None (JsonArray l)))) with true.
  cbn [negb status_code content Z.eqb Pos.eqb].
  assert (Hmarked : all_have_alt l = Ret true -> forall t : list event,
    exists (r : result bool) s1 t',
      (Ret true,
       set_processed catalog (Checkpoint.mark_processed sku_id (processed_skus s)) s,
       t) = (r, s1, t') /\
      steady s s1 /\
      (sku_id ∈ processed_skus s1 \/
       images (remote s1) !! sku_id = None \/
       forall name, product_name <> JStr name)).
  { intros Hall t. eexists _, _, _. split; [reflexivity|]. split.
    - apply steady_mark; [done|]. intros name l' _ Hl'. congruence.
    - left. apply elem_of_mark_processed. by right. }
  destruct l as [|img rest]; [by apply Hmarked|].
  pose proof (all_have_alt_tame (img :: rest) (Htame _ _ Hl)) as Hnoraise.
  destruct (all_have_alt (img :: rest)) as [[|]|] eqn:Hall;
    [by apply Hmarked| |done].
  destruct (classic_name product_name) as [[name ->]|Hn].
  - destruct (update_images_labels sku_id name (Z.of_nat (length (img :: rest)))
                (img :: rest) 1%Z true s [] (img :: rest) Hw Hl (Htame _ _ Hl))
      as (s1 & t & l1 & Hrun & Hw1 & Hd1 & Hi1 & Ht1 & Hlab1 & Hlen1 & Hcp1 & Hf1).
    { constructor. }
    { apply Forall_Forall2_diag, Forall_forall. intros x _. split; [done|by left]. }
    rewrite Hrun. eexists _, _, _. split; [reflexivity|]. split.
    + eapply (steady_relist sku_id name); try done.
      * by apply Hnamed.
      * cbn. by rewrite Hcp1.
    + left. cbn. apply elem_of_mark_processed. by right.
  - rewrite update_images_not_str by done.
    eexists _, _, _. split; [reflexivity|]. split; [by apply steady_refl|].
    right. by right.
Qed.

Lemma resolved_steady s s1 k : steady s s1 -> resolved s k -> resolved s1 k.
Proof.
  intros Hsteady [Hin|[Hnone|(d & Hdk & Hname)]].
  - left. by apply Hsteady.
  - right. left. by apply (steady_images_none s s1 k).
  - right. right. exists d. destruct Hsteady as (_ & Hd & _). by rewrite Hd.
Qed.

Lemma process_single_sku_healthy sku_id s :
  healthy (remote s) ->
  exists r s1 t,
    process_single_sku sku_id s = (r, s1, t) /\
    steady s s1 /\ resolved s1 sku_id.
Proof.
  intros Hh. pose proof Hh as [Hw _].
  unfold Engine.process_single_sku. run_monad.
  destruct (Checkpoint.is_processed sku_id (processed_skus s)) eqn:Hp.
  { eexists _, _, _. split; [reflexivity|]. split; [by apply steady_refl|].
    left. by apply is_processed_true. }
  assert (Hout : sku_id ∉ processed_skus s).
  { intros Hin%is_processed_true. congruence. }
  destruct (get_sku_details_healthy sku_id s Hw) as [t ->].
  assert (Hmarked : at_rest (remote s) sku_id -> forall t' : list event,
    exists (r : result bool) s1 t'',
      (Ret true,
       set_processed catalog (Checkpoint.mark_processed sku_id (processed_skus s)) s,
       t') = (r, s1, t'') /\
      steady s s1 /\ resolved s1 sku_id).
  { intros Hrest t'. eexists _, _, _. split; [reflexivity|].
    split; [by apply steady_mark|]. left. apply elem_of_mark_processed. by right. }
  destruct (details (remote s) !! sku_id) as [d|] eqn:Hd.
  2: { apply Hmarked. intros name l (d & Hdk & _) _. congruence. }
  destruct (truthy_json (name_of d)) eqn:Htruthy.
  2: { apply Hmarked. intros name l (d' & Hdk & Hname & Hne) _.
       assert (d' = d) as -> by congruence.
       rewrite Hname in Htruthy. cbn in Htruthy. congruence. }
  destruct (process_sku_images_healthy sku_id (name_of d) s Hh Hout Htruthy)
    as (r & s1 & t1 & -> & Hsteady & Hres).
  { intros name Hname. exists d. split; [done|]. split; [done|].
    by rewrite Hname in Htruthy. }
  assert (Hresolved : resolved s1 sku_id).
  { destruct Hres as [?|[?|Hname]]; [by left|by right; left|].
    right. right. exists d. split; [|done].
    destruct Hsteady as (_ & -> & _). done. }
  destruct r as [success|]; eexists _, _, _; (split; [reflexivity|]); by split.
Qed.

Lemma steady_flush (flush : bool) (s : state catalog) :
  healthy (remote s) ->
  exists s1 t,
    (if flush then save catalog;; compact catalog else mret tt) s
    = (Ret tt, s1, t) /\
    steady s s1 /\ processed_skus s1 = processed_skus s /\
    (flush = true -> checkpoint_file s1 = Some (processed_skus s1)).
Proof.
  intros Hh. destruct flush.
  2: { eexists _, _. split; [reflexivity|]. split; [by apply steady_refl|done]. }
  run_monad. unfold save, compact. cbn.
  destruct (SkuFile.remove_processed_skus_from_file (processed_skus s) (sku_file s))
    as [file written] eqn:Hc.
  eexists _, _. split; [reflexivity|]. split; [|done].
  split; [done|]. split; [done|]. split; [by left|]. split; [done|].
  split; [|by intros k Hout Hin].
  cbn. intros x Hx.
  apply (load_after_compaction (processed_skus s)). by rewrite Hc.
Qed.

Lemma bind_run {A B} (m : M catalog A) (f : A -> M catalog B) s a s1 t1 r s2 t2 :
  m s = (Ret a, s1, t1) -> f a s1 = (r, s2, t2) ->
  (m ≫= f) s = (r, s2, t1 ++ t2).
Proof. intros Hm Hf. unfold mbind, Engine.M_bind. by rewrite Hm, Hf. Qed.

Lemma in_future_run {A} (m : M catalog A) s r s1 t :
  m s = (r, s1, t) -> in_future catalog m s = (Ret tt, s1, t).
Proof. intros Hm. unfold in_future. by rewrite Hm. Qed.

(** A pass of the workers over a healthy catalog leaves every item of
    the list resolved. *)
Lemma workers_healthy sku_ids :
  forall n s,
    healthy (remote s) ->
    exists n1 s1 t,
      workers sku_ids n s = (Ret n1, s1, t) /\
      steady s s1 /\
      forall k, k ∈ sku_ids -> resolved s1 k.
Proof.
  induction sku_ids as [|sku_id rest IH]; intros n s Hh.
  - eexists _, _, _. split; [reflexivity|]. split; [by apply steady_refl|].
    intros k Hk. by apply elem_of_nil in Hk.
  - cbn [Engine.workers].
    destruct (process_single_sku_healthy sku_id s Hh)
      as (r1 & s1 & t1 & Hrun1 & Hst1 & Hres1).
    destruct (steady_flush (S n mod CHECKPOINT_INTERVAL =? 0)%nat s1)
      as (s2 & t2 & Hflush & Hst2 & Hcp2 & _); [apply Hst1|].
    destruct (IH (S n) s2) as (n3 & s3 & t3 & Hrun3 & Hst3 & Hres3); [apply Hst2|].
    eexists _, _, _. split.
    { eapply bind_run; [by eapply in_future_run|].
      eapply bind_run; [exact Hflush|exact Hrun3]. }
    split; [by eauto using steady_trans|].
    intros k [->|Hk]%elem_of_cons; [|by apply Hres3].
    eauto using resolved_steady.
Qed.

(** A run on a healthy catalog: it returns, the checkpoint file holds
    the checkpoint, and every item of the list is resolved. *)
Lemma run_bulk_update_healthy (resume : bool) (s0 : state catalog) :
  healthy (remote s0) ->
  exists s1 t,
    run_bulk_update resume s0 = (Ret tt, s1, t) /\
    steady (set_processed catalog
              (if resume then default [] (checkpoint_file s0) else []) s0) s1 /\
    default [] (checkpoint_file s1) = processed_skus s1 /\
    forall k, k ∈ SkuFile.load_sku_list (sku_file s0) -> resolved s1 k.
Proof.
  intros Hh. unfold Engine.run_bulk_update. rewrite run_bulk_update_start.
  set (sb := State _ _ _ _).
  set (sa := set_processed catalog _ s0).
  assert (Hab : steady sa sb).
  { split; [done|]. split; [done|]. split; [by left|]. split; [done|].
    split; [done|]. by intros k Hout Hin. }
  destruct (SkuFile.load_sku_list (sku_file s0)) as [|k ks] eqn:Hids.
  { eexists _, _. split; [reflexivity|]. split; [done|].
    split; [by destruct resume|]. intros x Hx. by apply elem_of_nil in Hx. }
  rewrite <- Hids.
  destruct (workers_healthy (SkuFile.load_sku_list (sku_file s0)) 0 sb Hh)
    as (n1 & sw & tw & Hworkers & Hsteady & Hresolved).
  destruct (steady_flush true sw) as (s1 & t1 & Hflush & Hst1 & Hcp1 & Hfile1);
    [apply Hsteady|].
  rewrite (bind_run _ _ sb n1 sw tw _ s1 t1 Hworkers Hflush).
  eexists _, _. split; [reflexivity|].
  split; [by eauto using steady_trans|].
  split; [by rewrite Hfile1|].
  intros x Hx. eauto using resolved_steady.
Qed.


(** X1: a run on a healthy catalog labels what it lists.  Every item of
    the list that is not in the checkpoint the run starts from, has a
    name and has an image list ends in the saved checkpoint with every
    image labelled: the image list is the one the run found when every
    image had a label already, and carries the alt text of the name on
    every image otherwise. *)
Theorem run_bulk_update_labels_listed (resume : bool) (s0 : state catalog) :
  healthy (remote s0) ->
  let s1 := (run_bulk_update resume s0).1.2 in
  forall sku_id name l,
    sku_id ∈ SkuFile.load_sku_list (sku_file s0) ->
    sku_id ∉ (if resume then default [] (checkpoint_file s0) else []) ->
    named (remote s0) sku_id name ->
    images (remote s0) !! sku_id = Some l ->
    sku_id ∈ default [] (checkpoint_file s1) /\
    exists l1,
      images (remote s1) !! sku_id = Some l1 /\
      length l1 = length l /\
      all_have_alt l1 = Ret true /\
      (all_have_alt l = Ret true -> l1 = l) /\
      (all_have_alt l = Ret false ->
       all_labelled (AltText.generate_natural_alt_text name 1 1) l1).
Proof.
  intros Hh s1 sku_id name l Hin Hout Hnamed Hl.
  destruct (run_bulk_update_healthy resume s0 Hh)
    as (s1' & t1 & Hrun & Hsteady & Hsaved & Hresolved).
  assert (Hs1 : s1 = s1') by (unfold s1; by rewrite Hrun). clearbody s1.
  subst s1'. rewrite Hsaved.
  pose proof Hsteady as (_ & Hd & Hi & _ & _ & Hrest).
  cbn [remote processed_skus set_processed] in Hd, Hi, Hrest.
  assert (Hsome : exists l1, images (remote s1) !! sku_id = Some l1).
  { destruct (Hi sku_id) as [Hsame|(_ & _ & _ & _ & l1 & _ & _ & _ & Hl1 & _)];
      [exists l; congruence|by exists l1]. }
  destruct Hsome as [l1 Hl1].
  assert (Hdone : sku_id ∈ processed_skus s1).
  { destruct (Hresolved sku_id Hin) as [?|[Hnone|(d & Hdk & Hname)]];
      [done|congruence|].
    destruct Hnamed as (d' & Hd' & Hname' & _). rewrite Hd in Hdk.
    assert (d' = d) as -> by congruence. by destruct (Hname name). }
  split; [done|]. exists l1. split; [done|].
  assert (Hall1 : all_have_alt l1 = Ret true).
  { apply (Hrest sku_id Hout Hdone name l1); [|done].
    by apply (named_same (remote s0)). }
  destruct (Hi sku_id)
    as [Hsame|(_ & _ & name' & l' & l1' & Hnamed' & Hl' & Hall' & Hl1' & Hlen & Hlab)].
  - assert (l1 = l) as -> by congruence.
    split; [done|]. split; [done|]. split; [done|]. congruence.
  - cbn [remote set_processed] in Hnamed', Hl'.
    assert (l' = l) as -> by congruence. assert (l1' = l1) as -> by congruence.
    assert (name' = name) as ->.
    { destruct Hnamed as (d & Hdk & Hn & _), Hnamed' as (d' & Hdk' & Hn' & _).
      congruence. }
    split; [done|]. split; [done|]. split; [congruence|done].
Qed.

End CatalogFacts.

(** ** More on strings and numerals *)

Section MoreStringFacts.
Import PyStr PyText AltText Engine.

Lemma split_from_word x : forall w s,
  no_space x = true -> split_from w (x +:+ s) = split_from (w +:+ x) s.
Proof.
  induction x as [|c x IH]; intros w s Hx.
  - change ("" +:+ s) with s. by rewrite append_empty_r.
  - simpl in Hx. apply andb_true_iff in Hx as [Hc Hx]. apply negb_true_iff in Hc.
    change (String c x +:+ s) with (String c (x +:+ s)).
    cbn [split_from]. rewrite Hc, IH by done. by rewrite append_snoc.
Qed.

Lemma split_join ws : Forall word ws -> split (join " " ws) = ws.
Proof.
  unfold split. induction 1 as [|w ws [Hne Hns] Hws IH]; [done|].
  cbn [join]. destruct ws as [|w' ws'].
  - rewrite <- (append_empty_r w) at 1. rewrite split_from_word by done.
    cbn. by destruct w.
  - rewrite split_from_word by done. cbn [String.append].
    change (" " +:+ join " " (w' :: ws')) with (String " " (join " " (w' :: ws'))).
    cbn [split_from]. change (isspace " ") with true. cbn match.
    rewrite IH. by destruct w.
Qed.

Lemma lower_words s : Forall word (map lower (split s)).
Proof.
  apply Forall_fmap. eapply Forall_impl; [apply split_words|].
  intros x Hx. by apply word_lower.
Qed.

Lemma split_normalize s : split (normalize_product_name s) = map lower (split s).
Proof.
  rewrite normalize_product_name_spec, lower_join. apply split_join, lower_words.
Qed.

Lemma normalize_normalize s :
  normalize_product_name (normalize_product_name s) = normalize_product_name s.
Proof.
  rewrite (normalize_product_name_spec (normalize_product_name s)).
  rewrite split_normalize, lower_join, normalize_product_name_spec, lower_join.
  f_equal. rewrite <- list_fmap_compose. apply list_fmap_ext.
  intros _ x _. apply lower_idem.
Qed.

Lemma split_from_blank s : forall w,
  blank s = true -> split_from w s = match w with EmptyString => [] | _ => [w] end.
Proof.
  induction s as [|c s IH]; intros w Hb; [done|].
  simpl in Hb. apply andb_true_iff in Hb as [Hc Hb].
  cbn [split_from]. rewrite Hc. rewrite IH by done. by destruct w.
Qed.

Lemma split_from_pending s : forall w,
  nonempty w = true -> split_from w s <> [].
Proof.
  induction s as [|d s IH]; intros w Hw; cbn [split_from].
  - by destruct w.
  - destruct (isspace d); [by destruct w|].
    apply IH. by destruct w.
Qed.

Lemma split_from_not_blank s : forall w,
  blank s = false -> split_from w s <> [].
Proof.
  induction s as [|c s IH]; intros w Hb; [done|].
  cbn [blank] in Hb. cbn [split_from].
  destruct (isspace c) eqn:Hc; cbn [andb] in Hb.
  - destruct w; [by apply IH|done].
  - apply split_from_pending. by destruct w.
Qed.

Lemma generate_natural_alt_text_cases name i n :
  generate_natural_alt_text name i n
  = if blank name then placeholder else lower (join " " (split name)).
Proof.
  unfold generate_natural_alt_text. rewrite normalize_product_name_spec.
  destruct (blank name) eqn:Hb.
  - unfold split. by rewrite split_from_blank.
  - pose proof (split_from_not_blank name "" Hb) as Hne. fold (split name) in Hne.
    pose proof (lower_words name) as Hw. rewrite lower_join.
    destruct (split name) as [|w ws]; [done|].
    by rewrite (tidy_nonempty _ (join_tidy _ Hw ltac:(done))).
Qed.


(** *** [int(str(n))] *)


Lemma int_digits_uint d : forall acc b,
  d <> Decimal.Nil \/ b = true ->
  int_digits acc b (NilEmpty.string_of_uint d) = Some (uint_value d acc).
Proof.
  induction d; intros acc b Hd; cbn [NilEmpty.string_of_uint uint_value];
    [by destruct Hd as [?| ->]|..];
    cbn [int_digits];
    match goal with
    | |- (if is_digit ?c then _ else _) = _ => change (is_digit c) with true
    end; cbn match;
    rewrite IHd by (by right); do 2 f_equal;
    match goal with
    | |- context [digit_value ?c] =>
        let v := eval vm_compute in (digit_value c) in
        change (digit_value c) with v
    end; lia.
Qed.

Lemma uint_value_pos d : forall acc,
  uint_value d (Z.pos acc) = Z.pos (Pos.of_uint_acc d acc).
Proof.
  induction d; intros acc; cbn [uint_value Pos.of_uint_acc]; [done|..];
    match goal with
    | |- uint_value _ ?z = _ =>
        match goal with
        | |- _ = Z.pos (Pos.of_uint_acc _ ?p) =>
            replace z with (Z.pos p) by lia; apply IHd
        end
    end.
Qed.

Lemma uint_value_zero d : uint_value d 0 = Z.of_N (Pos.of_uint d).
Proof.
  induction d; cbn [uint_value Pos.of_uint]; try done;
    match goal with
    | |- uint_value _ ?z = _ => let v := eval cbv in z in change z with v
    end; apply uint_value_pos.
Qed.

Lemma to_uint_not_nil p : Pos.to_uint p <> Decimal.Nil.
Proof.
  intros Hnil. pose proof (DecimalPos.Unsigned.of_to p) as Hof.
  rewrite Hnil in Hof. discriminate.
Qed.

Lemma no_space_uint d : no_space (NilEmpty.string_of_uint d) = true.
Proof. induction d; cbn [NilEmpty.string_of_uint no_space]; by rewrite ?IHd. Qed.

Lemma rstrip_no_space s : no_space s = true -> rstrip s = s.
Proof.
  induction s as [|c s IH]; [done|]. cbn [no_space].
  intros [Hc Hs]%andb_true_iff. apply negb_true_iff in Hc.
  cbn [rstrip]. rewrite IH by done. rewrite Hc. by destruct s.
Qed.

Lemma strip_no_space s : no_space s = true -> strip s = s.
Proof.
  intros Hs. unfold strip.
  destruct s as [|c s]; [done|]. pose proof Hs as Hs'. cbn [no_space] in Hs.
  apply andb_true_iff in Hs as [Hc _]. apply negb_true_iff in Hc.
  cbn [lstrip]. rewrite Hc. by apply rstrip_no_space.
Qed.

Lemma int_space_isspace c : int_space c = true -> isspace c = true.
Proof. destruct c as [[] [] [] [] [] [] [] []]; by vm_compute. Qed.

Lemma int_rstrip_no_space s : no_space s = true -> int_rstrip s = s.
Proof.
  induction s as [|c s IH]; [done|]. cbn [no_space].
  intros [Hc Hs]%andb_true_iff. apply negb_true_iff in Hc.
  cbn [int_rstrip]. rewrite IH by done.
  destruct (int_space c) eqn:Hi; [|by destruct s].
  apply int_space_isspace in Hi. congruence.
Qed.

Lemma int_strip_no_space s :
  no_space s = true -> int_rstrip (int_lstrip s) = s.
Proof.
  intros Hs. destruct s as [|c s]; [done|]. pose proof Hs as Hs'.
  cbn [no_space] in Hs. apply andb_true_iff in Hs as [Hc _].
  apply negb_true_iff in Hc. cbn [int_lstrip].
  destruct (int_space c) eqn:Hi; [|by apply int_rstrip_no_space].
  apply int_space_isspace in Hi. congruence.
Qed.

Lemma no_space_str_int n : no_space (str_int n) = true.
Proof.
  unfold str_int. destruct n as [|p|p]; [done|..];
    cbn [Z.to_int NilZero.string_of_int]; unfold NilZero.string_of_uint.
  - pose proof (no_space_uint (Pos.to_uint p)). by destruct (Pos.to_uint p).
  - pose proof (no_space_uint (Pos.to_uint p)). cbn [no_space].
    by destruct (Pos.to_uint p).
Qed.

(** [int(str(n)) == n] *)
Lemma parse_int_str_int n : parse_int (str_int n) = Some n.
Proof.
  unfold parse_int. rewrite int_strip_no_space by apply no_space_str_int.
  unfold str_int. destruct n as [|p|p]; [done|..];
    cbn [Z.to_int NilZero.string_of_int]; unfold NilZero.string_of_uint;
    pose proof (to_uint_not_nil p) as Hnil;
    pose proof (int_digits_uint (Pos.to_uint p) 0 false (or_introl Hnil)) as Hd;
    rewrite uint_value_zero, DecimalPos.Unsigned.of_to in Hd.
  - destruct (Pos.to_uint p); try done.
  - destruct (Pos.to_uint p); try done; cbn [NilEmpty.string_of_uint] in *;
      by rewrite Hd.
Qed.

End MoreStringFacts.

(** ** Normalization of names *)

Section NormalizationFacts.
Import PyStr PyText AltText.

Lemma split_from_lead lead : forall s,
  blank lead = true -> split_from "" (lead +:+ s) = split_from "" s.
Proof.
  induction lead as [|c lead IH]; intros s Hb; [done|].
  cbn [blank] in Hb. apply andb_true_iff in Hb as [Hc Hb].
  change (String c lead +:+ s) with (String c (lead +:+ s)).
  cbn [split_from]. rewrite Hc. by apply IH.
Qed.

(** Splitting a text written out from its words gives the words. *)
Lemma split_laid_out lead items :
  blank lead = true -> spaced items ->
  split (lead +:+ laid_out items) = map fst items.
Proof.
  intros Hlead Hitems. unfold split. rewrite split_from_lead by done. clear lead Hlead.
  induction items as [|[w gap] rest IH]; [done|].
  destruct Hitems as ([Hne Hns] & Hgap & Hlast & Hrest).
  cbn [laid_out map fst]. rewrite split_from_word by done.
  change ("" +:+ w) with w.
  destruct rest as [|item rest'].
  - cbn [laid_out]. rewrite append_empty_r, split_from_blank by done.
    by destruct w.
  - specialize (Hlast ltac:(done)). destruct gap as [|c gap]; [done|].
    cbn [blank] in Hgap. apply andb_true_iff in Hgap as [Hc Hgap].
    change (String c gap +:+ laid_out (item :: rest'))
      with (String c (gap +:+ laid_out (item :: rest'))).
    cbn [split_from]. rewrite Hc, split_from_lead, IH by done.
    by destruct w.
Qed.

Lemma normalize_laid_out lead items :
  blank lead = true -> spaced items ->
  normalize_product_name (lead +:+ laid_out items)
  = join " " (map (fun item => lower item.1) items).
Proof.
  intros Hlead Hitems.
  rewrite normalize_product_name_spec, split_laid_out, lower_join by done.
  by rewrite <- list_fmap_compose.
Qed.

Lemma no_space_cons c w :
  isspace c = false -> no_space w = true -> no_space (String c w) = true.
Proof. intros Hc Hw. cbn [no_space]. by rewrite Hc, Hw. Qed.

(** Every text is written out from words in this way. *)
Lemma laid_out_any s :
  exists lead items,
    blank lead = true /\ spaced items /\ s = lead +:+ laid_out items.
Proof.
  induction s as [|c s (lead & items & Hlead & Hitems & ->)].
  - by exists "", [].
  - destruct (isspace c) eqn:Hc.
    + exists (String c lead), items. cbn [blank]. by rewrite Hc, Hlead.
    + destruct lead as [|a lead].
      * destruct items as [|[w gap] rest].
        -- exists "", [(String c "", "")].
           repeat split; try done. cbn [no_space]. by rewrite Hc.
        -- destruct Hitems as ([Hne Hns] & Hgap & Hlast & Hrest).
           exists "", ((String c w, gap) :: rest). split; [done|]. split; [|done].
           split; [|done]. split; [done|]. by apply no_space_cons.
      * exists "", ((String c "", String a lead) :: items). split; [done|].
        split; [|done]. split; [|done]. split; [done|]. cbn [no_space].
        by rewrite Hc.
Qed.

Lemma lower_nonempty w : nonempty (lower w) = nonempty w.
Proof. by destruct w. Qed.

Lemma split_from_lower s : forall w,
  split_from (lower w) (lower s) = map lower (split_from w s).
Proof.
  induction s as [|c s IH]; intros w; cbn [lower split_from].
  - by destruct w.
  - rewrite isspace_lower_char. destruct (isspace c).
    + pose proof (IH "") as IH0. cbn [lower] in IH0.
      destruct w as [|a w]; cbn [lower map]; by rewrite IH0.
    + rewrite <- IH, lower_app. done.
Qed.

(** Letter case plays no part. *)
Lemma normalize_lower a b :
  lower a = lower b -> normalize_product_name a = normalize_product_name b.
Proof.
  intros Hab. rewrite !normalize_product_name_spec, !lower_join.
  f_equal. unfold split.
  rewrite <- (split_from_lower a ""), <- (split_from_lower b "").
  by rewrite Hab.
Qed.

Lemma join_split_from_tidy t :
  tidy t -> forall w, no_space w = true -> join " " (split_from w t) = w +:+ t.
Proof.
  induction 1 as [c Hc|c s Hc Hs IH|c s Hc Hs IH]; intros w Hw; cbn [split_from];
    rewrite Hc.
  - cbn [split_from]. destruct (w +:+ String c "") eqn:Hwc; [|done].
    by destruct w.
  - rewrite IH by (by apply no_space_snoc). by rewrite append_snoc.
  - change (isspace " ") with true. cbn match.
    specialize (IH "" eq_refl). change ("" +:+ s) with s in IH.
    assert (Hword : nonempty (w +:+ String c "") = true) by (by destruct w).
    destruct (w +:+ String c "") as [|a x] eqn:Hwc; [done|].
    destruct (split_from "" s) as [|y ys] eqn:Hsplit.
    { cbn in IH. rewrite <- IH in Hs. inversion Hs. }
    change (join " " (String a x :: y :: ys))
      with (String a x +:+ " " +:+ join " " (y :: ys)).
    rewrite IH, <- Hwc. by rewrite append_snoc.
Qed.

(** A text that is trimmed, single-spaced and in lower case already is
    its own normal form. *)
Lemma normalize_tidy t : tidy t -> lower t = t -> normalize_product_name t = t.
Proof.
  intros Ht Hl. rewrite normalize_product_name_spec. unfold split.
  by rewrite (join_split_from_tidy t Ht "" eq_refl).
Qed.

(** C8: name normalization collapses the runs of white space to single
    spaces, lowercases and trims.  A name is some words, white space
    before the first, between two words and after the last; its normal
    form is those words in lower case with one space between two of
    them, whatever the white space was.  So names that differ in white
    space and letter case only have the same normal form, a text
    already in that form is left as it is, and
    ["  Paracetamol   500MG "] and ["paracetamol 500mg"] both give
    ["paracetamol 500mg"]. *)
Theorem normalize_product_name_case_whitespace :
  (forall lead items,
      blank lead = true -> spaced items ->
      normalize_product_name (lead +:+ laid_out items)
      = join " " (map (fun item => lower item.1) items)) /\
  (forall s, exists lead items,
      blank lead = true /\ spaced items /\ s = lead +:+ laid_out items) /\
  (forall lead items lead' items',
      blank lead = true -> spaced items ->
      blank lead' = true -> spaced items' ->
      map (fun item => lower item.1) items = map (fun item => lower item.1) items' ->
      normalize_product_name (lead +:+ laid_out items)
      = normalize_product_name (lead' +:+ laid_out items')) /\
  (forall a b, lower a = lower b ->
               normalize_product_name a = normalize_product_name b) /\
  (forall t, tidy t -> lower t = t -> normalize_product_name t = t) /\
  (forall s, normalize_product_name s = "" \/
             (tidy (normalize_product_name s) /\
              lower (normalize_product_name s) = normalize_product_name s)) /\
  normalize_product_name "  Paracetamol   500MG " = "paracetamol 500mg" /\
  normalize_product_name "paracetamol 500mg" = "paracetamol 500mg".
Proof.
  split; [exact normalize_laid_out|].
  split; [exact laid_out_any|].
  split.
  { intros lead items lead' items' Hlead Hitems Hlead' Hitems' Hsame.
    by rewrite !normalize_laid_out, Hsame. }
  split; [exact normalize_lower|].
  split; [exact normalize_tidy|].
  split; [|by split].
  intros s. destruct (normalize_product_name_tidy s) as [Hempty|Ht]; [by left|].
  right. split; [done|]. rewrite normalize_product_name_spec. apply lower_idem.
Qed.

Lemma normalize_product_name_case_whitespace_witness :
  let lead := "  " in
  let items := [("Paracetamol", "   "); ("500MG", " ")] in
  blank lead = true /\ spaced items /\
  lead +:+ laid_out items = "  Paracetamol   500MG " /\
  normalize_product_name (lead +:+ laid_out items) = "paracetamol 500mg".
Proof.
  assert (Hitems : spaced [("Paracetamol", "   "); ("500MG", " ")])
    by (by repeat split).
  split; [reflexivity|]. split; [exact Hitems|]. split; [reflexivity|].
  exact (proj1 normalize_product_name_case_whitespace "  "
           [("Paracetamol", "   "); ("500MG", " ")] eq_refl Hitems).
Defined.

End NormalizationFacts.

(** ** More on the alt text *)

Section MoreAltTextFacts.
Import PyStr PyText AltText Engine.

(** X3: the alt text [generate_natural_alt_text] returns is never
    blank: it is tidy (it starts and ends with a character that is not
    white space, and has single spaces only), so stripping it changes
    nothing, it is in lower case, and an image that carries it as its
    label counts as labelled in [process_sku_images]. *)
Theorem generate_natural_alt_text_never_blank :
  forall name i n (img : image),
    let alt := generate_natural_alt_text name i n in
    tidy alt /\ strip alt = alt /\ nonempty alt = true /\ lower alt = alt /\
    has_alt (<["Label" := JStr alt]> img) = Ret true.
Proof.
  intros name i n img alt.
  pose proof (generate_natural_alt_text_tidy name i n) as Ht. fold alt in Ht.
  split; [done|]. split; [by apply strip_tidy|]. split; [by apply tidy_nonempty|].
  split.
  - unfold alt. rewrite generate_natural_alt_text_cases.
    destruct (blank name); [reflexivity|apply lower_idem].
  - apply (has_alt_labelled _ alt Ht). apply lookup_insert_eq.
Qed.

(** X4: normalizing a normalized name changes nothing, and the alt
    text of an alt text is that alt text. *)
Theorem normalize_product_name_idempotent :
  (forall s,
      normalize_product_name (normalize_product_name s) = normalize_product_name s) /\
  (forall name i n i' n',
      generate_natural_alt_text (generate_natural_alt_text name i n) i' n'
      = generate_natural_alt_text name i n).
Proof.
  split; [exact normalize_normalize|].
  intros name i n i' n'.
  destruct (normalize_product_name_tidy name) as [Hempty|Ht].
  - assert (Hg : generate_natural_alt_text name i n = placeholder)
      by (unfold generate_natural_alt_text; by rewrite Hempty).
    rewrite Hg. reflexivity.
  - assert (Hg : generate_natural_alt_text name i n = normalize_product_name name)
      by (unfold generate_natural_alt_text; by rewrite (tidy_nonempty _ Ht)).
    rewrite Hg. unfold generate_natural_alt_text.
    by rewrite normalize_normalize, (tidy_nonempty _ Ht).
Qed.

(** X5: the fallback text is returned exactly for the names without a
    character that is not white space, the empty name among them; every
    other name gets its words in lower case joined by single spaces. *)
Theorem generate_natural_alt_text_fallback :
  forall name i n,
    generate_natural_alt_text name i n
    = (if blank name then placeholder else lower (join " " (split name))) /\
    (blank name = true <-> normalize_product_name name = "").
Proof.
  intros name i n. split; [apply generate_natural_alt_text_cases|].
  rewrite normalize_product_name_spec. split.
  - intros Hb. unfold split. by rewrite split_from_blank.
  - intros Hempty. destruct (blank name) eqn:Hb; [done|].
    pose proof (split_from_not_blank name "" Hb) as Hne. fold (split name) in Hne.
    pose proof (lower_words name) as Hw. rewrite lower_join in Hempty.
    destruct (split name) as [|w ws]; [done|].
    pose proof (tidy_nonempty _ (join_tidy _ Hw ltac:(done))) as Hn.
    by rewrite Hempty in Hn.
Qed.

(** X6: normalization keeps the words of the name, in their order, in
    lower case: splitting the normalized name gives the lower-case
    words of the name, and joining them with single spaces gives the
    normalized name back. *)
Theorem normalize_product_name_keeps_words :
  forall s,
    split (normalize_product_name s) = map lower (split s) /\
    join " " (split (normalize_product_name s)) = normalize_product_name s.
Proof.
  intros s. split; [apply split_normalize|].
  by rewrite split_normalize, normalize_product_name_spec, lower_join.
Qed.

End MoreAltTextFacts.

(** ** More on the list file *)

Section MoreSkuFileFacts.
Import PyStr PyText SkuFile.

Lemma omap_cons {A B} (f : A -> option B) x l :
  omap f (x :: l) = match f x with Some y => y :: omap f l | None => omap f l end.
Proof. reflexivity. Qed.

Lemma load_lines lines : forall acc,
  foldl load_line acc lines = acc ++ omap line_id lines.
Proof.
  induction lines as [|line lines IH]; intros acc; cbn [foldl].
  - by rewrite app_nil_r.
  - rewrite IH, load_line_cases, omap_cons.
    destruct (line_id line); [by rewrite <- app_assoc|done].
Qed.

Lemma load_sku_list_lines text :
  load_sku_list (Some text) = omap line_id (readlines text).
Proof. unfold load_sku_list. by rewrite load_lines. Qed.

Lemma omap_kept processed (lines : list string) :
  omap line_id (filter (fun l => names_processed processed l = false) lines)
  = filter (fun id => id ∉ processed) (omap line_id lines).
Proof.
  induction lines as [|line lines IH]; [done|].
  rewrite (omap_cons _ line lines).
  destruct (line_id line) as [id|] eqn:Hid.
  - destruct (decide (id ∈ processed)) as [Hin|Hout].
    + rewrite filter_cons_False
        by (unfold names_processed; rewrite Hid, bool_decide_eq_false; tauto).
      rewrite filter_cons_False by tauto. apply IH.
    + rewrite filter_cons_True
        by (unfold names_processed; rewrite Hid; by apply bool_decide_eq_false).
      rewrite filter_cons_True by done. rewrite omap_cons, Hid. by rewrite IH.
  - rewrite filter_cons_True by (unfold names_processed; by rewrite Hid).
    rewrite omap_cons, Hid. apply IH.
Qed.

(** The lines compaction keeps. *)
Lemma kept_shape processed text :
  lines_of_a_file
    (filter (fun l => names_processed processed l = false) (readlines text)).
Proof.
  apply (filter_shape (fun l => names_processed processed l = false)),
    readlines_shape.
Qed.

Lemma filter_nil_iff {A} (P : A -> Prop) `{!forall x, Decision (P x)} (l : list A) :
  filter P l = [] <-> Forall (fun x => ~ P x) l.
Proof.
  induction l as [|x l IH].
  - split; [constructor|done].
  - destruct (decide (P x)).
    + rewrite filter_cons_True by done. split; [done|].
      intros Hall. by inversion Hall.
    + rewrite filter_cons_False by done. rewrite IH. split.
      * by constructor.
      * intros Hall. by inversion Hall.
Qed.

(** What compaction leaves in the file. *)
Lemma remove_processed_cases processed text :
  let lines := readlines text in
  let kept := filter (fun l => names_processed processed l = false) lines in
  (Forall (fun l => names_processed processed l = false) lines /\
   remove_processed_skus_from_file processed (Some text) = (Some text, None)) \/
  (Exists (fun l => names_processed processed l = true) lines /\
   remove_processed_skus_from_file processed (Some text)
   = (Some (writelines kept), Some (writelines kept))).
Proof.
  intros lines kept.
  unfold remove_processed_skus_from_file. fold lines. rewrite compact_lines.
  cbn [app Nat.add].
  destruct (filter (fun l => names_processed processed l = true) lines)
    as [|l ls] eqn:Hf.
  - left. split; [|done].
    apply filter_nil_iff in Hf.
    eapply Forall_impl; [exact Hf|]. intros l Hl. by apply not_true_is_false.
  - right. split; [|done].
    assert (Hin : l ∈ filter (fun l => names_processed processed l = true) lines)
      by (rewrite Hf; apply elem_of_cons; by left).
    apply list_elem_of_filter in Hin as [Hl Hin].
    apply Exists_exists. by exists l.
Qed.

Lemma filter_all {A} (P : A -> Prop) `{!forall x, Decision (P x)} (l : list A) :
  Forall P l -> filter P l = l.
Proof.
  induction 1 as [|x l Hx _ IH]; [done|].
  by rewrite filter_cons_True, IH.
Qed.

Lemma load_compacted processed file :
  load_sku_list (remove_processed_skus_from_file processed file).1
  = filter (fun id => id ∉ processed) (load_sku_list file).
Proof.
  destruct file as [text|]; [|done].
  rewrite (load_sku_list_lines text), <- omap_kept.
  destruct (remove_processed_cases processed text) as [[Hall ->]|[_ ->]]; cbn [fst].
  - rewrite load_sku_list_lines. by rewrite filter_all.
  - rewrite load_sku_list_lines. by rewrite readlines_writelines by apply kept_shape.
Qed.

Lemma names_processed_fewer processed fewer line :
  (forall id, id ∈ fewer -> id ∈ processed) ->
  names_processed processed line = false -> names_processed fewer line = false.
Proof.
  intros Hsub. unfold names_processed. destruct (line_id line) as [id|]; [|done].
  rewrite !bool_decide_eq_false. auto.
Qed.

(** After a compaction, a compaction with no more IDs finds nothing. *)
Lemma remove_processed_again processed fewer file :
  (forall id, id ∈ fewer -> id ∈ processed) ->
  remove_processed_skus_from_file fewer
    (remove_processed_skus_from_file processed file).1
  = ((remove_processed_skus_from_file processed file).1, None).
Proof.
  intros Hsub. destruct file as [text|]; [|done].
  destruct (remove_processed_cases processed text) as [[Hall Heq]|[_ Heq]];
    rewrite Heq; cbn [fst].
  - destruct (remove_processed_cases fewer text) as [[_ ->]|[Hex _]]; [done|].
    apply Exists_exists in Hex as (l & Hl & Hl').
    rewrite Forall_forall in Hall.
    by rewrite (names_processed_fewer _ _ _ Hsub (Hall l Hl)) in Hl'.
  - destruct (remove_processed_cases fewer
                (writelines (filter (fun l => names_processed processed l = false)
                               (readlines text)))) as [[_ ->]|[Hex _]]; [done|].
    rewrite readlines_writelines in Hex by apply kept_shape.
    apply Exists_exists in Hex as (l & [Hl _]%list_elem_of_filter & Hl').
    by rewrite (names_processed_fewer _ _ _ Hsub Hl) in Hl'.
Qed.

Lemma names_processed_app p1 p2 line :
  names_processed (p1 ++ p2) line
  = names_processed p1 line || names_processed p2 line.
Proof.
  unfold names_processed. destruct (line_id line) as [id|]; [|done].
  apply eq_true_iff_eq. rewrite orb_true_iff, !bool_decide_eq_true, elem_of_app.
  done.
Qed.

Lemma filter_filter_kept p1 p2 (lines : list string) :
  filter (fun l => names_processed p2 l = false)
    (filter (fun l => names_processed p1 l = false) lines)
  = filter (fun l => names_processed (p1 ++ p2) l = false) lines.
Proof.
  induction lines as [|l lines IH]; [done|].
  destruct (names_processed p1 l) eqn:H1.
  - rewrite (filter_cons_False (fun l => names_processed p1 l = false)) by congruence.
    rewrite (filter_cons_False (fun l => names_processed (p1 ++ p2) l = false))
      by (rewrite names_processed_app, H1; done).
    apply IH.
  - rewrite (filter_cons_True (fun l => names_processed p1 l = false)) by done.
    destruct (names_processed p2 l) eqn:H2.
    + rewrite (filter_cons_False (fun l => names_processed p2 l = false)) by congruence.
      rewrite (filter_cons_False (fun l => names_processed (p1 ++ p2) l = false))
        by (rewrite names_processed_app, H1, H2; done).
      apply IH.
    + rewrite (filter_cons_True (fun l => names_processed p2 l = false)) by done.
      rewrite (filter_cons_True (fun l => names_processed (p1 ++ p2) l = false))
        by (rewrite names_processed_app, H1, H2; done).
      by rewrite IH.
Qed.

Lemma remove_processed_twice p1 p2 file :
  (remove_processed_skus_from_file p2
     (remove_processed_skus_from_file p1 file).1).1
  = (remove_processed_skus_from_file (p1 ++ p2) file).1.
Proof.
  destruct file as [text|]; [|done].
  set (lines := readlines text).
  destruct (remove_processed_cases p1 text) as [[Hall1 ->]|[Hex1 ->]]; cbn [fst].
  - destruct (remove_processed_cases p2 text) as [[Hall2 ->]|[Hex2 ->]];
      destruct (remove_processed_cases (p1 ++ p2) text) as [[Hall ->]|[Hex ->]];
      cbn [fst].
    + done.
    + exfalso. apply Exists_exists in Hex as (l & Hl & Hn).
      rewrite names_processed_app in Hn.
      rewrite Forall_forall in Hall1, Hall2.
      by rewrite (Hall1 l Hl), (Hall2 l Hl) in Hn.
    + exfalso. apply Exists_exists in Hex2 as (l & Hl & Hn).
      rewrite Forall_forall in Hall. specialize (Hall l Hl).
      rewrite names_processed_app, Hn, orb_true_r in Hall. done.
    + f_equal. f_equal. rewrite <- filter_filter_kept.
      f_equal. by rewrite filter_all.
  - destruct (remove_processed_cases (p1 ++ p2) text) as [[Hall _]|[_ ->]].
    { exfalso. apply Exists_exists in Hex1 as (l & Hl & Hn).
      rewrite Forall_forall in Hall. specialize (Hall l Hl).
      rewrite names_processed_app, Hn in Hall. done. }
    cbn [fst]. rewrite <- filter_filter_kept.
    destruct (remove_processed_cases p2
                (writelines (filter (fun l => names_processed p1 l = false)
                               (readlines text)))) as [[Hall2 ->]|[_ ->]];
      cbn [fst]; rewrite ?readlines_writelines in * by apply kept_shape.
    + by rewrite (filter_all (fun l => names_processed p2 l = false)).
    + done.
Qed.

Lemma names_processed_ext p q line :
  (forall x, x ∈ p <-> x ∈ q) -> names_processed p line = names_processed q line.
Proof.
  intros Hpq. unfold names_processed. destruct (line_id line) as [id|]; [|done].
  apply bool_decide_ext, Hpq.
Qed.

Lemma remove_processed_ext p q file :
  (forall x, x ∈ p <-> x ∈ q) ->
  remove_processed_skus_from_file p file = remove_processed_skus_from_file q file.
Proof.
  intros Hpq. destruct file as [text|]; [|done].
  unfold remove_processed_skus_from_file. rewrite !compact_lines.
  assert (Hf : forall b,
             filter (fun l => names_processed p l = b) (readlines text)
             = filter (fun l => names_processed q l = b) (readlines text)).
  { intros b. apply list_filter_iff. intros l.
    by rewrite (names_processed_ext p q l Hpq). }
  by rewrite !Hf.
Qed.

Lemma remove_processed_nil file :
  remove_processed_skus_from_file [] file = (file, None).
Proof.
  destruct file as [text|]; [|done].
  destruct (remove_processed_cases [] text) as [[_ ->]|[Hex _]]; [done|].
  apply Exists_exists in Hex as (l & _ & Hn).
  unfold names_processed in Hn. destruct (line_id l); [|done].
  apply bool_decide_eq_true in Hn. by apply elem_of_nil in Hn.
Qed.


Lemma rstrip_line s :
  no_space s = true -> rstrip (s +:+ String newline "") = s.
Proof.
  induction s as [|c s IH]; [done|]. cbn [no_space].
  intros [Hc Hs]%andb_true_iff. apply negb_true_iff in Hc.
  change (String c s +:+ String newline "") with (String c (s +:+ String newline "")).
  cbn [rstrip]. rewrite IH by done. rewrite Hc. by destruct s.
Qed.

Lemma strip_line s :
  no_space s = true -> strip (s +:+ String newline "") = s.
Proof.
  intros Hs. unfold strip. destruct s as [|c s]; [done|].
  pose proof Hs as Hs'. cbn [no_space] in Hs.
  apply andb_true_iff in Hs as [Hc _]. apply negb_true_iff in Hc.
  change (String c s +:+ String newline "") with (String c (s +:+ String newline "")).
  cbn [lstrip]. rewrite Hc.
  change (String c (s +:+ String newline "")) with (String c s +:+ String newline "").
  by apply rstrip_line.
Qed.

Lemma str_int_head n :
  nonempty (str_int n) = true /\ startswith "#" (str_int n) = false.
Proof.
  unfold str_int. destruct n as [|p|p]; [done|..];
    cbn [Z.to_int NilZero.string_of_int]; unfold NilZero.string_of_uint;
    pose proof (to_uint_not_nil p); by destruct (Pos.to_uint p).
Qed.

Lemma line_id_str_int n : line_id (str_int n +:+ String newline "") = Some n.
Proof.
  unfold line_id. rewrite strip_line by apply no_space_str_int.
  destruct (str_int_head n) as [-> ->]. cbn [negb orb].
  apply parse_int_str_int.
Qed.

Lemma no_newline_no_space s : no_space s = true -> no_newline s = true.
Proof.
  induction s as [|c s IH]; [done|]. cbn [no_space no_newline].
  intros [Hc Hs]%andb_true_iff. rewrite IH by done. rewrite andb_true_r.
  apply negb_true_iff in Hc. apply negb_true_iff.
  destruct (Ascii.eqb c newline) eqn:Heq; [|done].
  apply Ascii.eqb_eq in Heq as ->. done.
Qed.

Lemma id_lines_shape ids :
  lines_of_a_file (map (fun id => str_int id +:+ String newline "") ids).
Proof.
  induction ids as [|id ids IH]; [done|]. split; [|done].
  left. exists (str_int id). split; [done|].
  apply no_newline_no_space, no_space_str_int.
Qed.

(** X7: after compaction the list file loads as the IDs it listed
    before that are not processed, in their order and as often as they
    were listed: an ID is loaded afterwards exactly when it was listed
    and is not processed. *)
Theorem load_sku_list_after_compaction :
  forall (processed : list Z) (file : option string),
    let after := (remove_processed_skus_from_file processed file).1 in
    load_sku_list after
    = filter (fun id => id ∉ processed) (load_sku_list file) /\
    (forall id,
        id ∈ load_sku_list after <-> id ∈ load_sku_list file /\ id ∉ processed).
Proof.
  intros processed file after. split; [apply load_compacted|].
  intros id. unfold after. rewrite load_compacted, list_elem_of_filter. tauto.
Qed.

(** X8: compaction is idempotent: on the file a compaction left, a
    second compaction with the same processed IDs, or with some of
    them, finds no line to remove, leaves the file as it is and does
    not open it for writing. *)
Theorem remove_processed_skus_from_file_idempotent :
  forall (processed : list Z) (file : option string),
    let file' := (remove_processed_skus_from_file processed file).1 in
    remove_processed_skus_from_file processed file' = (file', None) /\
    (forall fewer,
        (forall id, id ∈ fewer -> id ∈ processed) ->
        remove_processed_skus_from_file fewer file' = (file', None)).
Proof.
  intros processed file file'. split.
  - by apply remove_processed_again.
  - intros fewer Hsub. by apply remove_processed_again.
Qed.

(** X9: compacting with one list of processed IDs and then with
    another leaves the file that one compaction with both lists
    leaves; so the order of two compactions does not matter, and the
    periodic compactions of a run add up to the last one. *)
Theorem remove_processed_skus_from_file_composes :
  forall (p1 p2 : list Z) (file : option string),
    let after1 := (remove_processed_skus_from_file p1 file).1 in
    let after2 := (remove_processed_skus_from_file p2 file).1 in
    (remove_processed_skus_from_file p2 after1).1
    = (remove_processed_skus_from_file (p1 ++ p2) file).1 /\
    (remove_processed_skus_from_file p2 after1).1
    = (remove_processed_skus_from_file p1 after2).1.
Proof.
  intros p1 p2 file after1 after2. split; [apply remove_processed_twice|].
  unfold after1, after2. rewrite !remove_processed_twice.
  f_equal. apply remove_processed_ext. intros x. rewrite !elem_of_app. tauto.
Qed.

(** X10: a list file that holds the decimal numerals of a list of IDs,
    one per line, loads as that list: same IDs, same order, repeated
    IDs repeated. *)
Theorem load_sku_list_reads_decimal :
  forall ids : list Z,
    load_sku_list
      (Some (writelines (map (fun id => str_int id +:+ String newline "") ids)))
    = ids.
Proof.
  intros ids. rewrite load_sku_list_lines.
  rewrite readlines_writelines by apply id_lines_shape.
  induction ids as [|id ids IH]; [done|].
  cbn [map]. by rewrite omap_cons, line_id_str_int, IH.
Qed.

End MoreSkuFileFacts.

(** ** Runs over any remote service *)

Section RunFacts.
Import Engine Run.

Context {World : Type}.
Variable session_request : World -> request -> option response * World.
Variable depth : nat.

#[local] Abbreviation safe_request_at := (safe_request_at World session_request).
#[local] Abbreviation safe_request := (safe_request World session_request depth).
#[local] Abbreviation update_image_alt := (update_image_alt World session_request depth).
#[local] Abbreviation update_images := (update_images World session_request depth).
#[local] Abbreviation process_sku_images := (process_sku_images World session_request depth).
#[local] Abbreviation get_sku_details := (get_sku_details World session_request depth).
#[local] Abbreviation process_single_sku := (process_single_sku World session_request depth).
#[local] Abbreviation workers := (workers World session_request depth).
#[local] Abbreviation run_bulk_update := (run_bulk_update World session_request depth).
#[local] Abbreviation chain := (chain session_request depth).
#[local] Abbreviation state := (state World).
#[local] Abbreviation reached := (reached session_request depth).
#[local] Abbreviation called := (called session_request depth).

Lemma chain_app sku_id w t1 w1 t2 w2 :
  chain sku_id w t1 w1 -> chain sku_id w1 t2 w2 -> chain sku_id w (t1 ++ t2) w2.
Proof.
  induction 1 as [w|rq w res w1 ta tb w3 Hu Hrun Hrest IH]; [done|].
  intros H2. rewrite <- app_assoc. eapply chain_call; eauto.
Qed.

Lemma chain_one sku_id rq w res w1 t :
  url_sku (req_url rq) = sku_id ->
  safe_request_at depth rq w = (res, w1, t) ->
  chain sku_id w t w1.
Proof.
  intros Hu Hrun. rewrite <- (app_nil_r t). eapply chain_call; eauto. constructor.
Qed.

Lemma called_reached {A} sku_id s (out : result A * state * list event) :
  called sku_id s out -> reached sku_id s out.
Proof. intros (w & Hs & Hc). exists w, (processed_skus s). auto. Qed.

Lemma called_refl {A} sku_id (r : result A) s : called sku_id s (r, s, []).
Proof. exists (remote s). split; [by destruct s|constructor]. Qed.

Lemma called_bind {A B} sku_id (m : M World A) (f : A -> M World B) s :
  called sku_id s (m s) ->
  (forall a s1, called sku_id s1 (f a s1)) ->
  called sku_id s ((m ≫= f) s).
Proof.
  intros (w & Hs & Hc) Hf. unfold mbind, M_bind.
  destruct (m s) as [[[a|] s1] t1]; cbn in Hs, Hc; [|by exists w].
  destruct (Hf a s1) as (w2 & Hs2 & Hc2).
  destruct (f a s1) as [[r2 s2] t2]. cbn in Hs2, Hc2 |- *.
  exists w2. subst s1. cbn in *. split; [done|]. by eapply chain_app.
Qed.

Lemma reached_bind {A B} sku_id (m : M World A) (f : A -> M World B) s :
  called sku_id s (m s) ->
  (forall a s1, reached sku_id s1 (f a s1)) ->
  reached sku_id s ((m ≫= f) s).
Proof.
  intros (w & Hs & Hc) Hf. unfold mbind, M_bind.
  destruct (m s) as [[[a|] s1] t1]; cbn in Hs, Hc.
  2: { exists w, (processed_skus s). cbn. split; [done|]. split; [done|by left]. }
  destruct (Hf a s1) as (w2 & cp & Hs2 & Hc2 & Hcp).
  destruct (f a s1) as [[r2 s2] t2]. cbn in Hs2, Hc2 |- *.
  exists w2, cp. subst s1. cbn in *. split; [done|]. split; [by eapply chain_app|done].
Qed.

Lemma reached_return {A B} sku_id (m : M World A) (f : A -> M World B) s :
  reached sku_id s (m s) ->
  (forall a s1, exists r, f a s1 = (r, s1, [])) ->
  reached sku_id s ((m ≫= f) s).
Proof.
  intros (w & cp & Hs & Hc & Hcp) Hf. unfold mbind, M_bind.
  destruct (m s) as [[[a|] s1] t1]; cbn in Hs, Hc; [|by exists w, cp].
  destruct (Hf a s1) as [r ->]. rewrite app_nil_r. by exists w, cp.
Qed.

Lemma safe_request_called sku_id m u js s :
  url_sku u = sku_id -> called sku_id s (safe_request m u js s).
Proof.
  intros Hu. unfold Engine.safe_request.
  destruct (safe_request_at depth (Request m u js) (remote s)) as [[res w] t] eqn:Hrun.
  exists w. split; [done|]. cbn. eapply chain_one; [|exact Hrun]. exact Hu.
Qed.

Lemma update_image_alt_called sku_id img new_alt s :
  called sku_id s (update_image_alt sku_id img new_alt s).
Proof.
  unfold Engine.update_image_alt.
  apply called_bind; [by apply safe_request_called|].
  intros res s1.
  destruct (truthy res && status_is 200 res); [apply called_refl|].
  destruct (truthy res && status_is 401 res); apply called_refl.
Qed.

Lemma update_images_called sku_id product_name total images :
  forall index success s,
    called sku_id s (update_images sku_id product_name total index images success s).
Proof.
  induction images as [|img rest IH]; intros index success s;
    cbn [Engine.update_images]; [apply called_refl|].
  apply called_bind; [apply called_refl|]. intros new_alt s1.
  apply called_bind; [|intros ? ?; apply IH].
  destruct (differs _ new_alt); [|apply called_refl].
  apply called_bind; [apply update_image_alt_called|].
  intros updated s2. apply called_refl.
Qed.

Lemma mark_reached {A} sku_id (r : result A) s :
  reached sku_id s
    (r, set_processed World (Checkpoint.mark_processed sku_id (processed_skus s)) s, []).
Proof.
  exists (remote s), (Checkpoint.mark_processed sku_id (processed_skus s)).
  split; [done|]. split; [constructor|by right].
Qed.

Lemma mark_then_reached {A} sku_id (a : A) s :
  reached sku_id s ((mark_processed World sku_id;; mret a) s).
Proof. apply mark_reached. Qed.

Lemma process_sku_images_reached sku_id product_name s :
  reached sku_id s (process_sku_images sku_id product_name s).
Proof.
  unfold Engine.process_sku_images.
  apply reached_bind; [by apply safe_request_called|].
  intros res s1.
  destruct (negb (truthy res)); [apply called_reached, called_refl|].
  destruct res as [r|]; [|apply called_reached, called_refl].
  destruct (status_code r =? 200)%Z.
  - destruct (content r) as [|d|images].
    + apply called_reached, called_refl.
    + destruct (map_to_list d); [apply mark_then_reached|].
      apply called_reached, called_refl.
    + destruct images as [|img rest]; [apply mark_then_reached|].
      apply reached_bind; [apply called_refl|]. intros all_alt s2.
      destruct all_alt; [apply mark_then_reached|].
      apply reached_bind; [apply update_images_called|]. intros success s3.
      destruct success; [apply mark_then_reached|].
      apply called_reached, called_refl.
  - destruct (status_code r =? 404)%Z; [apply mark_then_reached|].
    apply called_reached, called_refl.
Qed.

Lemma get_sku_details_called sku_id s :
  called sku_id s (get_sku_details sku_id s).
Proof.
  unfold Engine.get_sku_details.
  apply called_bind; [by apply safe_request_called|].
  intros res s1.
  destruct (truthy res && status_is 200 res); [|apply called_refl].
  destruct res as [r|]; [|apply called_refl].
  destruct (content r); apply called_refl.
Qed.

Lemma process_single_sku_reached sku_id s :
  reached sku_id s (process_single_sku sku_id s).
Proof.
  unfold Engine.process_single_sku.
  apply reached_bind; [apply called_refl|]. intros processed s1.
  destruct processed; [apply called_reached, called_refl|].
  apply reached_bind; [apply get_sku_details_called|].
  intros [product_name ref_id] s2.
  destruct (truthy_json product_name); [|apply mark_then_reached].
  apply reached_return; [apply process_sku_images_reached|].
  intros success s3. by eexists.
Qed.

(** *** What a chain of calls looks like *)

Lemma saves_app t1 t2 : saves (t1 ++ t2) = saves t1 ++ saves t2.
Proof.
  induction t1 as [|ev t1 IH]; [done|].
  destruct ev; cbn [saves app]; by rewrite ?IH.
Qed.

Lemma waits_app t1 t2 : waits (t1 ++ t2) = (waits t1 + waits t2)%nat.
Proof.
  induction t1 as [|ev t1 IH]; [done|].
  destruct ev; cbn [waits app]; by rewrite ?IH.
Qed.

Lemma paced_from_mono t : paced_from false t = true -> paced_from true t = true.
Proof. destruct t as [|[] t]; done. Qed.

Lemma paced_from_app t1 : forall b t2,
  paced_from b t1 = true -> paced t2 = true -> paced_from b (t1 ++ t2) = true.
Proof.
  induction t1 as [|ev t1 IH]; intros b t2 H1 H2.
  - destruct b; [by apply paced_from_mono|done].
  - destruct ev; cbn [paced_from app] in *; try (by apply IH).
    apply andb_true_iff in H1 as [-> H1]. by apply IH.
Qed.

Lemma paced_app t1 t2 : paced t1 = true -> paced t2 = true -> paced (t1 ++ t2) = true.
Proof. apply paced_from_app. Qed.

(** One call of [safe_request]: each request right after a wait, as
    many waits as requests, neither file written. *)
Lemma safe_request_at_trace d rq :
  forall w res w' t,
    safe_request_at d rq w = (res, w', t) ->
    paced t = true /\ waits t = length (requests t) /\
    saves t = [].
Proof.
  induction d as [|d IH]; intros w res w' t; cbn [Engine.safe_request_at];
    destruct (session_request w rq) as [[r|] w1]; try (by intros [= <- <- <-]).
  - destruct (status_code r =? 429)%Z; [destruct (retry_after_seconds r)|];
      by intros [= <- <- <-].
  - destruct (status_code r =? 429)%Z; [destruct (retry_after_seconds r)|];
      try (by intros [= <- <- <-]).
    destruct (safe_request_at d rq w1) as [[res1 w2] t1] eqn:Hrec.
    intros [= <- <- <-]. destruct (IH _ _ _ _ Hrec) as (Hp & Hw & Hs).
    cbn [waits requests length saves]. unfold paced. cbn [paced_from andb].
    by rewrite Hw.
Qed.

Lemma chain_trace sku_id w t w' :
  chain sku_id w t w' ->
  paced t = true /\ waits t = length (requests t) /\
  saves t = [] /\
  Forall (fun rq => url_sku (req_url rq) = sku_id) (requests t).
Proof.
  induction 1 as [w|rq w res w1 t1 t2 w2 Hu Hrun _ (Hp & Hw & Hs & Hq)]; [done|].
  destruct (safe_request_at_trace _ _ _ _ _ _ Hrun) as (Hp1 & Hw1 & Hs1).
  destruct (safe_request_at_requests _ _ _ _ _ _ _ Hrun) as [n Hn].
  split; [by apply paced_app|].
  rewrite waits_app, saves_app, requests_app, length_app.
  rewrite Hw, Hw1, Hs, Hs1. repeat split; try done.
  apply Forall_app. split; [|done]. rewrite Hn. by apply Forall_replicate.
Qed.

(** An item that is in the checkpoint is skipped. *)
Lemma process_single_sku_skip sku_id s :
  sku_id ∈ processed_skus s -> process_single_sku sku_id s = (Ret true, s, []).
Proof.
  intros Hin. unfold Engine.process_single_sku. run_monad.
  by rewrite (proj2 (is_processed_true sku_id _) Hin).
Qed.

(** *** The workers *)

Section Walk.

(** A relation between the state before, the state after and the
    trace, that the steps of the runner keep. *)
Variable R : state -> state -> list event -> Prop.
Variable sku_ids : list Z.
Hypothesis R_refl : forall s, R s s [].
Hypothesis R_trans :
  forall s1 s2 s3 t1 t2, R s1 s2 t1 -> R s2 s3 t2 -> R s1 s3 (t1 ++ t2).
Hypothesis R_item :
  forall sku_id s,
    sku_id ∈ sku_ids ->
    R s (process_single_sku sku_id s).1.2 (process_single_sku sku_id s).2.
Hypothesis R_save :
  forall s,
    R s (set_checkpoint_file World (Some (processed_skus s)) s)
      [EvSaveCheckpoint (processed_skus s)].
Hypothesis R_compact :
  forall s,
    let out :=
      SkuFile.remove_processed_skus_from_file (processed_skus s) (sku_file s) in
    R s (set_sku_file World out.1 s)
      (match out.2 with Some text => [EvWriteList text] | None => [] end).

Lemma save_compact_walk s :
  exists s' t, (save World;; compact World) s = (Ret tt, s', t) /\ R s s' t.
Proof.
  unfold mbind, M_bind, save, compact.
  set (s1 := set_checkpoint_file World (Some (processed_skus s)) s).
  pose proof (R_save s) as H1. pose proof (R_compact s1) as H2. fold s1 in H1.
  destruct (SkuFile.remove_processed_skus_from_file _ _) as [file written].
  cbn in H2 |- *. eexists _, _. split; [reflexivity|].
  exact (R_trans _ _ _ _ _ H1 H2).
Qed.

Lemma flush_walk (flush : bool) s :
  exists s' t,
    (if flush then save World;; compact World else mret tt) s = (Ret tt, s', t) /\
    R s s' t.
Proof.
  destruct flush; [apply save_compact_walk|by exists s, []].
Qed.

Lemma workers_walk ids :
  (forall x, x ∈ ids -> x ∈ sku_ids) ->
  forall k s, exists s' t,
    workers ids k s = (Ret (k + length ids)%nat, s', t) /\ R s s' t.
Proof.
  induction ids as [|sku_id rest IH]; intros Hsub k s.
  - exists s, []. cbn. rewrite Nat.add_0_r. by split.
  - cbn [Engine.workers]. unfold mbind at 1, M_bind at 1, in_future.
    pose proof (R_item sku_id s (Hsub _ ltac:(apply elem_of_cons; by left))) as H1.
    destruct (process_single_sku sku_id s) as [[r1 s1] t1]. cbn in H1.
    unfold mbind at 1, M_bind at 1.
    destruct (flush_walk (S k mod CHECKPOINT_INTERVAL =? 0)%nat s1)
      as (s2 & t2 & -> & H2).
    destruct (IH ltac:(intros x Hx; apply Hsub, elem_of_cons; by right) (S k) s2)
      as (s3 & t3 & -> & H3).
    eexists _, _. split.
    + cbn [length]. by rewrite Nat.add_succ_r.
    + eapply R_trans; [exact H1|]. by eapply R_trans.
Qed.


(** A resumed run. *)
Lemma run_bulk_update_resumed s :
  run_bulk_update true s
  = let s0 := set_processed World (default [] (checkpoint_file s)) s in
    match SkuFile.load_sku_list (sku_file s) with
    | [] => (Ret tt, s0, [])
    | sku_ids => (workers sku_ids 0;; save World;; compact World) s0
    end.
Proof.
  unfold Engine.run_bulk_update, load. unfold mbind at 1, M_bind at 1.
  cbn [negb]. unfold mbind at 1, M_bind at 1. unfold mret at 1, M_ret at 1.
  unfold mbind at 1, M_bind at 1. cbn [sku_file set_processed app].
  destruct (SkuFile.load_sku_list (sku_file s)) as [|sku_id rest]; [done|].
  by destruct ((workers (sku_id :: rest) 0;; save World;; compact World) _) as [[r s1] t].
Qed.

(** A fresh run is a resumed run over an empty checkpoint, after the
    empty checkpoint is saved. *)
Lemma run_bulk_update_fresh s :
  run_bulk_update false s
  = let '(r, s', t) :=
      run_bulk_update true (State (remote s) [] (Some []) (sku_file s)) in
    (r, s', EvSaveCheckpoint [] :: t).
Proof.
  rewrite run_bulk_update_resumed.
  unfold Engine.run_bulk_update, load. unfold mbind at 1, M_bind at 1.
  cbn [negb]. unfold mbind at 1, M_bind at 1. unfold clear.
  unfold save at 1.
  unfold mbind at 1, M_bind at 1.
  set (s0 := State (remote s) [] (Some []) (sku_file s)).
  change (set_checkpoint_file World _ (set_processed World [] _)) with s0.
  change (set_processed World _ s0) with s0.
  change (sku_file s0) with (sku_file s).
  cbn [app processed_skus set_processed].
  destruct (SkuFile.load_sku_list (sku_file s)) as [|sku_id rest]; [done|].
  by destruct ((workers (sku_id :: rest) 0 ≫= _) s0) as [[r s1] t].
Qed.

(** The end of a resumed run over a list that is not empty: the
    workers, then the checkpoint saved and the list file compacted. *)
Lemma run_bulk_update_ends s n s1 t1 :
  let s0 := set_processed World (default [] (checkpoint_file s)) s in
  let ids := SkuFile.load_sku_list (sku_file s) in
  ids <> [] ->
  workers ids 0 s0 = (Ret n, s1, t1) ->
  let out :=
    SkuFile.remove_processed_skus_from_file (processed_skus s1) (sku_file s1) in
  run_bulk_update true s
  = (Ret tt,
     State (remote s1) (processed_skus s1) (Some (processed_skus s1)) out.1,
     t1 ++ EvSaveCheckpoint (processed_skus s1)
        :: match out.2 with Some text => [EvWriteList text] | None => [] end).
Proof.
  intros s0 ids Hne Hrun out. rewrite run_bulk_update_resumed. fold s0 ids.
  destruct ids as [|sku_id rest] eqn:Hids; [done|].
  unfold mbind at 1, M_bind at 1. rewrite Hrun.
  unfold mbind, M_bind, save, compact.
  cbn [set_checkpoint_file processed_skus sku_file].
  fold out. by destruct out as [file written].
Qed.

Lemma run_walk s :
  sku_ids = SkuFile.load_sku_list (sku_file s) ->
  exists s' t,
    run_bulk_update true s = (Ret tt, s', t) /\
    R (set_processed World (default [] (checkpoint_file s)) s) s' t.
Proof.
  intros Hids. rewrite run_bulk_update_resumed. cbn zeta.
  destruct (SkuFile.load_sku_list (sku_file s)) as [|sku_id rest];
    [by eexists _, _|].
  rewrite <- Hids. unfold mbind at 1, M_bind at 1.
  destruct (workers_walk sku_ids ltac:(done) 0%nat
              (set_processed World (default [] (checkpoint_file s)) s))
    as (s1 & t1 & -> & H1).
  destruct (save_compact_walk s1) as (s2 & t2 & -> & H2).
  eexists _, _. split; [reflexivity|]. by eapply R_trans.
Qed.

End Walk.

Lemma mark_processed_cases sku_id cp :
  Checkpoint.mark_processed sku_id cp = cp \/
  ((sku_id ∉ cp) /\ Checkpoint.mark_processed sku_id cp = cp ++ [sku_id]).
Proof.
  unfold Checkpoint.mark_processed.
  destruct (Checkpoint.is_processed sku_id cp) eqn:Hp; [by left|right].
  split; [|done]. intros Hin%is_processed_true. congruence.
Qed.

(** What [process_single_sku] does to the state: requests about its
    item, the files as they were, the checkpoint as it was or with the
    item appended. *)
Lemma process_single_sku_effect sku_id s :
  let out := process_single_sku sku_id s in
  chain sku_id (remote s) out.2 (remote out.1.2) /\
  checkpoint_file out.1.2 = checkpoint_file s /\
  sku_file out.1.2 = sku_file s /\
  (processed_skus out.1.2 = processed_skus s \/
   ((sku_id ∉ processed_skus s) /\
    processed_skus out.1.2 = processed_skus s ++ [sku_id])).
Proof.
  destruct (process_single_sku_reached sku_id s) as (w & cp & Hs & Hc & Hcp).
  cbn zeta. rewrite Hs. cbn [remote checkpoint_file sku_file processed_skus].
  repeat split; try done.
  destruct Hcp as [->| ->]; [by left|]. apply mark_processed_cases.
Qed.

(** Every run is a resumed run: a fresh one saves the empty checkpoint
    and goes on as a resumed run over it. *)
Lemma run_bulk_update_any (resume : bool) s :
  run_bulk_update resume s
  = let '(r, s', t) :=
      run_bulk_update true
        (if resume then s else State (remote s) [] (Some []) (sku_file s)) in
    (r, s', (if resume then [] else [EvSaveCheckpoint []]) ++ t).
Proof.
  destruct resume; [by destruct (run_bulk_update true s) as [[r s'] t]|].
  apply run_bulk_update_fresh.
Qed.

Lemma restart_facts (resume : bool) (s : state) :
  let s1 := if resume then s else State (remote s) [] (Some []) (sku_file s) in
  sku_file s1 = sku_file s /\
  default [] (checkpoint_file s1)
  = (if resume then default [] (checkpoint_file s) else []).
Proof. by destruct resume. Qed.

(** X12: a run only appends to the checkpoint it starts from (the one
    the file holds, or the empty one on a fresh start): what it appends
    are IDs of the list file that were not in the checkpoint, each
    once.  So a checkpoint without duplicates stays without
    duplicates. *)
Theorem run_bulk_update_checkpoint_grows :
  forall (resume : bool) (s : state),
    let cp0 := if resume then default [] (checkpoint_file s) else [] in
    let s' := (run_bulk_update resume s).1.2 in
    exists added,
      processed_skus s' = cp0 ++ added /\
      NoDup added /\
      (forall x, x ∈ added ->
                 x ∈ SkuFile.load_sku_list (sku_file s) /\ x ∉ cp0) /\
      (NoDup cp0 -> NoDup (processed_skus s')).
Proof.
  intros resume s cp0 s'. unfold s'. rewrite run_bulk_update_any.
  destruct (restart_facts resume s) as [Hfile Hcp].
  set (s1 := if resume then s else _) in *. fold cp0 in Hcp.
  set (ids := SkuFile.load_sku_list (sku_file s)).
  destruct (run_walk
              (fun a b _ => exists added,
                   processed_skus b = processed_skus a ++ added /\
                   NoDup added /\
                   forall x, x ∈ added -> x ∈ ids /\ x ∉ processed_skus a)
              ids) with (s := s1) as (s2 & t & -> & added & Hadd & Hnd & Hin).
  - intros a. exists []. rewrite app_nil_r. split; [done|].
    split; [constructor|]. intros x Hx. by apply elem_of_nil in Hx.
  - intros a b c _ _ (l1 & H1 & Hn1 & Hi1) (l2 & H2 & Hn2 & Hi2).
    exists (l1 ++ l2). rewrite H2, H1, app_assoc. split; [done|]. split.
    + apply NoDup_app. split; [done|]. split; [|done].
      intros x Hx1 Hx2. apply Hi2 in Hx2 as [_ Hx2]. apply Hx2.
      rewrite H1. apply elem_of_app. by right.
    + intros x [Hx|Hx]%elem_of_app; [by apply Hi1|].
      apply Hi2 in Hx as [? Hx]. split; [done|]. intros Hxa. apply Hx.
      rewrite H1. apply elem_of_app. by left.
  - intros sku_id a Hsku.
    destruct (process_single_sku_effect sku_id a) as (_ & _ & _ & [Hsame|[Hnew Happ]]).
    + exists []. rewrite app_nil_r. split; [done|].
      split; [constructor|]. intros x Hx. by apply elem_of_nil in Hx.
    + exists [sku_id]. split; [done|]. split; [apply NoDup_singleton|].
      by intros x ->%list_elem_of_singleton.
  - intros a. exists []. rewrite app_nil_r. split; [done|].
    split; [constructor|]. intros x Hx. by apply elem_of_nil in Hx.
  - intros a out. exists []. rewrite app_nil_r. split; [done|].
    split; [constructor|]. intros x Hx. by apply elem_of_nil in Hx.
  - by rewrite Hfile.
  - cbn [fst snd processed_skus set_processed] in *. rewrite Hcp in *.
    exists added. split; [done|]. split; [done|]. split; [done|].
    intros Hcp0. rewrite Hadd. apply NoDup_app. split; [done|]. split; [|done].
    intros x Hx Hx'. by apply Hin in Hx' as [_ ?].
Qed.

Lemma requests_cons_save ids t :
  requests (EvSaveCheckpoint ids :: t) = requests t.
Proof. done. Qed.

(** X13: a run asks the remote service only about items of the list
    file that are not in the checkpoint it starts from: no other item
    is fetched or updated. *)
Theorem run_bulk_update_requests_listed :
  forall (resume : bool) (s : state),
    let cp0 := if resume then default [] (checkpoint_file s) else [] in
    Forall (fun rq =>
              url_sku (req_url rq) ∈ SkuFile.load_sku_list (sku_file s) /\
              url_sku (req_url rq) ∉ cp0)
           (requests (run_bulk_update resume s).2).
Proof.
  intros resume s cp0. rewrite run_bulk_update_any.
  destruct (restart_facts resume s) as [Hfile Hcp].
  set (s1 := if resume then s else _) in *. fold cp0 in Hcp.
  set (ids := SkuFile.load_sku_list (sku_file s)).
  destruct (run_walk
              (fun a b t =>
                 (forall x, x ∈ processed_skus a -> x ∈ processed_skus b) /\
                 Forall (fun rq =>
                           url_sku (req_url rq) ∈ ids /\
                           url_sku (req_url rq) ∉ processed_skus a)
                        (requests t))
              ids) with (s := s1) as (s2 & t & -> & _ & Hreqs).
  - intros a. by split.
  - intros a b c t1 t2 [Hm1 Hr1] [Hm2 Hr2]. split; [by auto|].
    rewrite requests_app. apply Forall_app. split; [done|].
    eapply Forall_impl; [exact Hr2|]. intros rq [? Hout]. split; [done|].
    intros Hin. by apply Hout, Hm1.
  - intros sku_id a Hsku.
    destruct (decide (sku_id ∈ processed_skus a)) as [Hin|Hout].
    { rewrite process_single_sku_skip by done. by split. }
    destruct (process_single_sku_effect sku_id a) as (Hc & _ & _ & Hcp').
    split.
    + intros x Hx. destruct Hcp' as [->|[_ ->]]; [done|].
      apply elem_of_app. by left.
    + destruct (chain_trace _ _ _ _ Hc) as (_ & _ & _ & Hall).
      eapply Forall_impl; [exact Hall|]. by intros rq ->.
  - intros a. by split.
  - intros a out. split; [done|]. by destruct (out.2).
  - by rewrite Hfile.
  - cbn [snd]. destruct resume; cbn [app]; rewrite ?requests_cons_save;
      cbn [processed_skus set_processed] in Hreqs; by rewrite Hcp in Hreqs.
Qed.

(** X14: every request of a run goes through the rate limiter: in the
    trace each call of [SESSION.request] comes right after a call of
    [rate_limiter.wait()], and there are as many of the one as of the
    other. *)
Theorem run_bulk_update_paced :
  forall (resume : bool) (s : state),
    let t := (run_bulk_update resume s).2 in
    paced t = true /\ waits t = length (requests t).
Proof.
  intros resume s. cbn zeta. rewrite run_bulk_update_any.
  set (s1 := if resume then s else _).
  destruct (run_walk
              (fun _ _ t => paced t = true /\ waits t = length (requests t))
              (SkuFile.load_sku_list (sku_file s1)))
    with (s := s1) as (s2 & t & -> & Hp & Hw).
  - done.
  - intros _ _ _ t1 t2 [Hp1 Hw1] [Hp2 Hw2]. split; [by apply paced_app|].
    by rewrite waits_app, requests_app, length_app, Hw1, Hw2.
  - intros sku_id a _.
    destruct (process_single_sku_effect sku_id a) as (Hc & _).
    by destruct (chain_trace _ _ _ _ Hc) as (? & ? & _).
  - done.
  - intros a out. by destruct (out.2).
  - done.
  - cbn [snd]. by destruct resume.
Qed.

Lemma saves_writes (written : option string) :
  saves (match written with Some text => [EvWriteList text] | None => [] end) = [].
Proof. by destruct written. Qed.

(** The end of a run over a list that is not empty: the state it
    leaves and the last events of its trace. *)
Lemma run_bulk_update_end (resume : bool) (s : state) :
  SkuFile.load_sku_list (sku_file s) <> [] ->
  exists s2 t written,
    run_bulk_update resume s
    = (Ret tt,
       State (remote s2) (processed_skus s2) (Some (processed_skus s2))
         (SkuFile.remove_processed_skus_from_file (processed_skus s2) (sku_file s)).1,
       t ++ EvSaveCheckpoint (processed_skus s2) :: written) /\
    saves written = [] /\ requests written = [].
Proof.
  intros Hne. rewrite run_bulk_update_any.
  destruct (restart_facts resume s) as [Hfile _].
  set (s1 := if resume then s else _) in *.
  set (s0 := set_processed World (default [] (checkpoint_file s1)) s1).
  destruct (workers_walk
              (fun a b _ =>
                 (forall x, x ∈ processed_skus a -> x ∈ processed_skus b) /\
                 exists p,
                   (forall x, x ∈ p -> x ∈ processed_skus b) /\
                   sku_file b
                   = (SkuFile.remove_processed_skus_from_file p (sku_file a)).1)
              (SkuFile.load_sku_list (sku_file s1)))
    with (ids := SkuFile.load_sku_list (sku_file s1)) (k := 0%nat) (s := s0)
    as (s2 & t & Hrun & Hmono & p & Hp & Hsku).
  - intros a. split; [done|]. exists []. split; [by intros x Hx%elem_of_nil|].
    by rewrite remove_processed_nil.
  - intros a b c _ _ (Hm1 & p1 & Hp1 & Hf1) (Hm2 & p2 & Hp2 & Hf2).
    split; [by auto|]. exists (p1 ++ p2). split.
    + intros x [Hx|Hx]%elem_of_app; auto.
    + by rewrite Hf2, Hf1, remove_processed_twice.
  - intros sku_id a _.
    destruct (process_single_sku_effect sku_id a) as (_ & _ & Hf & Hcp).
    split.
    + intros x Hx. destruct Hcp as [->|[_ ->]]; [done|]. apply elem_of_app. by left.
    + exists []. split; [by intros x Hx%elem_of_nil|].
      by rewrite remove_processed_nil.
  - intros a. split; [done|]. exists []. split; [by intros x Hx%elem_of_nil|].
    by rewrite remove_processed_nil.
  - intros a out. split; [done|]. by exists (processed_skus a).
  - done.
  - pose proof (run_bulk_update_ends s1 _ s2 t ltac:(by rewrite Hfile) Hrun) as Hend.
    cbn zeta in Hend. rewrite Hend. clear Hend.
    change (sku_file s0) with (sku_file s1) in Hsku. rewrite Hfile in Hsku.
    assert (Hfinal :
              (SkuFile.remove_processed_skus_from_file (processed_skus s2) (sku_file s2)).1
              = (SkuFile.remove_processed_skus_from_file (processed_skus s2) (sku_file s)).1).
    { rewrite Hsku, remove_processed_twice. f_equal.
      apply remove_processed_ext. intros x. rewrite elem_of_app.
      split; [intros [?|?]; auto|by right]. }
    rewrite Hfinal.
    exists s2, ((if resume then [] else [EvSaveCheckpoint []]) ++ t),
      (match (SkuFile.remove_processed_skus_from_file (processed_skus s2)
                (sku_file s2)).2 with
       | Some text => [EvWriteList text]
       | None => []
       end).
    split; [by rewrite <- app_assoc|].
    by destruct (SkuFile.remove_processed_skus_from_file _ _).2.
Qed.

(** X15: a run over a list that is not empty ends with the checkpoint
    on disk equal to the one in memory, and with the list file holding
    the lines it held at the start except those that name a
    checkpointed ID; loading it again gives the IDs of the list that
    are not in the checkpoint. *)
Theorem run_bulk_update_persists :
  forall (resume : bool) (s : state),
    SkuFile.load_sku_list (sku_file s) <> [] ->
    let out := run_bulk_update resume s in
    let s' := out.1.2 in
    checkpoint_file s' = Some (processed_skus s') /\
    last (saves out.2) = Some (processed_skus s') /\
    sku_file s'
    = (SkuFile.remove_processed_skus_from_file (processed_skus s') (sku_file s)).1 /\
    SkuFile.load_sku_list (sku_file s')
    = filter (fun id => id ∉ processed_skus s') (SkuFile.load_sku_list (sku_file s)).
Proof.
  intros resume s Hne out s'. unfold s', out. clear s' out.
  destruct (run_bulk_update_end resume s Hne) as (s2 & t & written & -> & Hw & _).
  cbn [fst snd checkpoint_file processed_skus sku_file].
  split; [done|]. split; [|split; [done|apply load_compacted]].
  rewrite saves_app. cbn [saves]. rewrite Hw.
  apply last_snoc.
Qed.

(** X28: once a run has checkpointed every ID of the list, the list
    file lists no ID any more, and a resumed run on the state it left
    does nothing: no request, no save, no write, the same state. *)
Theorem run_bulk_update_completed_rerun :
  forall (resume : bool) (s : state),
    let sku_ids := SkuFile.load_sku_list (sku_file s) in
    let s' := (run_bulk_update resume s).1.2 in
    sku_ids <> [] ->
    (forall id, id ∈ sku_ids -> id ∈ processed_skus s') ->
    SkuFile.load_sku_list (sku_file s') = [] /\
    run_bulk_update true s' = (Ret tt, s', []).
Proof.
  intros resume s sku_ids s' Hne Hall. unfold s' in *. clear s'.
  destruct (run_bulk_update_end resume s Hne) as (s2 & t & written & Heq & _).
  rewrite Heq in *. cbn [fst snd processed_skus sku_file] in *.
  assert (Hempty :
            SkuFile.load_sku_list
              (SkuFile.remove_processed_skus_from_file (processed_skus s2)
                 (sku_file s)).1 = []).
  { rewrite load_compacted. apply filter_nil_iff. apply Forall_forall.
    intros id Hid Hout. by apply Hout, Hall. }
  split; [done|].
  rewrite run_bulk_update_resumed. cbn zeta. cbn [sku_file]. by rewrite Hempty.
Qed.

Lemma div_interval_step k :
  (S k / CHECKPOINT_INTERVAL
   = k / CHECKPOINT_INTERVAL
     + (if (S k mod CHECKPOINT_INTERVAL =? 0) then 1 else 0))%nat.
Proof.
  unfold CHECKPOINT_INTERVAL.
  pose proof (Nat.div_mod_eq k 10) as Hk.
  pose proof (Nat.div_mod_eq (S k) 10) as Hk'.
  pose proof (Nat.mod_upper_bound k 10 ltac:(lia)) as Hb.
  pose proof (Nat.mod_upper_bound (S k) 10 ltac:(lia)) as Hb'.
  destruct (S k mod 10 =? 0)%nat eqn:Hm.
  - apply Nat.eqb_eq in Hm. lia.
  - apply Nat.eqb_neq in Hm. lia.
Qed.

(** The workers save the checkpoint at every tenth completed item. *)
Lemma workers_saves sku_ids :
  forall k s,
    (k / CHECKPOINT_INTERVAL + length (saves (workers sku_ids k s).2)
     = (k + length sku_ids) / CHECKPOINT_INTERVAL)%nat.
Proof.
  induction sku_ids as [|sku_id rest IH]; intros k s.
  - cbn. by rewrite !Nat.add_0_r.
  - cbn [length]. replace (k + S (length rest))%nat with (S k + length rest)%nat by lia.
    cbn [Engine.workers]. unfold mbind at 1, M_bind at 1, in_future.
    destruct (process_single_sku_effect sku_id s) as (Hc & _).
    destruct (chain_trace _ _ _ _ Hc) as (_ & _ & Hs1 & _).
    destruct (process_single_sku sku_id s) as [[r1 s1] t1]. cbn [fst snd] in Hs1.
    unfold mbind at 1, M_bind at 1.
    pose proof (div_interval_step k) as Hstep.
    destruct (S k mod CHECKPOINT_INTERVAL =? 0)%nat.
    + unfold mbind at 1, M_bind at 1, save, compact.
      destruct (SkuFile.remove_processed_skus_from_file _ _) as [file written].
      specialize (IH (S k) (set_sku_file World file
                              (set_checkpoint_file World (Some (processed_skus s1)) s1))).
      destruct (workers rest (S k) _) as [[r3 s3] t3]. cbn [fst snd] in IH |- *.
      rewrite !saves_app, Hs1. cbn [saves app]. rewrite saves_writes.
      cbn [app length]. lia.
    + specialize (IH (S k) s1).
      unfold mret at 1, M_ret at 1.
      destruct (workers rest (S k) s1) as [[r3 s3] t3]. cbn [fst snd] in IH |- *.
      rewrite !saves_app, Hs1. cbn [app length saves]. lia.
Qed.

(** X16: over a list that is not empty, a run saves the checkpoint
    after every tenth completed item and once at the end (and once at
    the start when it is a fresh run); every list it saves extends the
    checkpoint the run started from and is extended by the final
    one. *)
Theorem run_bulk_update_saves :
  forall (resume : bool) (s : state),
    let sku_ids := SkuFile.load_sku_list (sku_file s) in
    let cp0 := if resume then default [] (checkpoint_file s) else [] in
    let out := run_bulk_update resume s in
    sku_ids <> [] ->
    length (saves out.2)
    = (length sku_ids / CHECKPOINT_INTERVAL + 1 + (if resume then 0 else 1))%nat /\
    Forall (fun l => cp0 `prefix_of` l /\ l `prefix_of` processed_skus out.1.2)
           (saves out.2).
Proof.
  intros resume s sku_ids cp0 out Hne. unfold out. clear out.
  rewrite run_bulk_update_any.
  destruct (restart_facts resume s) as [Hfile Hcp].
  set (s1 := if resume then s else _) in *. fold cp0 in Hcp.
  set (s0 := set_processed World (default [] (checkpoint_file s1)) s1).
  split.
  - pose proof (workers_saves sku_ids 0 s0) as Hcount.
    destruct (workers sku_ids 0 s0) as [[r2 s2] t2] eqn:Hrun.
    assert (Hret : r2 = Ret (0 + length sku_ids)%nat).
    { destruct (workers_walk (fun _ _ _ => True) sku_ids) with (ids := sku_ids)
        (k := 0%nat) (s := s0) as (s3 & t3 & Heq & _); try done. congruence. }
    subst r2. unfold sku_ids in Hrun. rewrite <- Hfile in Hrun.
    pose proof (run_bulk_update_ends s1 _ s2 t2 ltac:(by rewrite Hfile) Hrun) as Hend.
    cbn zeta in Hend. rewrite Hend. clear Hend. cbn [fst snd] in *.
    rewrite !saves_app. cbn [saves]. rewrite saves_writes, !length_app.
    cbn [length]. change (0 / CHECKPOINT_INTERVAL)%nat with 0%nat in Hcount.
    rewrite !Nat.add_0_l in Hcount.
    destruct resume; cbn [saves length]; lia.
  - destruct (run_walk
                (fun a b t =>
                   processed_skus a `prefix_of` processed_skus b /\
                   Forall (fun l => processed_skus a `prefix_of` l /\
                                    l `prefix_of` processed_skus b) (saves t))
                (SkuFile.load_sku_list (sku_file s1)))
      with (s := s1) as (s2 & t & -> & Hpre & Hall).
    + intros a. by split.
    + intros a b c t1 t2 [Hp1 Ha1] [Hp2 Ha2]. split; [by etrans|].
      rewrite saves_app. apply Forall_app. split.
      * eapply Forall_impl; [exact Ha1|]. intros l [? ?]. split; [done|by etrans].
      * eapply Forall_impl; [exact Ha2|]. intros l [? ?]. split; [by etrans|done].
    + intros sku_id a _.
      destruct (process_single_sku_effect sku_id a) as (Hc & _ & _ & Hcp').
      destruct (chain_trace _ _ _ _ Hc) as (_ & _ & -> & _).
      split; [|done]. destruct Hcp' as [->|[_ ->]]; [done|]. by apply prefix_app_r.
    + intros a. split; [done|]. cbn [saves]. by repeat constructor.
    + intros a out. split; [done|]. by rewrite saves_writes.
    + done.
    + cbn [fst snd processed_skus set_processed] in *. rewrite Hcp in *.
      rewrite saves_app. apply Forall_app. split; [|done].
      destruct resume; [done|]. cbn [saves].
      constructor; [|constructor]. split; apply prefix_nil.
Qed.

(** X17: when the list file is missing or lists no ID, a run asks the
    remote service nothing and leaves the list file alone; a resumed
    run leaves the checkpoint file alone too, but a fresh run has
    already overwritten it with the empty checkpoint. *)
Theorem run_bulk_update_empty_list :
  forall (resume : bool) (s : state),
    SkuFile.load_sku_list (sku_file s) = [] ->
    run_bulk_update resume s
    = (Ret tt,
       State (remote s)
             (if resume then default [] (checkpoint_file s) else [])
             (if resume then checkpoint_file s else Some [])
             (sku_file s),
       if resume then [] else [EvSaveCheckpoint []]).
Proof.
  intros resume s Hempty. rewrite run_bulk_update_any.
  rewrite run_bulk_update_resumed. cbn zeta.
  destruct resume; cbn [sku_file]; rewrite Hempty; reflexivity.
Qed.

(** *** Single calls *)

(** X19: an item whose details cannot be had is marked processed all
    the same: when the details call fails or comes back with another
    status than 200, or the details carry no name, [process_single_sku]
    appends the item to the checkpoint and answers [True] without
    asking for its images. *)
Theorem process_single_sku_without_name :
  forall sku_id s res w t,
    sku_id ∉ processed_skus s ->
    safe_request_at depth (Request GET (SkuUrl sku_id) None) (remote s)
    = (res, w, t) ->
    (status_is 200 res = false \/
     exists r d,
       res = Some r /\ status_code r = 200%Z /\ content r = JsonObject d /\
       truthy_json (Remotes.name_of d) = false) ->
    process_single_sku sku_id s
    = (Ret true,
       State w (processed_skus s ++ [sku_id]) (checkpoint_file s) (sku_file s),
       t).
Proof.
  intros sku_id s res w t Hnew Hrun Hcase.
  assert (Hp : Checkpoint.is_processed sku_id (processed_skus s) = false).
  { apply not_true_is_false. by intros Hin%is_processed_true. }
  unfold Engine.process_single_sku, Engine.get_sku_details. run_monad.
  rewrite Hp, Hrun, truthy_status_200.
  unfold Checkpoint.mark_processed.
  destruct Hcase as [H200|(r & d & -> & Hst & Hbody & Hname)].
  - rewrite H200. cbn. rewrite Hp. cbn. by rewrite !app_nil_r.
  - cbn [status_is]. rewrite Hst, Hbody. cbn [Z.eqb Pos.eqb].
    unfold Remotes.name_of in Hname. cbn. rewrite Hname. cbn. rewrite Hp. cbn.
    by rewrite !app_nil_r.
Qed.

(** X20: when the image list arrives with status 200 and every image
    has a label that is not blank (none at all, for a list without
    images), [process_sku_images] marks the item and answers [True]
    after the one call that fetched the list, whatever the labels say
    and whatever the name of the product is. *)
Theorem process_sku_images_all_labelled :
  forall sku_id product_name s r w t images,
    safe_request_at depth (Request GET (FilesUrl sku_id) None) (remote s)
    = (Some r, w, t) ->
    status_code r = 200%Z ->
    content r = JsonArray images ->
    all_have_alt images = Ret true ->
    process_sku_images sku_id product_name s
    = (Ret true,
       State w (Checkpoint.mark_processed sku_id (processed_skus s))
             (checkpoint_file s) (sku_file s),
       t) /\
    Forall (fun rq => req_method rq = GET) (requests t).
Proof.
  intros sku_id product_name s r w t images Hrun Hst Hbody Hall. split.
  - unfold Engine.process_sku_images. run_monad. rewrite Hrun.
    unfold truthy, response_ok. rewrite Hst, Hbody.
    cbn [Z.leb Z.ltb Z.eqb Z.compare Pos.compare Pos.compare_cont andb negb Pos.eqb].
    destruct images as [|img rest]; [cbn; by rewrite !app_nil_r|].
    rewrite Hall. cbn. by rewrite !app_nil_r.
  - destruct (safe_request_at_requests _ _ _ _ _ _ _ Hrun) as [n ->].
    by apply Forall_replicate.
Qed.

(** X29: the update loop of [process_sku_images] sends PUT requests
    only for images whose current label differs from the alt text, each
    to the file of such an image; when no label differs it does
    nothing at all. *)
Theorem update_images_targets :
  forall sku_id name total images index success s,
    let new_alt := AltText.generate_natural_alt_text name 1 1 in
    let t := (update_images sku_id (JStr name) total index images success s).2 in
    Forall (fun rq =>
              req_method rq = PUT /\
              exists img : image,
                img ∈ images /\
                differs (default (JStr "") (img !! "Label")) new_alt = true /\
                req_url rq = FileUrl sku_id (dict_get img "Id"))
           (requests t) /\
    (Forall (fun img : image =>
               differs (default (JStr "") (img !! "Label")) new_alt = false)
            images ->
     t = []).
Proof.
  intros sku_id name total images. cbn zeta.
  induction images as [|img rest IH]; intros index success s; [by split|].
  cbn [Engine.update_images]. run_monad. cbn [alt_text_for].
  change (AltText.generate_natural_alt_text name index total)
    with (AltText.generate_natural_alt_text name 1 1).
  destruct (differs (default (JStr "") (img !! "Label"))
              (AltText.generate_natural_alt_text name 1 1)) eqn:Hdiff.
  - rewrite update_image_alt_run.
    destruct (safe_request_at depth _ (remote s)) as [[res w] t1] eqn:Hput.
    destruct (safe_request_at_requests _ _ _ _ _ _ _ Hput) as [n Hsent].
    match goal with
    | |- context [update_images _ _ _ ?i rest ?b ?s1] =>
        destruct (IH i b s1) as [Hreqs _];
        destruct (update_images sku_id (JStr name) total i rest b s1) as [[r2 s2] t2]
    end.
    cbn [fst snd] in *. split.
    + rewrite !app_nil_r, app_nil_l, requests_app, Hsent. apply Forall_app. split.
      * apply Forall_replicate. split; [done|]. exists img.
        split; [apply elem_of_cons; by left|]. by split.
      * eapply Forall_impl; [exact Hreqs|]. intros rq (Hm & img' & Hin & Hd & Hu).
        split; [done|]. exists img'. split; [apply elem_of_cons; by right|]. by split.
    + intros Hall. inversion Hall as [|? ? Himg _]. congruence.
  - match goal with
    | |- context [update_images _ _ _ ?i rest ?b ?s1] =>
        destruct (IH i b s1) as [Hreqs Hnone];
        destruct (update_images sku_id (JStr name) total i rest b s1) as [[r2 s2] t2]
    end.
    cbn [fst snd app] in *. split.
    + eapply Forall_impl; [exact Hreqs|]. intros rq (Hm & img' & Hin & Hd & Hu).
      split; [done|]. exists img'. split; [apply elem_of_cons; by right|]. by split.
    + intros Hall. inversion Hall as [|? ? _ Hrest]. by apply Hnone.
Qed.

(** X21: a 200 answer to the image-list call whose body is not JSON, or
    is a JSON object with a key, makes [process_sku_images] raise; the
    checkpoint stays as it was, so the item is left for a later
    run. *)
Theorem process_sku_images_bad_body :
  forall sku_id product_name s r w t,
    safe_request_at depth (Request GET (FilesUrl sku_id) None) (remote s)
    = (Some r, w, t) ->
    status_code r = 200%Z ->
    (content r = NoJson \/
     exists d, content r = JsonObject d /\ d <> ∅) ->
    process_sku_images sku_id product_name s
    = (Raise, State w (processed_skus s) (checkpoint_file s) (sku_file s), t).
Proof.
  intros sku_id product_name s r w t Hrun Hst Hbody.
  unfold Engine.process_sku_images. run_monad. rewrite Hrun.
  unfold truthy, response_ok. rewrite Hst.
  cbn [Z.leb Z.ltb Z.eqb Z.compare Pos.compare Pos.compare_cont andb negb Pos.eqb].
  destruct Hbody as [->|(d & -> & Hd)]; [cbn; by rewrite !app_nil_r|].
  destruct (map_to_list d) as [|kv l] eqn:Hl.
  - by apply map_to_list_empty_iff in Hl.
  - cbn. by rewrite !app_nil_r.
Qed.

End RunFacts.

(** ** The logs and the report *)

Section LogFacts.
Import PyStr PyText Engine Log Report SkuFile.

Lemma append_assoc (a b c : string) : (a +:+ b) +:+ c = a +:+ (b +:+ c).
Proof.
  induction a as [|x a IH]; [done|].
  change (String x ((a +:+ b) +:+ c) = String x (a +:+ (b +:+ c))). by rewrite IH.
Qed.

(** Reading a text that continues after the end of a line. *)
Lemma readlines_from_line a : forall cur b,
  readlines_from cur ((a +:+ String newline "") +:+ b)
  = readlines_from cur (a +:+ String newline "") ++ readlines_from "" b.
Proof.
  induction a as [|c a IH]; intros cur b.
  - change (readlines_from cur (String newline b)
            = readlines_from cur (String newline "") ++ readlines_from "" b).
    cbn [readlines_from]. by rewrite Ascii.eqb_refl.
  - change (readlines_from cur (String c ((a +:+ String newline "") +:+ b))
            = readlines_from cur (String c (a +:+ String newline ""))
              ++ readlines_from "" b).
    cbn [readlines_from]. destruct (Ascii.eqb c newline).
    + by rewrite IH.
    + apply IH.
Qed.

Lemma readlines_line a b :
  readlines ((a +:+ String newline "") +:+ b)
  = readlines (a +:+ String newline "") ++ readlines b.
Proof. apply readlines_from_line. Qed.

Lemma log_all_entries calls : forall l,
  log_all calls l
  = Logs (console l +:+ entries calls)
         (execution_log l +:+ entries calls)
         (error_log l +:+ entries (List.filter is_error_call calls)).
Proof.
  induction calls as [|[[ts msg] lvl] calls IH]; intros l.
  - cbn. rewrite !append_empty_r. by destruct l.
  - unfold log_all in *. cbn [foldl]. rewrite IH. unfold log_message.
    cbn [console execution_log error_log List.filter is_error_call snd entries entry].
    rewrite !append_assoc.
    unfold is_error_call at 2. cbn [snd].
    destruct (is_error_level lvl); cbn [entries entry]; by rewrite ?append_assoc.
Qed.

Lemma readlines_entries calls :
  readlines (entries calls) = flat_map (fun call => readlines (entry call)) calls.
Proof.
  induction calls as [|[[ts msg] lvl] calls IH]; [done|].
  cbn [entries flat_map]. unfold entry at 1. rewrite readlines_line.
  by rewrite IH.
Qed.

Lemma flat_map_filter_sublist {A B} (f : A -> list B) (p : A -> bool) l :
  flat_map f (List.filter p l) `sublist_of` flat_map f l.
Proof.
  induction l as [|x l IH]; [done|]. cbn [List.filter flat_map].
  destruct (p x); cbn [flat_map].
  - by apply sublist_app.
  - by apply sublist_inserts_l.
Qed.

End LogFacts.

Section ReportFacts.
Import PyStr PyText Engine Log Report SkuFile.

Lemma count_line_step st line :
  let st' := count_line st line in
  total_linhas st' = total_linhas st /\
  (processamentos_sucesso st' + processamentos_falha st' + warnings st' + info st'
   <= S (processamentos_sucesso st + processamentos_falha st + warnings st + info st))%nat /\
  (updates_ok st' + checkpoint_saves st' + processamentos_sucesso st
   <= processamentos_sucesso st' + (updates_ok st + checkpoint_saves st))%nat.
Proof.
  destruct st as [total sucesso falha warn inf ok saves]. unfold count_line.
  repeat match goal with
         | |- context [if ?b then _ else _] => destruct b
         end; cbn; lia.
Qed.

Lemma count_lines_steps lines : forall st,
  let st' := foldl count_line st lines in
  total_linhas st' = total_linhas st /\
  (processamentos_sucesso st' + processamentos_falha st' + warnings st' + info st'
   <= length lines
      + (processamentos_sucesso st + processamentos_falha st + warnings st + info st))%nat /\
  (updates_ok st' + checkpoint_saves st' + processamentos_sucesso st
   <= processamentos_sucesso st' + (updates_ok st + checkpoint_saves st))%nat.
Proof.
  induction lines as [|line lines IH]; intros st; cbn [foldl length].
  - cbn zeta. lia.
  - destruct (IH (count_line st line)) as (Ht & Hsum & Hok).
    destruct (count_line_step st line) as (Ht1 & Hsum1 & Hok1).
    cbn zeta in *. lia.
Qed.

Lemma analyze_execution_log_total log :
  total_linhas (analyze_execution_log log) = length log.
Proof.
  unfold analyze_execution_log.
  by destruct (count_lines_steps log (ExecStats (length log) 0 0 0 0 0 0)) as (-> & _).
Qed.

Lemma analyze_errors_total log : total_erros (analyze_errors log) = length log.
Proof. by destruct log. Qed.

(** X24: in the statistics of the execution log every line is counted
    in at most one of successes, failures, warnings and information
    lines, so these four add up to at most the number of lines; the
    updates and the checkpoint saves are among the successes. *)
Theorem analyze_execution_log_partition :
  forall execution_log : list string,
    let stats := analyze_execution_log execution_log in
    total_linhas stats = length execution_log /\
    (processamentos_sucesso stats + processamentos_falha stats
     + warnings stats + info stats <= length execution_log)%nat /\
    (updates_ok stats + checkpoint_saves stats <= processamentos_sucesso stats)%nat.
Proof.
  intros log stats. unfold stats, analyze_execution_log.
  destruct (count_lines_steps log (ExecStats (length log) 0 0 0 0 0 0))
    as (Ht & Hsum & Hok).
  cbn zeta in *. cbn [total_linhas processamentos_sucesso processamentos_falha
                      warnings info updates_ok checkpoint_saves] in *. lia.
Qed.

Lemma count_into_sum key counts :
  sum_list (map snd (count_into key counts)) = S (sum_list (map snd counts)).
Proof.
  induction counts as [|[k n] rest IH]; [done|]. cbn [count_into].
  destruct (String.eqb k key); cbn [map snd sum_list]; [done|].
  rewrite IH. lia.
Qed.

Lemma count_into_keys key counts :
  map fst (count_into key counts)
  = if bool_decide (key ∈ map fst counts) then map fst counts
    else map fst counts ++ [key].
Proof.
  induction counts as [|[k n] rest IH]; [done|]. cbn [count_into].
  destruct (String.eqb k key) eqn:Heq.
  - apply String.eqb_eq in Heq as ->. cbn [map fst].
    rewrite bool_decide_true; [done|]. apply elem_of_cons. by left.
  - apply String.eqb_neq in Heq. cbn [map fst]. rewrite IH.
    destruct (bool_decide (key ∈ map fst rest)) eqn:Hin.
    + apply bool_decide_eq_true in Hin. rewrite bool_decide_true; [done|].
      apply elem_of_cons. by right.
    + apply bool_decide_eq_false in Hin. rewrite bool_decide_false; [done|].
      intros [?|?]%elem_of_cons; [congruence|done].
Qed.

Lemma count_into_positive key counts :
  Forall (fun p => (0 < p.2)%nat) counts ->
  Forall (fun p => (0 < p.2)%nat) (count_into key counts).
Proof.
  induction 1 as [|[k n] rest Hn Hrest IH]; cbn [count_into].
  - repeat constructor.
  - destruct (String.eqb k key).
    + constructor; [cbn; lia|done].
    + by constructor.
Qed.

Lemma Counter_facts keys : forall counts,
  let result := foldl (fun counts key => count_into key counts) counts keys in
  NoDup (map fst counts) ->
  Forall (fun p => (0 < p.2)%nat) counts ->
  sum_list (map snd result) = (sum_list (map snd counts) + length keys)%nat /\
  NoDup (map fst result) /\
  Forall (fun p => (0 < p.2)%nat) result /\
  (forall k, k ∈ map fst result <-> k ∈ map fst counts \/ k ∈ keys).
Proof.
  induction keys as [|key keys IH]; intros counts result Hnd Hpos.
  - unfold result. cbn. split; [lia|]. split; [done|]. split; [done|].
    intros k. rewrite elem_of_nil. tauto.
  - unfold result. cbn [foldl].
    assert (Hnd' : NoDup (map fst (count_into key counts))).
    { rewrite count_into_keys.
      destruct (bool_decide (key ∈ map fst counts)) eqn:Hin; [done|].
      apply bool_decide_eq_false in Hin. apply NoDup_app. split; [done|].
      split; [|apply NoDup_singleton].
      by intros x Hx ->%list_elem_of_singleton. }
    destruct (IH (count_into key counts) Hnd' (count_into_positive _ _ Hpos))
      as (Hsum & Hnd2 & Hpos2 & Hkeys).
    cbn zeta in *. rewrite Hsum, count_into_sum. cbn [length].
    split; [lia|]. split; [done|]. split; [done|].
    intros k. rewrite Hkeys, count_into_keys, elem_of_cons.
    destruct (bool_decide (key ∈ map fst counts)) eqn:Hin.
    + apply bool_decide_eq_true in Hin. split; [tauto|].
      intros [?|[->|?]]; auto.
    + rewrite elem_of_app, list_elem_of_singleton. tauto.
Qed.

Lemma error_type_label line : error_type line ∈ error_labels.
Proof.
  unfold error_type, error_labels.
  repeat match goal with
         | |- context [if ?b then _ else _] => destruct b
         end; set_solver.
Qed.

(** X25: the error statistics count every line of the error log once:
    the counts of the types add up to the number of lines, each type
    listed is one of the five labels, occurs once in the dictionary and
    with a count that is not zero. *)
Theorem analyze_errors_counts :
  forall error_log : list string,
    let stats := analyze_errors error_log in
    total_erros stats = length error_log /\
    sum_list (map snd (tipos_erros stats)) = length error_log /\
    NoDup (map fst (tipos_erros stats)) /\
    Forall (fun p => p.1 ∈ error_labels /\ (0 < p.2)%nat) (tipos_erros stats).
Proof.
  intros log stats. unfold stats, analyze_errors.
  destruct log as [|line rest]; [by repeat constructor|].
  set (log := line :: rest). cbn [total_erros tipos_erros].
  destruct (Counter_facts (map error_type log) []) as (Hsum & Hnd & Hpos & Hkeys);
    [constructor|constructor|].
  cbn zeta in *. fold (Counter (map error_type log)) in *.
  split; [done|]. split; [by rewrite Hsum, length_map|]. split; [done|].
  apply Forall_forall. intros [k n] Hin. split.
  - assert (Hk : k ∈ map fst (Counter (map error_type log))).
    { apply list_elem_of_fmap. by exists (k, n). }
    apply Hkeys in Hk as [Hk|Hk]; [by apply elem_of_nil in Hk|].
    apply list_elem_of_fmap in Hk as (l & -> & _). apply error_type_label.
  - rewrite Forall_forall in Hpos. by apply (Hpos (k, n)).
Qed.

End ReportFacts.

Section LogReportFacts.
Import PyStr PyText Engine Log Report SkuFile.

(** X22: whatever is logged, from empty logs: the console shows what
    the execution log holds, and the lines of the error log are lines
    of the execution log, in the same order; so the report never
    counts more errors than execution records. *)
Theorem log_message_error_log_within :
  forall calls : list (string * string * string),
    let l := log_all calls (Logs "" "" "") in
    console l = execution_log l /\
    readlines (error_log l) `sublist_of` readlines (execution_log l) /\
    (total_erros (analyze_errors (read_error_log (Some (error_log l))))
     <= total_linhas
          (analyze_execution_log (read_execution_log (Some (execution_log l)))))%nat.
Proof.
  intros calls l. unfold l. rewrite log_all_entries.
  cbn [console execution_log error_log read_error_log read_execution_log].
  change ("" +:+ entries calls) with (entries calls).
  change ("" +:+ entries (List.filter is_error_call calls))
    with (entries (List.filter is_error_call calls)).
  assert (Hsub : readlines (entries (List.filter is_error_call calls))
                 `sublist_of` readlines (entries calls)).
  { rewrite !readlines_entries. apply flat_map_filter_sublist. }
  split; [done|]. split; [done|].
  rewrite analyze_errors_total, analyze_execution_log_total.
  by apply sublist_length.
Qed.

(** X23: [update_image_alt] never logs the expired-cookie line: a
    response with status 401 is false, like every response with a
    status from 400 to 599, so the call falls through to the last
    branch, which logs ["No response"] at level ERROR whatever the
    response said. *)
Theorem update_image_alt_log_no_auth_error :
  forall sku_id new_alt_text response text,
    (update_image_alt_log sku_id new_alt_text response text).2 <> "CRITICAL" /\
    (forall r,
        response = Some r ->
        (400 <= status_code r < 600)%Z ->
        update_image_alt_log sku_id new_alt_text response text
        = ("      [UPDATE ERROR] SKU " +:+ str_int sku_id +:+ ": No response",
           "ERROR")).
Proof.
  intros sku_id alt response text. unfold update_image_alt_log.
  rewrite truthy_status_401. split.
  - by destruct (truthy response && status_is 200 response).
  - intros r -> [Hlo Hhi].
    assert (Hfalse : truthy (Some r) = false).
    { unfold truthy, response_ok.
      rewrite (proj2 (Z.leb_le _ _) Hlo), (proj2 (Z.ltb_lt _ _) Hhi). done. }
    by rewrite Hfalse.
Qed.

Lemma contains_prefix needle hay :
  String.prefix needle hay = true -> contains needle hay = true.
Proof. intros Hp. destruct hay; cbn [contains]; by rewrite Hp. Qed.

Lemma contains_app_l needle a b :
  contains needle b = true -> contains needle (a +:+ b) = true.
Proof.
  intros Hb. induction a as [|c a IH]; [done|].
  change (String c a +:+ b) with (String c (a +:+ b)). cbn [contains].
  rewrite IH. apply orb_true_r.
Qed.

Lemma prefix_append needle rest : String.prefix needle (needle +:+ rest) = true.
Proof.
  induction needle as [|c n IH]; [by destruct rest|].
  change (String c n +:+ rest) with (String c (n +:+ rest)). cbn [String.prefix].
  destruct (ascii_dec c c); [done|congruence].
Qed.

Lemma contains_middle needle a b : contains needle (a +:+ (needle +:+ b)) = true.
Proof. apply contains_app_l, contains_prefix, prefix_append. Qed.

(** X26: the line [update_image_alt] logs for an update that came back
    with status 200 is counted by the report as one update and one
    success, whatever the time stamp and the alt text. *)
Theorem analyze_execution_log_counts_updates :
  forall stats timestamp sku_id new_alt_text r text,
    status_code r = 200%Z ->
    let '(message, level) :=
      update_image_alt_log sku_id new_alt_text (Some r) text in
    count_line stats (format timestamp level message +:+ String newline "")
    = ExecStats (total_linhas stats) (S (processamentos_sucesso stats))
                (processamentos_falha stats) (warnings stats) (info stats)
                (S (updates_ok stats)) (checkpoint_saves stats).
Proof.
  intros stats ts sku_id alt r text Hst. unfold update_image_alt_log.
  rewrite truthy_status_200. cbn [status_is]. rewrite Hst. cbn [Z.eqb Pos.eqb].
  destruct stats as [total sucesso falha warn inf ok saves]. unfold count_line.
  assert (Hline :
    format ts "INFO" ("      [OK] Image updated: '" +:+ alt +:+ "'")
      +:+ String newline ""
    = ("[" +:+ ts +:+ "] [INFO]       ")
        +:+ ("[OK]" +:+ (" Image updated: '" +:+ alt +:+ "'" +:+ String newline ""))).
  { unfold format. rewrite !append_assoc. reflexivity. }
  rewrite Hline, lower_app, (lower_app "[OK]").
  change (lower "[OK]") with "[ok]". by rewrite contains_middle.
Qed.

Lemma omap_length_le {A B} (f : A -> option B) l : (length (omap f l) <= length l)%nat.
Proof.
  induction l as [|x l IH]; [done|]. rewrite omap_cons.
  destruct (f x); cbn [length]; lia.
Qed.

(** X27: the report reads the list file otherwise than the engine: it
    keeps every line that is not blank, comments and lines that are no
    number included.  The IDs the engine loads are the numbers among
    the lines the report keeps that do not start with [#], so the
    report never shows fewer entries than the engine loads IDs. *)
Theorem read_sku_ids_keeps_more :
  forall file : option string,
    load_sku_list file
    = omap (fun entry => if startswith "#" entry then None else parse_int entry)
           (read_sku_ids file) /\
    (length (load_sku_list file) <= length (read_sku_ids file))%nat.
Proof.
  intros file.
  assert (Heq : load_sku_list file
                = omap (fun entry => if startswith "#" entry then None
                                     else parse_int entry)
                       (read_sku_ids file)).
  { destruct file as [text|]; [|done].
    rewrite load_sku_list_lines. unfold read_sku_ids.
    induction (readlines text) as [|line lines IH]; [done|].
    rewrite omap_cons. unfold line_id at 1.
    destruct (nonempty (strip line)) eqn:Hne.
    - rewrite filter_cons_True by done. cbn [map negb orb].
      rewrite omap_cons. destruct (startswith "#" (strip line)); [done|].
      destruct (parse_int (strip line)); by rewrite IH.
    - rewrite filter_cons_False by congruence. done. }
  split; [done|]. rewrite Heq. apply omap_length_le.
Qed.

End LogReportFacts.

(** ** Examples *)

Section Examples.
Import Engine Remotes Scenario.

Example split_example :
  PyStr.split "  Paracetamol   500MG " = ["Paracetamol"; "500MG"].
Proof. reflexivity. Qed.

Example parse_int_examples :
  PyStr.parse_int " 12345 " = Some 12345%Z /\
  PyStr.parse_int "-7" = Some (-7)%Z /\
  PyStr.parse_int "1_000" = Some 1000%Z /\
  PyStr.parse_int "007" = Some 7%Z /\
  PyStr.parse_int "12a" = None /\
  PyStr.parse_int "1__0" = None /\
  PyStr.parse_int "_1" = None /\
  PyStr.parse_int "1_" = None /\
  PyStr.parse_int "" = None /\
  PyStr.parse_int "+" = None /\
  PyStr.parse_int (String "009" "7") = Some 7%Z /\
  PyStr.parse_int (String "160" "7") = Some 7%Z /\
  PyStr.parse_int (String "031" "7") = None /\
  PyStr.strip (String "031" "7") = "7".
Proof. repeat split; reflexivity. Qed.

Example retry_after_seconds_examples :
  retry_after_seconds (Response 429 None NoJson) = Some 60%Z /\
  retry_after_seconds (Response 429 (Some " 5 ") NoJson) = Some 5%Z /\
  retry_after_seconds (Response 429 (Some "-1") NoJson) = None /\
  retry_after_seconds (Response 429 (Some "10000000000") NoJson) = None /\
  retry_after_seconds (Response 429 (Some (String "031" "7")) NoJson) = None /\
  retry_after_seconds (Response 429 (Some "Wed, 21 Oct 2015 07:28:00 GMT") NoJson)
  = None.
Proof. repeat split; reflexivity. Qed.

Example normalize_example :
  AltText.normalize_product_name "  Paracetamol   500MG " = "paracetamol 500mg".
Proof. reflexivity. Qed.

Example load_sku_list_example :
  SkuFile.load_sku_list (Some (text_of ["# lote"; "100"; ""; " 200 "; "abc"; "300"]))
  = [100; 200; 300]%Z.
Proof. reflexivity. Qed.

(** The first run on [fresh_start]: one update for item 100, which is
    checkpointed and leaves the list; item 300, whose image list is a
    404, stays in the list. *)
Example first_run_example :
  let out := run_bulk_update catalog catalog_request 3 true fresh_start in
  length (puts out.2) = 1%nat /\
  processed_skus out.1.2 = [100]%Z /\
  checkpoint_file out.1.2 = Some [100]%Z /\
  sku_file out.1.2 = Some (text_of ["# lote"; "300"]).
Proof. vm_compute. by repeat split. Qed.

(** A run that starts with item 100 in the checkpoint file sends no
    request about item 100. *)
Example checkpointed_item_example :
  let start := State shop [] (Some [100]%Z) (Some (text_of ["100"; "300"])) in
  let out := run_bulk_update catalog catalog_request 3 true start in
  requests out.2
  = [Request GET (SkuUrl 300) None; Request GET (FilesUrl 300) None].
Proof. vm_compute. reflexivity. Qed.

Lemma safe_request_at_settles_witness :
  let rq := list_request 100 in
  let w := [say 429 None NoJson; say 503 None NoJson; say 200 None NoJson] in
  safe_request_at script scripted 3 rq w
  = (Some (Response 503 None NoJson), [say 200 None NoJson],
     [EvWait; EvRequest rq (Some (Response 429 None NoJson)); EvSleep 60;
      EvWait; EvRequest rq (Some (Response 503 None NoJson))]) /\
  settles (Some (Response 503 None NoJson)).
Proof.
  split; [reflexivity|].
  apply (safe_request_at_settles scripted 3 (list_request 100)
           [say 429 None NoJson; say 503 None NoJson; say 200 None NoJson]
           (Some (Response 503 None NoJson)) [say 200 None NoJson]
           [EvWait; EvRequest (list_request 100) (Some (Response 429 None NoJson));
            EvSleep 60;
            EvWait; EvRequest (list_request 100) (Some (Response 503 None NoJson))]).
  reflexivity.
Defined.

Lemma process_single_sku_checkpointed_witness :
  Checkpoint.is_processed 100 [200; 100]%Z = true /\
  process_single_sku script scripted 3 100
    (on_script [say 200 None NoJson] [200; 100]%Z)
  = (Ret true, on_script [say 200 None NoJson] [200; 100]%Z, []).
Proof.
  split; [reflexivity|].
  apply (process_single_sku_checkpointed scripted 3). reflexivity.
Defined.

Lemma process_sku_images_unresolved_unless_200_witness :
  let s := on_script [say 404 None NoJson] [] in
  let r := Response 404 None NoJson in
  safe_request_at script scripted 3 (list_request 300) (remote s)
  = (Some r, [], [EvWait; EvRequest (list_request 300) (Some r)]) /\
  status_is 200 (Some r) = false /\
  process_sku_images script scripted 3 300 (JStr "Soro") s
  = (Ret false, on_script [] [],
     [EvWait; EvRequest (list_request 300) (Some r)]).
Proof.
  split; [reflexivity|]. split; [reflexivity|].
  apply (process_sku_images_unresolved_unless_200 scripted 3 300 (JStr "Soro")
           (on_script [say 404 None NoJson] []) (Some (Response 404 None NoJson)));
    reflexivity.
Defined.

Lemma process_sku_images_marks_iff_updates_succeed_witness :
  let images := [image_record 1 ""; image_record 2 "soro"] in
  let w := [say 200 None (JsonArray images); say 401 None NoJson] in
  all_have_alt images = Ret false /\
  exists s' t,
    process_sku_images script scripted 3 300 (JStr "Soro") (on_script w [])
    = (Ret false, s', t) /\
    processed_skus s' = [].
Proof.
  split; [reflexivity|].
  destruct (proj1 (process_sku_images_marks_iff_updates_succeed scripted 3 300 "Soro"
              (on_script [say 200 None (JsonArray [image_record 1 ""; image_record 2 "soro"]);
                          say 401 None NoJson] [])
              (Response 200 None (JsonArray [image_record 1 ""; image_record 2 "soro"]))
              [say 401 None NoJson]
              [EvWait;
               EvRequest (list_request 300)
                 (Some (Response 200 None
                          (JsonArray [image_record 1 ""; image_record 2 "soro"])))]
              [image_record 1 ""; image_record 2 "soro"]
              eq_refl eq_refl eq_refl eq_refl))
    as (s' & t & Hrun & Hcp & _).
  exists s', t. split; [exact Hrun|exact Hcp].
Defined.

Lemma remove_processed_skus_from_file_compacts_witness :
  let text := text_of ["# lote"; "100"; ""; "200"; "abc"; " 100 "] in
  Exists (fun l => SkuFile.names_processed [100]%Z l = true) (SkuFile.readlines text) /\
  SkuFile.remove_processed_skus_from_file [100]%Z (Some text)
  = (Some (text_of ["# lote"; ""; "200"; "abc"]),
     Some (text_of ["# lote"; ""; "200"; "abc"])).
Proof.
  assert (Hex : Exists (fun l => SkuFile.names_processed [100]%Z l = true)
                  (SkuFile.readlines
                     (text_of ["# lote"; "100"; ""; "200"; "abc"; " 100 "]))).
  { apply Exists_cons_tl, Exists_cons_hd. reflexivity. }
  split; [exact Hex|].
  exact (proj1 (proj2 (proj2 (proj2
           (remove_processed_skus_from_file_compacts [100]%Z
              (text_of ["# lote"; "100"; ""; "200"; "abc"; " 100 "]))))) Hex).
Defined.

Lemma shop_healthy : healthy shop.
Proof.
  split; [done|]. intros sku_id l Hl. unfold shop in Hl. cbn [images] in Hl.
  apply lookup_insert_Some in Hl as [[_ <-]|[_ Hl]];
    [|by rewrite lookup_empty in Hl].
  constructor; [|constructor; [|constructor]];
    (split; [by eexists|intros v [= <-]; right; by eexists]).
Qed.

(** The session at work over a scripted transport: a 429 that names a
    wait and a 503 are retried inside [SESSION.request], which returns
    the 200 of the third attempt; four answers of the retry list in a
    row use up the retries; a 404 is handed over at once. *)
Example session_examples :
  let rq := list_request 100 in
  let ok := fun _ : string => true in
  Session.request script scripted ok
    [say 429 (Some "2") NoJson; say 503 None NoJson; say 200 None NoJson; say 500 None NoJson]
    rq
  = (Some (Response 200 None NoJson), [say 500 None NoJson]) /\
  Session.request script scripted ok
    [say 500 None NoJson; say 502 None NoJson; say 429 None NoJson; say 504 None NoJson;
     say 200 None NoJson]
    rq
  = (None, [say 200 None NoJson]) /\
  Session.request script scripted ok [say 404 None NoJson; say 200 None NoJson] rq
  = (Some (Response 404 None NoJson), [say 200 None NoJson]) /\
  Session.request script scripted (fun _ => false)
    [say 429 (Some "soon") NoJson; say 200 None NoJson] rq
  = (None, [say 200 None NoJson]).
Proof. repeat split. Qed.




Lemma run_bulk_update_labels_listed_witness :
  let s1 := (run_bulk_update catalog catalog_request 3 true fresh_start).1.2 in
  let l := [image_record 1 ""; image_record 2 "dipirona 500mg"] in
  healthy (remote fresh_start) /\
  (100%Z ∈ SkuFile.load_sku_list (sku_file fresh_start)) /\
  (100%Z ∉ default [] (checkpoint_file fresh_start)) /\
  named (remote fresh_start) 100 "Dipirona  500MG" /\
  images (remote fresh_start) !! 100%Z = Some l /\
  all_have_alt l = Ret false /\
  (100%Z ∈ default [] (checkpoint_file s1)) /\
  exists l1,
    images (remote s1) !! 100%Z = Some l1 /\
    length l1 = length l /\
    all_have_alt l1 = Ret true /\
    (all_have_alt l = Ret true -> l1 = l) /\
    (all_have_alt l = Ret false -> all_labelled "dipirona 500mg" l1).
Proof.
  assert (Hin : 100%Z ∈ SkuFile.load_sku_list (sku_file fresh_start)).
  { replace (SkuFile.load_sku_list _) with [100; 300]%Z by (by vm_compute).
    apply elem_of_cons. by left. }
  assert (Hout : 100%Z ∉ default [] (checkpoint_file fresh_start))
    by (by intros ?%elem_of_nil).
  assert (Hnamed : named (remote fresh_start) 100 "Dipirona  500MG").
  { eexists. split; [reflexivity|]. by split. }
  split; [exact shop_healthy|]. split; [exact Hin|]. split; [exact Hout|].
  split; [exact Hnamed|]. split; [reflexivity|]. split; [reflexivity|].
  exact (run_bulk_update_labels_listed 3 true fresh_start shop_healthy 100
           "Dipirona  500MG" [image_record 1 ""; image_record 2 "dipirona 500mg"]
           Hin Hout Hnamed eq_refl).
Defined.

End Examples.

(** ** More examples *)

Section MoreExamples.
Import PyStr PyText Engine Remotes Scenario Run Log Report.

Example str_int_examples :
  str_int 0 = "0" /\ str_int 12345 = "12345" /\ str_int (-7) = "-7".
Proof. repeat split; reflexivity. Qed.

Example contains_examples :
  contains "[ok]" "x [ok] y" = true /\ contains "" "" = true /\
  contains "erro" "error" = true /\ contains "error" "erro" = false.
Proof. repeat split; reflexivity. Qed.

(** A worker that raises (the image list of item 100 is no JSON) does
    not stop the run, and its item stays out of the checkpoint. *)
Example raising_worker_example :
  let w := [say 200 None (JsonObject (<["Name" := JStr "Soro"]> ∅));
            say 200 None NoJson] in
  let start := State w [] None (Some (text_of ["100"])) in
  (process_single_sku script scripted 3 100 start).1.1 = Raise /\
  let out := run_bulk_update script scripted 3 true start in
  out.1.1 = Ret tt /\ processed_skus out.1.2 = [] /\
  sku_file out.1.2 = Some (text_of ["100"]).
Proof. vm_compute. by repeat split. Qed.

(** The report counts the comment of the list file, the engine does
    not. *)
Example read_sku_ids_example :
  read_sku_ids (Some (text_of ["# lote"; "100"; ""; " 200 "; "abc"]))
  = ["# lote"; "100"; "200"; "abc"] /\
  SkuFile.load_sku_list (Some (text_of ["# lote"; "100"; ""; " 200 "; "abc"]))
  = [100; 200]%Z.
Proof. split; reflexivity. Qed.

(** An error line about item 14045 is filed under not found. *)
Example analyze_errors_example :
  tipos_erros
    (analyze_errors
       ["[2024-05-01 10:00:00] [ERROR] Timeout on GET x" +:+ String SkuFile.newline "";
        "[2024-05-01 10:00:01] [ERROR] [GET ERROR] SKU 14045 - Status: 302"
          +:+ String SkuFile.newline "";
        "[2024-05-01 10:00:02] [ERROR] Timeout on PUT y" +:+ String SkuFile.newline ""])
  = [("Timeout", 2%nat); ("N" +:+ a_tilde +:+ "o Encontrado", 1%nat)].
Proof. reflexivity. Qed.

Lemma run_bulk_update_persists_witness :
  SkuFile.load_sku_list (sku_file fresh_start) <> [] /\
  let out := run_bulk_update catalog catalog_request 3 true fresh_start in
  let s' := out.1.2 in
  checkpoint_file s' = Some (processed_skus s') /\
  last (saves out.2) = Some (processed_skus s') /\
  sku_file s'
  = (SkuFile.remove_processed_skus_from_file (processed_skus s')
       (sku_file fresh_start)).1 /\
  SkuFile.load_sku_list (sku_file s')
  = filter (fun id => id ∉ processed_skus s')
           (SkuFile.load_sku_list (sku_file fresh_start)).
Proof.
  assert (Hne : SkuFile.load_sku_list (sku_file fresh_start) <> [])
    by (by vm_compute).
  split; [exact Hne|].
  exact (run_bulk_update_persists catalog_request 3 true fresh_start Hne).
Defined.

Lemma run_bulk_update_saves_witness :
  SkuFile.load_sku_list (sku_file fresh_start) <> [] /\
  let out := run_bulk_update catalog catalog_request 3 false fresh_start in
  length (saves out.2) = 2%nat /\
  Forall (fun l => [] `prefix_of` l /\ l `prefix_of` processed_skus out.1.2)
         (saves out.2).
Proof.
  assert (Hne : SkuFile.load_sku_list (sku_file fresh_start) <> [])
    by (by vm_compute).
  split; [exact Hne|].
  exact (run_bulk_update_saves catalog_request 3 false fresh_start Hne).
Defined.

Lemma run_bulk_update_empty_list_witness :
  let start := State shop [7]%Z (Some [100]%Z) None in
  SkuFile.load_sku_list (sku_file start) = [] /\
  run_bulk_update catalog catalog_request 3 false start
  = (Ret tt, State shop [] (Some []) None, [EvSaveCheckpoint []]).
Proof.
  split; [reflexivity|].
  exact (run_bulk_update_empty_list catalog_request 3 false
           (State shop [7]%Z (Some [100]%Z) None) eq_refl).
Defined.

Lemma process_single_sku_without_name_witness :
  let s := on_script [say 500 None NoJson; say 200 None NoJson] [200]%Z in
  (100%Z ∉ processed_skus s) /\
  process_single_sku script scripted 3 100 s
  = (Ret true, on_script [say 200 None NoJson] [200; 100]%Z,
     [EvWait;
      EvRequest (Request GET (SkuUrl 100) None) (Some (Response 500 None NoJson))]).
Proof.
  assert (Hnew : 100%Z ∉ [200]%Z) by (by intros ?%list_elem_of_singleton).
  split; [exact Hnew|].
  apply (process_single_sku_without_name scripted 3 100
           (on_script [say 500 None NoJson; say 200 None NoJson] [200]%Z)
           (Some (Response 500 None NoJson)));
    [exact Hnew|reflexivity|left; reflexivity].
Defined.

Lemma process_sku_images_all_labelled_witness :
  let images := [image_record 1 "rotulo antigo"; image_record 2 "outro"] in
  let r := Response 200 None (JsonArray images) in
  let t := [EvWait; EvRequest (list_request 300) (Some r)] in
  all_have_alt images = Ret true /\
  process_sku_images script scripted 3 300 (JStr "Soro")
    (on_script [say 200 None (JsonArray images)] [])
  = (Ret true, on_script [] [300]%Z, t) /\
  Forall (fun rq => req_method rq = GET) (requests t).
Proof.
  split; [reflexivity|].
  apply (process_sku_images_all_labelled scripted 3 300 (JStr "Soro")
           (on_script [say 200 None
                         (JsonArray [image_record 1 "rotulo antigo";
                                     image_record 2 "outro"])] [])
           (Response 200 None
              (JsonArray [image_record 1 "rotulo antigo"; image_record 2 "outro"]))
           []
           [EvWait;
            EvRequest (list_request 300)
              (Some (Response 200 None
                       (JsonArray [image_record 1 "rotulo antigo";
                                   image_record 2 "outro"])))]
           [image_record 1 "rotulo antigo"; image_record 2 "outro"]);
    reflexivity.
Defined.

Lemma process_sku_images_bad_body_witness :
  let r := Response 200 None NoJson in
  process_sku_images script scripted 3 300 (JStr "Soro")
    (on_script [say 200 None NoJson] [100]%Z)
  = (Raise, on_script [] [100]%Z, [EvWait; EvRequest (list_request 300) (Some r)]).
Proof.
  apply (process_sku_images_bad_body scripted 3 300 (JStr "Soro")
           (on_script [say 200 None NoJson] [100]%Z) (Response 200 None NoJson));
    [reflexivity|reflexivity|left; reflexivity].
Defined.

Lemma run_bulk_update_completed_rerun_witness :
  let start := State ([] : script) [] None (Some (text_of ["1"; "2"])) in
  let s' := (run_bulk_update script scripted 3 true start).1.2 in
  SkuFile.load_sku_list (sku_file start) <> [] /\
  (forall id, id ∈ SkuFile.load_sku_list (sku_file start) ->
              id ∈ processed_skus s') /\
  SkuFile.load_sku_list (sku_file s') = [] /\
  run_bulk_update script scripted 3 true s' = (Ret tt, s', []).
Proof.
  assert (Hne : SkuFile.load_sku_list
                  (sku_file (State ([] : script) [] None (Some (text_of ["1"; "2"]))))
                <> []) by (by vm_compute).
  assert (Hall :
    forall id,
      id ∈ SkuFile.load_sku_list
             (sku_file (State ([] : script) [] None (Some (text_of ["1"; "2"])))) ->
      id ∈ processed_skus
             (run_bulk_update script scripted 3 true
                (State ([] : script) [] None (Some (text_of ["1"; "2"])))).1.2).
  { intros id Hin.
    replace (SkuFile.load_sku_list _) with [1; 2]%Z in Hin by (by vm_compute).
    replace (processed_skus _) with [1; 2]%Z by (by vm_compute). exact Hin. }
  split; [exact Hne|]. split; [exact Hall|].
  exact (run_bulk_update_completed_rerun scripted 3 true
           (State ([] : script) [] None (Some (text_of ["1"; "2"]))) Hne Hall).
Defined.

Lemma analyze_execution_log_counts_updates_witness :
  count_line (ExecStats 1 0 0 0 0 0 0)
    ("[2024-05-01 10:00:00] [INFO]       [OK] Image updated: 'soro'"
       +:+ String SkuFile.newline "")
  = ExecStats 1 1 0 0 0 1 0.
Proof.
  exact (analyze_execution_log_counts_updates (ExecStats 1 0 0 0 0 0 0)
           "2024-05-01 10:00:00" 100 "soro" (Response 200 None NoJson) "" eq_refl).
Defined.

(** Twelve items against a service that is down: each details call
    fails, each item is marked processed; the checkpoint is saved after
    the tenth item and at the end, and the list file is emptied in two
    steps. *)
Example periodic_save_example :
  let ids := ["1"; "2"; "3"; "4"; "5"; "6"; "7"; "8"; "9"; "10"; "11"; "12"] in
  let start := State ([] : script) [] None (Some (text_of ids)) in
  let out := run_bulk_update script scripted 3 true start in
  saves out.2
  = [[1; 2; 3; 4; 5; 6; 7; 8; 9; 10]%Z;
     [1; 2; 3; 4; 5; 6; 7; 8; 9; 10; 11; 12]%Z] /\
  sku_file out.1.2 = Some "".
Proof. vm_compute. by split. Qed.

End MoreExamples.
